(** * Faceted filter reconciliation of the community map

    A shallow embedding of the filter logic of the sidebar
    (synchronizeFilters, validateFilters, the option lists and
    getFilteredCount) and of the map component (extractLayerData,
    applyMapFilters, applyFilterZoom), with the properties of the
    specification stated over it.

    Conventions of the embedding:
    - a feature property that holds a name (NOM_ENT, NOM_MUN, NOM_COM,
      NOM_LOC, Pueblo) is an [option string]: [None] is an absent
      (undefined or null) property, [Some s] a string property;
    - a feature without a [properties] object behaves everywhere like one
      with an empty object (the code reads [feature.properties || {}]), so
      it is the record whose fields are all [None];
    - a string is the UTF-8 encoding of a JavaScript string, one [ascii]
      per byte; [String.prototype.trim] removes the encodings of the
      WhiteSpace and LineTerminator code points of ECMAScript;
    - a number used as an identifier is given by the string that
      [String] makes of it, the one thing the code reads of it;
    - a [Map] keyed by strings is a [gmap], a [Set] a [gset]; a plain
      object is the [gmap] of its own properties, read and written
      through [Obj.get] and [Obj.set], which account for the properties
      every object inherits from [Object.prototype]; the order of the
      keys, which the code sorts away, is not modelled;
    - an exception thrown inside the [try] of extractLayerData is the
      result [None];
    - the collation of [localeCompare(_, 'es')] is a parameter of the
      option lists: a function that permutes its argument. *)

From Stdlib Require Import ZArith Ascii String List Bool Lia.
From stdpp Require Import base option list sorting strings gmap.

Local Open Scope string_scope.

(** ** JavaScript values and operators used by the code *)

Module Js.

(** Truthiness of a string: every string but the empty one. *)
Definition truthy (s : string) : bool := negb (String.eqb s "").

(** Truthiness of a property that may be absent. *)
Definition otruthy (o : option string) : bool :=
  match o with
  | Some s => truthy s
  | None => false
  end.

(** [a || b] on two properties. *)
Definition or (a b : option string) : option string :=
  if otruthy a then a else b.

(** [p === v] for a property [p] and a string [v]. *)
Definition seq (p : option string) (v : string) : bool :=
  match p with
  | Some s => String.eqb s v
  | None => false
  end.

(** [String(p || '')]. *)
Definition str_or_empty (p : option string) : string :=
  match p with
  | Some s => s
  | None => ""
  end.

(** The value of a byte. *)
Definition byte (c : ascii) (n : nat) : bool := Nat.eqb (nat_of_ascii c) n.

(** White space of one byte: U+0009 to U+000D (tab, line feed, vertical
    tab, form feed, carriage return) and U+0020 (space). *)
Definition is_ws (c : ascii) : bool :=
  let n := nat_of_ascii c in
  (Nat.leb 9 n && Nat.leb n 13) || Nat.eqb n 32.

(** White space of two bytes: U+00A0 (no-break space), C2 A0. *)
Definition is_ws2 (c1 c2 : ascii) : bool := byte c1 194 && byte c2 160.

(** White space of three bytes: U+1680 (E1 9A 80), U+2000 to U+200A
    (E2 80 80 to E2 80 8A), U+2028 and U+2029 (E2 80 A8, E2 80 A9),
    U+202F (E2 80 AF), U+205F (E2 81 9F), U+3000 (E3 80 80) and U+FEFF
    (EF BB BF). *)
Definition is_ws3 (c1 c2 c3 : ascii) : bool :=
  let n3 := nat_of_ascii c3 in
  (byte c1 225 && byte c2 154 && byte c3 128)
  || (byte c1 226 && byte c2 128
      && ((Nat.leb 128 n3 && Nat.leb n3 138)
          || Nat.eqb n3 168 || Nat.eqb n3 169 || Nat.eqb n3 175))
  || (byte c1 226 && byte c2 129 && byte c3 159)
  || (byte c1 227 && byte c2 128 && byte c3 128)
  || (byte c1 239 && byte c2 187 && byte c3 191).

(** The bytes that are left when the white space at the head is gone. *)
Fixpoint dropStart (l : list ascii) : list ascii :=
  match l with
  | c1 :: r1 =>
      if is_ws c1 then dropStart r1
      else match r1 with
           | c2 :: r2 =>
               if is_ws2 c1 c2 then dropStart r2
               else match r2 with
                    | c3 :: r3 => if is_ws3 c1 c2 c3 then dropStart r3 else l
                    | [] => l
                    end
           | [] => l
           end
  | [] => []
  end.

(** The same on the reversed bytes, where a code point comes last byte
    first. *)
Fixpoint dropEndRev (l : list ascii) : list ascii :=
  match l with
  | c1 :: r1 =>
      if is_ws c1 then dropEndRev r1
      else match r1 with
           | c2 :: r2 =>
               if is_ws2 c2 c1 then dropEndRev r2
               else match r2 with
                    | c3 :: r3 => if is_ws3 c3 c2 c1 then dropEndRev r3 else l
                    | [] => l
                    end
           | [] => l
           end
  | [] => []
  end.

Definition trimStart (s : string) : string :=
  string_of_list_ascii (dropStart (list_ascii_of_string s)).

Definition trimEnd (s : string) : string :=
  string_of_list_ascii
    (List.rev (dropEndRev (List.rev (list_ascii_of_string s)))).

Definition trim (s : string) : string := trimEnd (trimStart s).

(** The guard [s && s.trim() !== ''] that the counter and the map filter
    put in front of every facet. *)
Definition nonblank (s : string) : bool := truthy s && truthy (trim s).

End Js.

(** ** Data model *)

(** The [properties] of a vector-tile feature, restricted to the keys the
    filters read: ENT_KEY, MUN_KEY, COM_KEY, LOC_KEY and PUE_KEY. *)
Record Props := mkProps {
  NOM_ENT : option string;
  NOM_MUN : option string;
  NOM_COM : option string;
  NOM_LOC : option string;
  Pueblo : option string
}.

(** An identifier as the tile source delivers it: a string, or a number.
    Of a number the code reads nothing but [String(idVal)], so a number
    is given by that string: the decimal digits of an integer below
    10^21, [1e+21] for 10^21, and so on. *)
Inductive IdVal :=
| IdStr (s : string)
| IdNum (toString : string).

(** A feature: its properties, the [ID] property and the feature [id].
    The geometry is not read by any filter decision and is left out. *)
Record Feature := mkFeature {
  properties : Props;
  prop_ID : option IdVal;
  feature_id : option IdVal
}.

Record FilterState := mkFilters {
  entidad : string;
  municipio : string;
  comunidad : string;
  pueblo : string
}.

(** [keyof FilterState]. *)
Inductive Field := F_entidad | F_municipio | F_comunidad | F_pueblo.

Record ExtractedData := mkData {
  entidades : gset string;
  municipiosPorEntidad : gmap string (gset string);
  comunidadesPorMunicipio : gmap string (gset string);
  pueblos : gset string;
  features : list Feature
}.

#[global] Instance Props_eq_dec : EqDecision Props.
Proof. solve_decision. Defined.
#[global] Instance IdVal_eq_dec : EqDecision IdVal.
Proof. solve_decision. Defined.
#[global] Instance Feature_eq_dec : EqDecision Feature.
Proof. solve_decision. Defined.
#[global] Instance FilterState_eq_dec : EqDecision FilterState.
Proof. solve_decision. Defined.
#[global] Instance Field_eq_dec : EqDecision Field.
Proof. solve_decision. Defined.

Definition emptyFilters : FilterState := mkFilters "" "" "" "".

(** [{ ...filters, [field]: value }]. *)
Definition set_field (fs : FilterState) (field : Field) (value : string) : FilterState :=
  match field with
  | F_entidad => mkFilters value (municipio fs) (comunidad fs) (pueblo fs)
  | F_municipio => mkFilters (entidad fs) value (comunidad fs) (pueblo fs)
  | F_comunidad => mkFilters (entidad fs) (municipio fs) value (pueblo fs)
  | F_pueblo => mkFilters (entidad fs) (municipio fs) (comunidad fs) value
  end.

Definition get_field (fs : FilterState) (field : Field) : string :=
  match field with
  | F_entidad => entidad fs
  | F_municipio => municipio fs
  | F_comunidad => comunidad fs
  | F_pueblo => pueblo fs
  end.

(** [props.NOM_COM || props.NOM_LOC]. *)
Definition featureComunidad (p : Props) : option string :=
  Js.or (NOM_COM p) (NOM_LOC p).

(** The key [`${entidad}|${municipio}`] of comunidadesPorMunicipio. *)
Definition joinKey (ent mun : string) : string := ent ++ "|" ++ mun.

(** [map.get(k) || new Set()]. *)
Definition get_or_empty (m : gmap string (gset string)) (k : string) : gset string :=
  default ∅ (m !! k).

(** ** Predicate and count (sidebar, getFilteredCount) *)

(** The callback given to [features.filter] in getFilteredCount: each
    facet that passes the guard rejects the features that differ. *)
Definition countPredicate (filters : FilterState) (feature : Feature) : bool :=
  let props := properties feature in
  if Js.nonblank (entidad filters) && negb (Js.seq (NOM_ENT props) (entidad filters))
  then false
  else if Js.nonblank (municipio filters) && negb (Js.seq (NOM_MUN props) (municipio filters))
  then false
  else if Js.nonblank (comunidad filters)
          && negb (Js.seq (featureComunidad props) (comunidad filters))
  then false
  else if Js.nonblank (pueblo filters) && negb (Js.seq (Pueblo props) (pueblo filters))
  then false
  else true.

Definition getFilteredCount (extractedData : option ExtractedData)
    (filters : FilterState) : nat :=
  match extractedData with
  | None => 0
  | Some data => length (List.filter (countPredicate filters) (features data))
  end.

(** ** Selection reconciler (sidebar, synchronizeFilters) *)

(** [extractedData.features.some(...)] for the three shapes of callback
    that synchronizeFilters uses. *)
Definition someEntPueblo (data : ExtractedData) (ent pue : string) : bool :=
  existsb (fun feature =>
    let props := properties feature in
    Js.seq (NOM_ENT props) ent && Js.seq (Pueblo props) pue) (features data).

Definition someEntMunPueblo (data : ExtractedData) (ent mun pue : string) : bool :=
  existsb (fun feature =>
    let props := properties feature in
    Js.seq (NOM_ENT props) ent && Js.seq (NOM_MUN props) mun
    && Js.seq (Pueblo props) pue) (features data).

Definition someEntMunComPueblo (data : ExtractedData) (ent mun com pue : string) : bool :=
  existsb (fun feature =>
    let props := properties feature in
    let comunidad := featureComunidad props in
    Js.seq (NOM_ENT props) ent && Js.seq (NOM_MUN props) mun
    && Js.seq comunidad com && Js.seq (Pueblo props) pue) (features data).

(** The first compatibility test of the pueblo branch: every hierarchical
    facet that is set has to agree, together with the new pueblo. *)
Definition somePartialPueblo (data : ExtractedData) (ent mun com value : string) : bool :=
  existsb (fun feature =>
    let props := properties feature in
    let featureCom := featureComunidad props in
    let matchesEntidad := negb (Js.truthy ent) || Js.seq (NOM_ENT props) ent in
    let matchesMunicipio := negb (Js.truthy mun) || Js.seq (NOM_MUN props) mun in
    let matchesComunidad := negb (Js.truthy com) || Js.seq featureCom com in
    matchesEntidad && matchesMunicipio && matchesComunidad
    && Js.seq (Pueblo props) value) (features data).

(** The branch [if (field === 'entidad') ... else if ... 'municipio' ...
    else if ... 'comunidad'] of synchronizeFilters. *)
Definition syncHierarchy (data : ExtractedData) (field : Field) (value : string)
    (newFilters : FilterState) : FilterState :=
  match field with
  | F_entidad =>
      let newFilters := set_field newFilters F_municipio "" in
      let newFilters := set_field newFilters F_comunidad "" in
      if Js.truthy (pueblo newFilters) then
        if someEntPueblo data value (pueblo newFilters) then newFilters
        else set_field newFilters F_pueblo ""
      else newFilters
  | F_municipio =>
      let newFilters := set_field newFilters F_comunidad "" in
      if Js.truthy (pueblo newFilters) && Js.truthy (entidad newFilters) then
        if someEntMunPueblo data (entidad newFilters) value (pueblo newFilters)
        then newFilters
        else set_field newFilters F_pueblo ""
      else newFilters
  | F_comunidad =>
      if Js.truthy (pueblo newFilters) && Js.truthy (entidad newFilters)
         && Js.truthy (municipio newFilters) then
        if someEntMunComPueblo data (entidad newFilters) (municipio newFilters)
             value (pueblo newFilters)
        then newFilters
        else set_field newFilters F_pueblo ""
      else newFilters
  | F_pueblo => newFilters
  end.

(** The block [if (field === 'pueblo')] of synchronizeFilters. The three
    names [ent], [mun], [com] are the values destructured from newFilters
    before any of them is cleared. *)
Definition syncPueblo (data : ExtractedData) (field : Field) (value : string)
    (newFilters : FilterState) : FilterState :=
  match field with
  | F_pueblo =>
      if Js.truthy value && Js.truthy (Js.trim value) then
        let ent := entidad newFilters in
        let mun := municipio newFilters in
        let com := comunidad newFilters in
        if Js.truthy ent || Js.truthy mun || Js.truthy com then
          if somePartialPueblo data ent mun com value then newFilters
          else
            let newFilters :=
              if Js.truthy ent then
                if someEntPueblo data ent value then newFilters
                else set_field (set_field (set_field newFilters F_entidad "")
                                  F_municipio "") F_comunidad ""
              else newFilters in
            let newFilters :=
              if Js.truthy (entidad newFilters) && Js.truthy mun then
                if someEntMunPueblo data (entidad newFilters) mun value then newFilters
                else set_field (set_field newFilters F_municipio "") F_comunidad ""
              else newFilters in
            let newFilters :=
              if Js.truthy (entidad newFilters) && Js.truthy (municipio newFilters)
                 && Js.truthy com then
                if someEntMunComPueblo data (entidad newFilters) (municipio newFilters)
                     com value
                then newFilters
                else set_field newFilters F_comunidad ""
              else newFilters in
            newFilters
        else newFilters
      else newFilters
  | _ => newFilters
  end.

(** The closing normalisation: with no facet left, the clean state. *)
Definition syncClean (newFilters : FilterState) : FilterState :=
  let hasAnyFilter :=
    Js.truthy (entidad newFilters) || Js.truthy (municipio newFilters)
    || Js.truthy (comunidad newFilters) || Js.truthy (pueblo newFilters) in
  if hasAnyFilter then newFilters else mkFilters "" "" "" "".

Definition synchronizeFilters (extractedData : option ExtractedData)
    (field : Field) (value : string) (currentFilters : FilterState) : FilterState :=
  match extractedData with
  | None => currentFilters
  | Some data =>
      let newFilters := set_field currentFilters field value in
      let newFilters := syncHierarchy data field value newFilters in
      let newFilters := syncPueblo data field value newFilters in
      syncClean newFilters
  end.

(** ** Validation of a stored selection (sidebar, validateFilters) *)

(** The four blocks of validateFilters, in their order; each reads the
    selection as the blocks before it left it. *)
Definition validateEntidad (data : ExtractedData) (validated : FilterState) : FilterState :=
  if Js.truthy (entidad validated)
     && negb (bool_decide (entidad validated ∈ entidades data))
  then set_field (set_field (set_field validated F_entidad "") F_municipio "")
         F_comunidad ""
  else validated.

Definition validateMunicipio (data : ExtractedData) (validated : FilterState) : FilterState :=
  if Js.truthy (entidad validated) && Js.truthy (municipio validated) then
    let municipios := get_or_empty (municipiosPorEntidad data) (entidad validated) in
    if negb (bool_decide (municipio validated ∈ municipios))
    then set_field (set_field validated F_municipio "") F_comunidad ""
    else validated
  else validated.

Definition validateComunidad (data : ExtractedData) (validated : FilterState) : FilterState :=
  if Js.truthy (entidad validated) && Js.truthy (municipio validated)
     && Js.truthy (comunidad validated) then
    let key := joinKey (entidad validated) (municipio validated) in
    let comunidades := get_or_empty (comunidadesPorMunicipio data) key in
    if negb (bool_decide (comunidad validated ∈ comunidades))
    then set_field validated F_comunidad ""
    else validated
  else validated.

Definition validatePueblo (data : ExtractedData) (validated : FilterState) : FilterState :=
  if Js.truthy (pueblo validated)
     && negb (bool_decide (pueblo validated ∈ pueblos data))
  then set_field validated F_pueblo ""
  else validated.

Definition validateFilters (extractedData : option ExtractedData)
    (currentFilters : FilterState) : FilterState :=
  match extractedData with
  | None => currentFilters
  | Some data =>
      let validated := currentFilters in
      let validated := validateEntidad data validated in
      let validated := validateMunicipio data validated in
      let validated := validateComunidad data validated in
      let validated := validatePueblo data validated in
      validated
  end.

(** ** Option lists (sidebar, the useMemo hooks) *)

Section OptionLists.

(** [Array.prototype.sort] with [(a, b) => a.localeCompare(b, 'es')]. *)
Variable localeSort : list string → list string.

(** [Array.from(set).sort(...)]. *)
Definition sortedFromSet (s : gset string) : list string :=
  localeSort (elements s).

(** [features.forEach] filling a [Set]: [pick] gives the value a feature
    adds, if any. *)
Definition collect (pick : Feature → option string) (fs : list Feature) : gset string :=
  foldl (fun acc feature =>
           match pick feature with
           | Some v => {[ v ]} ∪ acc
           | None => acc
           end) ∅ fs.

Definition sortedEntidades (extractedData : option ExtractedData)
    (filters : FilterState) : list string :=
  match extractedData with
  | None => []
  | Some data =>
      if Js.truthy (pueblo filters) then
        sortedFromSet (collect (fun feature =>
          let props := properties feature in
          if Js.seq (Pueblo props) (pueblo filters) && Js.otruthy (NOM_ENT props)
          then NOM_ENT props else None) (features data))
      else sortedFromSet (entidades data)
  end.

Definition sortedMunicipios (extractedData : option ExtractedData)
    (filters : FilterState) : list string :=
  match extractedData with
  | None => []
  | Some data =>
      if negb (Js.truthy (entidad filters)) then []
      else if Js.truthy (pueblo filters) then
        sortedFromSet (collect (fun feature =>
          let props := properties feature in
          if Js.seq (Pueblo props) (pueblo filters)
             && Js.seq (NOM_ENT props) (entidad filters)
             && Js.otruthy (NOM_MUN props)
          then NOM_MUN props else None) (features data))
      else sortedFromSet (get_or_empty (municipiosPorEntidad data) (entidad filters))
  end.

Definition sortedComunidades (extractedData : option ExtractedData)
    (filters : FilterState) : list string :=
  match extractedData with
  | None => []
  | Some data =>
      if negb (Js.truthy (entidad filters)) || negb (Js.truthy (municipio filters))
      then []
      else if Js.truthy (pueblo filters) then
        sortedFromSet (collect (fun feature =>
          let props := properties feature in
          let comunidad := featureComunidad props in
          if Js.seq (Pueblo props) (pueblo filters)
             && Js.seq (NOM_ENT props) (entidad filters)
             && Js.seq (NOM_MUN props) (municipio filters)
             && Js.otruthy comunidad
          then comunidad else None) (features data))
      else
        let key := joinKey (entidad filters) (municipio filters) in
        sortedFromSet (get_or_empty (comunidadesPorMunicipio data) key)
  end.

Definition filteredPueblosByHierarchy (extractedData : option ExtractedData)
    (filters : FilterState) : list string :=
  match extractedData with
  | None => []
  | Some data =>
      let ent := entidad filters in
      let mun := municipio filters in
      let com := comunidad filters in
      if negb (Js.truthy ent) && negb (Js.truthy mun) && negb (Js.truthy com)
      then sortedFromSet (pueblos data)
      else
        sortedFromSet (collect (fun feature =>
          let props := properties feature in
          let featureCom := featureComunidad props in
          let matchesEntidad := negb (Js.truthy ent) || Js.seq (NOM_ENT props) ent in
          let matchesMunicipio := negb (Js.truthy mun) || Js.seq (NOM_MUN props) mun in
          let matchesComunidad := negb (Js.truthy com) || Js.seq featureCom com in
          if matchesEntidad && matchesMunicipio && matchesComunidad
             && Js.otruthy (Pueblo props)
          then Pueblo props else None) (features data))
  end.

(** The option list of a facet. *)
Definition optionsFor (extractedData : option ExtractedData)
    (filters : FilterState) (field : Field) : list string :=
  match field with
  | F_entidad => sortedEntidades extractedData filters
  | F_municipio => sortedMunicipios extractedData filters
  | F_comunidad => sortedComunidades extractedData filters
  | F_pueblo => filteredPueblosByHierarchy extractedData filters
  end.

End OptionLists.

(** ** Index builder (map, extractLayerData) *)

(** [String(idVal)]. *)
Definition idToString (v : IdVal) : string :=
  match v with
  | IdStr s => s
  | IdNum toString => toString
  end.

(** [f?.properties?.[ID_KEY] ?? f?.id], then [String] of it, or [''] when
    there is none. *)
Definition recordId (f : Feature) : string :=
  let idVal := match prop_ID f with
               | Some v => Some v
               | None => feature_id f
               end in
  match idVal with
  | Some v => idToString v
  | None => ""
  end.

(** [allFeatures.filter] with the set [seen] that its callback updates. *)
Fixpoint dedupeFrom (seen : gset string) (allFeatures : list Feature) : list Feature :=
  match allFeatures with
  | [] => []
  | f :: rest =>
      let id := recordId f in
      if negb (Js.truthy id) then f :: dedupeFrom seen rest
      else if bool_decide (id ∈ seen) then dedupeFrom seen rest
      else f :: dedupeFrom ({[ id ]} ∪ seen) rest
  end.

Definition uniqueFeatures (allFeatures : list Feature) : list Feature :=
  dedupeFrom ∅ allFeatures.

(** Plain objects [{}] used as dictionaries. The [gmap] holds the own
    properties; behind it stands [Object.prototype]. *)
Module Obj.

(** The property names of [Object.prototype]. *)
Definition protoKeys : list string :=
  [ "constructor"; "__defineGetter__"; "__defineSetter__"; "hasOwnProperty";
    "__lookupGetter__"; "__lookupSetter__"; "isPrototypeOf";
    "propertyIsEnumerable"; "toString"; "valueOf"; "__proto__";
    "toLocaleString" ].

Definition inherited (k : string) : bool := bool_decide (k ∈ protoKeys).

(** What [obj[k]] evaluates to. *)
Inductive Value (A : Type) :=
| Own (a : A)
| Inherited
| Undefined.
Arguments Own {A} a.
Arguments Inherited {A}.
Arguments Undefined {A}.

(** [obj[k]]: the own property, else the member of [Object.prototype] of
    that name (a function, or the prototype itself for [__proto__]),
    else undefined. *)
Definition get {A} (obj : gmap string A) (k : string) : Value A :=
  match obj !! k with
  | Some a => Own a
  | None => if inherited k then Inherited else Undefined
  end.

(** [obj[k] = a] for a value [a] that is not an object: a new own
    property, except under [__proto__], whose setter ignores it. *)
Definition set {A} (obj : gmap string A) (k : string) (a : A) : gmap string A :=
  if String.eqb k "__proto__" then obj else <[ k := a ]> obj.

End Obj.

(** The four objects that the loop over uniqueFeatures fills. *)
Record IndexObjs := mkObjs {
  entidadesObj : gmap string bool;
  municipiosObj : gmap string (list string);
  comunidadesObj : gmap string (list string);
  pueblosObj : gmap string bool
}.

(** [if (!obj[k]) obj[k] = []; if (!obj[k].includes(v)) obj[k].push(v)].
    A member of [Object.prototype] is truthy and has no [includes]: the
    call throws a TypeError, the result [None]. The first assignment is
    reached only for a name that is not inherited, where it makes an own
    property. *)
Definition pushUnique (obj : gmap string (list string)) (k v : string)
    : option (gmap string (list string)) :=
  let obj := match Obj.get obj k with
             | Obj.Undefined => <[ k := [] ]> obj
             | _ => obj
             end in
  match Obj.get obj k with
  | Obj.Own arr =>
      Some (if bool_decide (v ∈ arr) then obj else <[ k := (arr ++ [v])%list ]> obj)
  | _ => None
  end.

(** The callback of [uniqueFeatures.forEach]; [None] when it throws. *)
Definition indexFeature (objs : IndexObjs) (feature : Feature) : option IndexObjs :=
  let props := properties feature in
  let entidad := Js.trim (Js.str_or_empty (NOM_ENT props)) in
  let municipio := Js.trim (Js.str_or_empty (NOM_MUN props)) in
  let comunidad := Js.trim (Js.str_or_empty (featureComunidad props)) in
  let pueblo := Js.trim (Js.str_or_empty (Pueblo props)) in
  let step :=
    if Js.truthy entidad then
      let entObj := Obj.set (entidadesObj objs) entidad true in
      if Js.truthy municipio then
        match pushUnique (municipiosObj objs) entidad municipio with
        | Some munObj =>
            let key := joinKey entidad municipio in
            if Js.truthy comunidad then
              match pushUnique (comunidadesObj objs) key comunidad with
              | Some comObj => Some (mkObjs entObj munObj comObj (pueblosObj objs))
              | None => None
              end
            else Some (mkObjs entObj munObj (comunidadesObj objs) (pueblosObj objs))
        | None => None
        end
      else Some (mkObjs entObj (municipiosObj objs) (comunidadesObj objs)
                   (pueblosObj objs))
    else Some objs in
  match step with
  | Some objs =>
      Some (if Js.truthy pueblo
            then mkObjs (entidadesObj objs) (municipiosObj objs) (comunidadesObj objs)
                   (Obj.set (pueblosObj objs) pueblo true)
            else objs)
  | None => None
  end.

(** The [forEach] loop, which ends at the first exception. *)
Fixpoint indexAll (objs : IndexObjs) (l : list Feature) : option IndexObjs :=
  match l with
  | [] => Some objs
  | feature :: rest =>
      match indexFeature objs feature with
      | Some objs' => indexAll objs' rest
      | None => None
      end
  end.

Definition emptyObjs : IndexObjs := mkObjs ∅ ∅ ∅ ∅.

(** The value [data] that extractLayerData stores in extractedDataRef, or
    [None] when the [catch] block is reached: then nothing is stored and
    nothing is handed to the sidebar. [Object.keys] lists the own
    properties. *)
Definition extractLayerData (rawFeatures : list Feature) : option ExtractedData :=
  let unique := uniqueFeatures rawFeatures in
  match indexAll emptyObjs unique with
  | Some objs =>
      Some (mkData (dom (entidadesObj objs))
                   (list_to_set <$> municipiosObj objs)
                   (list_to_set <$> comunidadesObj objs)
                   (dom (pueblosObj objs))
                   unique)
  | None => None
  end.

(** What the sidebar receives: onDataLoaded is called only when the
    extraction went through and found at least one entidad; until then
    its extractedData stays null. *)
Definition dataLoaded (rawFeatures : list Feature) : option ExtractedData :=
  match extractLayerData rawFeatures with
  | Some data =>
      if bool_decide (0 < size (entidades data))%nat then Some data else None
  | None => None
  end.

(** ** Map layer filter (map, applyMapFilters) *)

Inductive PropKey := ENT_KEY | MUN_KEY | COM_KEY | LOC_KEY | PUE_KEY.

Definition getProp (k : PropKey) (p : Props) : option string :=
  match k with
  | ENT_KEY => NOM_ENT p
  | MUN_KEY => NOM_MUN p
  | COM_KEY => NOM_COM p
  | LOC_KEY => NOM_LOC p
  | PUE_KEY => Pueblo p
  end.

(** The fragment of the style expression language that applyMapFilters
    emits: [['==', ['get', k], v]], [['any', ...]] and [['all', ...]]. *)
#[local] Set Warnings "-register-all".
Inductive FilterExpr :=
| EqGet (k : PropKey) (v : string)
| AnyOf (es : list FilterExpr)
| AllOf (es : list FilterExpr).

(** Evaluation of an expression on a feature: [get] of an absent property
    is null, which equals no string. *)
Fixpoint evalFilter (e : FilterExpr) (p : Props) : bool :=
  match e with
  | EqGet k v => Js.seq (getProp k p) v
  | AnyOf es => existsb (fun e' => evalFilter e' p) es
  | AllOf es => forallb (fun e' => evalFilter e' p) es
  end.

(** The array [conditions] after the four pushes. *)
Definition filterConditions (filters : FilterState) : list FilterExpr :=
  ((if Js.nonblank (entidad filters) then [EqGet ENT_KEY (entidad filters)] else [])
   ++ (if Js.nonblank (municipio filters) then [EqGet MUN_KEY (municipio filters)] else [])
   ++ (if Js.nonblank (comunidad filters)
       then [AnyOf [EqGet COM_KEY (comunidad filters); EqGet LOC_KEY (comunidad filters)]]
       else [])
   ++ (if Js.nonblank (pueblo filters) then [EqGet PUE_KEY (pueblo filters)] else []))%list.

(** [s?.trim()] read as a condition: falsy for the empty and the blank. *)
Definition trimTruthy (s : string) : bool := Js.truthy (Js.trim s).

(** The [filterArray] that applyMapFilters hands to [map.setFilter];
    [None] is the null filter. *)
Definition applyMapFilters (filters : FilterState) : option FilterExpr :=
  let allFiltersEmpty :=
    negb (trimTruthy (entidad filters)) && negb (trimTruthy (municipio filters))
    && negb (trimTruthy (comunidad filters)) && negb (trimTruthy (pueblo filters)) in
  if allFiltersEmpty then None
  else
    let conditions := filterConditions filters in
    match conditions with
    | [] => None
    | [c] => Some c
    | _ => Some (AllOf conditions)
    end.

(** A feature is drawn when the layer has no filter or the filter holds. *)
Definition layerShows (filterArray : option FilterExpr) (feature : Feature) : bool :=
  match filterArray with
  | None => true
  | Some e => evalFilter e (properties feature)
  end.

(** ** Viewport (map, applyFilterZoom) *)

Record Padding := mkPadding {
  top : Z;
  bottom : Z;
  left : Z;
  right : Z
}.

Record FitOptions := mkFit {
  padding : Padding;
  maxZoom : Z
}.

(** The callback of the [filter] call at the head of applyFilterZoom. *)
Definition zoomPredicate (filters : FilterState) (feature : Feature) : bool :=
  let props := properties feature in
  if Js.truthy (entidad filters) && negb (Js.seq (NOM_ENT props) (entidad filters))
  then false
  else if Js.truthy (municipio filters) && negb (Js.seq (NOM_MUN props) (municipio filters))
  then false
  else if Js.truthy (comunidad filters)
          && negb (Js.seq (featureComunidad props) (comunidad filters))
  then false
  else if Js.truthy (pueblo filters) && negb (Js.seq (Pueblo props) (pueblo filters))
  then false
  else true.

(** The [padding] and [maxZoom] chosen by the if-chain. *)
Definition fitOptions (filters : FilterState) : FitOptions :=
  let padding := mkPadding 50 50 50 350 in
  let maxZoom := 16%Z in
  if Js.truthy (comunidad filters) then mkFit (mkPadding 100 100 100 400) 16
  else if Js.truthy (municipio filters) then mkFit (mkPadding 80 80 80 380) 12
  else if Js.truthy (entidad filters) then mkFit (mkPadding 60 60 60 360) 9
  else mkFit padding maxZoom.

(** The options of the [fitBounds] call, or [None] when applyFilterZoom
    returns before it: no data yet, or no feature passes. The bounds
    themselves (floating-point coordinates) are not modelled. *)
Definition applyFilterZoom (extractedData : option ExtractedData)
    (filters : FilterState) : option FitOptions :=
  match extractedData with
  | None => None
  | Some data =>
      let feats := List.filter (zoomPredicate filters) (features data) in
      if Nat.eqb (length feats) 0 then None else Some (fitOptions filters)
  end.

(** ** The three-feature scenario of the specification *)

Module Scenario.

Definition feat (ent mun com pue : string) (id : string) : Feature :=
  mkFeature (mkProps (Some ent) (Some mun) (Some com) None (Some pue))
            (Some (IdNum id)) None.

Definition F1 : Feature := feat "Oaxaca" "Juchitán" "X" "Zapoteco" "1".
Definition F2 : Feature := feat "Oaxaca" "Juchitán" "Y" "Zapoteco" "2".
Definition F3 : Feature := feat "Chiapas" "Z" "W" "Tzotzil" "3".

Definition raw : list Feature := [F1; F2; F3].

(** The index of the three features; the extraction does not throw on
    them. *)
Definition data : ExtractedData :=
  default (mkData ∅ ∅ ∅ ∅ []) (extractLayerData raw).

(** A sort for the option lists of the scenario: merge sort on the
    byte order of strings. *)
Definition byteLe (a b : string) : Prop := String.leb a b = true.

#[local] Instance byteLe_dec : RelDecision byteLe.
Proof. intros a b. unfold byteLe. apply _. Defined.

Definition byteSort (l : list string) : list string := merge_sort byteLe l.

(** The string of the given bytes, and the no-break space U+00A0: white
    space outside ASCII. *)
Definition utf8 (bytes : list nat) : string :=
  string_of_list_ascii (List.map ascii_of_nat bytes).

Definition nbsp : string := utf8 [194; 160].

End Scenario.

(** ** Notions of the specification *)

(** "At least one feature has ..." for the facet combinations that the
    reconciliation rules name. *)
Definition hasEntPueblo (data : ExtractedData) (ent pue : string) : Prop :=
  ∃ f, f ∈ features data
       ∧ NOM_ENT (properties f) = Some ent ∧ Pueblo (properties f) = Some pue.

Definition hasEntMunPueblo (data : ExtractedData) (ent mun pue : string) : Prop :=
  ∃ f, f ∈ features data
       ∧ NOM_ENT (properties f) = Some ent ∧ NOM_MUN (properties f) = Some mun
       ∧ Pueblo (properties f) = Some pue.

Definition hasEntMunComPueblo (data : ExtractedData) (ent mun com pue : string) : Prop :=
  ∃ f, f ∈ features data
       ∧ NOM_ENT (properties f) = Some ent ∧ NOM_MUN (properties f) = Some mun
       ∧ featureComunidad (properties f) = Some com
       ∧ Pueblo (properties f) = Some pue.

(** The hierarchical containment invariant of a selection against an
    index: a municipality needs its state and the pair in
    municipiosPorEntidad, a community needs a valid pair and its own
    entry in comunidadesPorMunicipio. *)
Definition validPair (data : ExtractedData) (fs : FilterState) : Prop :=
  entidad fs ≠ ""
  ∧ municipio fs ∈ get_or_empty (municipiosPorEntidad data) (entidad fs).

Definition hierarchyInvariant (data : ExtractedData) (fs : FilterState) : Prop :=
  (municipio fs ≠ "" → validPair data fs)
  ∧ (comunidad fs ≠ "" →
       municipio fs ≠ "" ∧ validPair data fs
       ∧ comunidad fs ∈ get_or_empty (comunidadesPorMunicipio data)
                          (joinKey (entidad fs) (municipio fs))).

#[global] Instance validPair_dec data fs : Decision (validPair data fs).
Proof. unfold validPair. apply _. Defined.

#[global] Instance hierarchyInvariant_dec data fs : Decision (hierarchyInvariant data fs).
Proof. unfold hierarchyInvariant. apply _. Defined.

(** The hierarchical facets of a selection. *)
Definition hier (fs : FilterState) : string * string * string :=
  (entidad fs, municipio fs, comunidad fs).

(** The shape of the invariant alone: facets are set from the top down. *)
Definition nested (fs : FilterState) : Prop :=
  (municipio fs ≠ "" → entidad fs ≠ "")
  ∧ (comunidad fs ≠ "" → municipio fs ≠ "").

(** An edit whose new value the index lists under the current ancestors
    (any value for the state and people facets, which have none). *)
Definition legalEdit (data : ExtractedData) (fs : FilterState)
    (field : Field) (value : string) : Prop :=
  match field with
  | F_entidad | F_pueblo => True
  | F_municipio =>
      value = ""
      ∨ (entidad fs ≠ ""
         ∧ value ∈ get_or_empty (municipiosPorEntidad data) (entidad fs))
  | F_comunidad =>
      value = ""
      ∨ (municipio fs ≠ ""
         ∧ value ∈ get_or_empty (comunidadesPorMunicipio data)
                     (joinKey (entidad fs) (municipio fs)))
  end.

(** The people rule of the reconciler as the specification words it, for
    the edit of people to [value] on the selection [cur]. *)
Definition peopleRule (data : ExtractedData) (cur : FilterState) (value : string) : Prop :=
  let r := synchronizeFilters (Some data) F_pueblo value cur in
  let ent := entidad cur in
  let mun := municipio cur in
  let com := comunidad cur in
  let stateBad := ent ≠ "" ∧ ¬ hasEntPueblo data ent value in
  let munBad := mun ≠ "" ∧ ¬ hasEntMunPueblo data ent mun value in
  let comBad := com ≠ "" ∧ ¬ hasEntMunComPueblo data ent mun com value in
  (ent = "" → mun = "" → com = "" → r = mkFilters "" "" "" value)
  ∧ (stateBad → r = mkFilters "" "" "" value)
  ∧ (¬ stateBad → munBad → r = mkFilters ent "" "" value)
  ∧ (¬ stateBad → ¬ munBad → comBad → r = mkFilters ent mun "" value)
  ∧ (¬ stateBad → ¬ munBad → ¬ comBad → r = mkFilters ent mun com value).

(** The selection under which an offered value is guaranteed a match:
    the value in its facet, the facets below it cleared. *)
Definition offered (fs : FilterState) (field : Field) (value : string) : FilterState :=
  match field with
  | F_entidad => mkFilters value "" "" (pueblo fs)
  | F_municipio => mkFilters (entidad fs) value "" (pueblo fs)
  | F_comunidad => mkFilters (entidad fs) (municipio fs) value (pueblo fs)
  | F_pueblo => mkFilters (entidad fs) (municipio fs) (comunidad fs) value
  end.

(** Facet fields as the index builder stores them: nothing for [trim] to
    remove. *)
Definition trimmedProp (p : option string) : bool :=
  match p with
  | Some s => String.eqb (Js.trim s) s
  | None => true
  end.

(** A name without the separator of joinKey. *)
Fixpoint noBar (s : string) : bool :=
  match s with
  | String c r => negb (Ascii.eqb c "|") && noBar r
  | EmptyString => true
  end.

Definition cleanFeature (f : Feature) : bool :=
  let p := properties f in
  trimmedProp (NOM_ENT p) && trimmedProp (NOM_MUN p) && trimmedProp (NOM_COM p)
  && trimmedProp (NOM_LOC p) && trimmedProp (Pueblo p)
  && noBar (Js.str_or_empty (NOM_ENT p)).

(** The four names under which the index loop files a feature. *)
Definition indexedEnt (f : Feature) : string :=
  Js.trim (Js.str_or_empty (NOM_ENT (properties f))).
Definition indexedMun (f : Feature) : string :=
  Js.trim (Js.str_or_empty (NOM_MUN (properties f))).
Definition indexedCom (f : Feature) : string :=
  Js.trim (Js.str_or_empty (featureComunidad (properties f))).
Definition indexedPue (f : Feature) : string :=
  Js.trim (Js.str_or_empty (Pueblo (properties f))).

(** Invariant of the index loop: every entry of the four objects was
    filed for some feature of [src]. *)
Definition objsSound (src : list Feature) (objs : IndexObjs) : Prop :=
  (∀ e, e ∈ dom (entidadesObj objs) →
        ∃ f, f ∈ src ∧ indexedEnt f = e ∧ e ≠ "")
  ∧ (∀ e m, m ∈ default [] (municipiosObj objs !! e) →
            ∃ f, f ∈ src ∧ indexedEnt f = e ∧ indexedMun f = m
                 ∧ e ≠ "" ∧ m ≠ "")
  ∧ (∀ k c, c ∈ default [] (comunidadesObj objs !! k) →
            ∃ f, f ∈ src ∧ joinKey (indexedEnt f) (indexedMun f) = k
                 ∧ indexedCom f = c
                 ∧ indexedEnt f ≠ "" ∧ indexedMun f ≠ "" ∧ c ≠ "")
  ∧ (∀ p, p ∈ dom (pueblosObj objs) →
          ∃ f, f ∈ src ∧ indexedPue f = p ∧ p ≠ "").

(** The four tiers of the viewport policy and the camera options of each. *)
Inductive Tier := TierNone | TierState | TierMunicipality | TierCommunity.

Definition tierRank (t : Tier) : nat :=
  match t with
  | TierNone => 0
  | TierState => 1
  | TierMunicipality => 2
  | TierCommunity => 3
  end.

(** The facet of a tier is non-empty in the selection; the tier "none"
    needs no facet. *)
Definition tierPresent (fs : FilterState) (t : Tier) : Prop :=
  match t with
  | TierNone => True
  | TierState => entidad fs ≠ ""
  | TierMunicipality => municipio fs ≠ ""
  | TierCommunity => comunidad fs ≠ ""
  end.

(** [t] is the most specific tier present in the selection. *)
Definition mostSpecific (fs : FilterState) (t : Tier) : Prop :=
  tierPresent fs t ∧ ∀ t', tierPresent fs t' → (tierRank t' ≤ tierRank t)%nat.

Definition tierOptions (t : Tier) : FitOptions :=
  match t with
  | TierNone => mkFit (mkPadding 50 50 50 350) 16
  | TierState => mkFit (mkPadding 60 60 60 360) 9
  | TierMunicipality => mkFit (mkPadding 80 80 80 380) 12
  | TierCommunity => mkFit (mkPadding 100 100 100 400) 16
  end.



(** Facet-wise validity of a stored selection against an index, as
    validateFilters reads it: a facet is examined only when the facets
    above it are set. *)
Definition entOk (data : ExtractedData) (fs : FilterState) : Prop :=
  entidad fs = "" ∨ entidad fs ∈ entidades data.

Definition munOk (data : ExtractedData) (fs : FilterState) : Prop :=
  entidad fs = "" ∨ municipio fs = ""
  ∨ municipio fs ∈ get_or_empty (municipiosPorEntidad data) (entidad fs).

Definition comOk (data : ExtractedData) (fs : FilterState) : Prop :=
  entidad fs = "" ∨ municipio fs = "" ∨ comunidad fs = ""
  ∨ comunidad fs ∈ get_or_empty (comunidadesPorMunicipio data)
                     (joinKey (entidad fs) (municipio fs)).

Definition pueOk (data : ExtractedData) (fs : FilterState) : Prop :=
  pueblo fs = "" ∨ pueblo fs ∈ pueblos data.

#[global] Instance entOk_dec data fs : Decision (entOk data fs).
Proof. unfold entOk. apply _. Defined.
#[global] Instance munOk_dec data fs : Decision (munOk data fs).
Proof. unfold munOk. apply _. Defined.
#[global] Instance comOk_dec data fs : Decision (comOk data fs).
Proof. unfold comOk. apply _. Defined.
#[global] Instance pueOk_dec data fs : Decision (pueOk data fs).
Proof. unfold pueOk. apply _. Defined.

(** * Further functions of the sidebar, the map and the application *)

(** ** Locations of a people (sidebar, getPuebloLocations) *)

(** An entry of the array [locations]. Its [coordinates] take no part
    in the elimination of duplicates and are left out, like the geometry
    of a feature. *)
Record Location := mkLocation {
  loc_entidad : string;
  loc_municipio : string;
  loc_comunidad : string
}.

(** The callback of [map]: [props.NOM_ENT || ''], [props.NOM_MUN || '']
    and [props.NOM_COM || props.NOM_LOC || '']. *)
Definition locationOf (feature : Feature) : Location :=
  let props := properties feature in
  mkLocation (Js.str_or_empty (NOM_ENT props)) (Js.str_or_empty (NOM_MUN props))
             (Js.str_or_empty (featureComunidad props)).

(** The key [`${entidad}|${municipio}|${comunidad}`]. *)
Definition locationKey (l : Location) : string :=
  loc_entidad l ++ "|" ++ loc_municipio l ++ "|" ++ loc_comunidad l.

(** [Array.prototype.findIndex]: the first position that passes, or -1. *)
Fixpoint findIndexFrom {A} (p : A → bool) (i : Z) (l : list A) : Z :=
  match l with
  | [] => (-1)%Z
  | x :: rest => if p x then i else findIndexFrom p (i + 1)%Z rest
  end.

Definition findIndex {A} (p : A → bool) (l : list A) : Z := findIndexFrom p 0%Z l.

(** [Array.prototype.filter] with a callback that reads the index. *)
Fixpoint filterFrom {A} (p : A → Z → bool) (i : Z) (l : list A) : list A :=
  match l with
  | [] => []
  | x :: rest =>
      if p x i then x :: filterFrom p (i + 1)%Z rest
      else filterFrom p (i + 1)%Z rest
  end.

(** The test that the callback of [filter] makes in getPuebloLocations,
    for any key: the first position of the array with the key of [x] is
    [index]. *)
Definition firstWithKey {A} (key : A → string) (array : list A) (x : A)
    (index : Z) : bool :=
  Z.eqb (findIndex (fun l => String.eqb (key l) (key x)) array) index.

Definition getPuebloLocations (extractedData : option ExtractedData)
    (puebloName : string) : list Location :=
  match extractedData with
  | None => []
  | Some data =>
      if negb (Js.truthy puebloName) then []
      else
        let locations :=
          map locationOf
            (List.filter (fun feature => Js.seq (Pueblo (properties feature)) puebloName)
               (features data)) in
        let unique :=
          filterFrom (fun location index =>
              let key := locationKey location in
              Z.eqb (findIndex (fun l => String.eqb (locationKey l) key) locations)
                    index)
            0%Z locations in
        unique
  end.

(** ** Clearing of dependent facets (sidebar, the two effects after the
    scroll handlers) *)

(** [list.includes(x)]. *)
Definition includes (x : string) (l : list string) : bool := bool_decide (x ∈ l).

(** The selection after the first effect, whose update
    [prev => ({ ...prev, municipio: '', comunidad: '' })] is applied to
    the selection the effect has read. *)
Definition clearDependentMunicipio (sortedMunicipios : list string)
    (filters : FilterState) : FilterState :=
  if Js.truthy (entidad filters) then
    let prevMunicipio := municipio filters in
    if Js.truthy prevMunicipio && negb (includes prevMunicipio sortedMunicipios)
    then set_field (set_field filters F_municipio "") F_comunidad ""
    else filters
  else filters.

(** The selection after the second effect. *)
Definition clearDependentComunidad (sortedComunidades : list string)
    (filters : FilterState) : FilterState :=
  if Js.truthy (municipio filters) then
    let prevComunidad := comunidad filters in
    if Js.truthy prevComunidad && negb (includes prevComunidad sortedComunidades)
    then set_field filters F_comunidad ""
    else filters
  else filters.

(** ** The effect that validates the selection when the data change
    (sidebar) *)

(** [needsUpdate]: some key of the selection differs after validation. *)
Definition needsUpdate (filters validatedFilters : FilterState) : bool :=
  existsb (fun key =>
             negb (String.eqb (get_field filters key) (get_field validatedFilters key)))
    [F_entidad; F_municipio; F_comunidad; F_pueblo].

(** The selection the effect leaves: the validated one when it differs. *)
Definition validationEffect (extractedData : option ExtractedData)
    (filters : FilterState) : FilterState :=
  match extractedData with
  | None => filters
  | Some _ =>
      let validatedFilters := validateFilters extractedData filters in
      if needsUpdate filters validatedFilters then validatedFilters else filters
  end.

(** ** Highlight of a community (map, highlightCommunityPoints) *)

(** The condition of every ['case'] expression that
    highlightCommunityPoints sets. *)
Definition highlightCondition (communityName : string) : FilterExpr :=
  AnyOf [EqGet COM_KEY communityName; EqGet LOC_KEY communityName].

(** A point is painted as highlighted: a name is given ([null] and the
    empty name reset the paint) and the condition holds. *)
Definition isHighlighted (communityName : option string) (feature : Feature) : bool :=
  match communityName with
  | None => false
  | Some name =>
      if negb (Js.truthy name) then false
      else evalFilter (highlightCondition name) (properties feature)
  end.

(** ** A click on a point of the map (map, the click handler of
    attachAllTooltipEvents; application, handleFilterChangeFromMap) *)

(** [a ?? b] on a property and a string. *)
Definition nullish (a : option string) (b : string) : string :=
  match a with
  | Some s => s
  | None => b
  end.

(** The argument of onFilterChangeFromMap; every field is optional. *)
Record Patch := mkPatch {
  patch_entidad : option string;
  patch_municipio : option string;
  patch_localidad : option string;
  patch_pueblo : option string
}.

(** The patch the click handler sends for the properties of the clicked
    feature; [PUEBLO] is the property of that name, read when [Pueblo] is
    absent. *)
Definition clickPatch (props : Props) (PUEBLO : option string) : Patch :=
  let NOM_ENT' := nullish (NOM_ENT props) "—" in
  let NOM_MUN' := nullish (NOM_MUN props) "—" in
  let PUEBLO' := match Pueblo props with
                 | Some s => s
                 | None => nullish PUEBLO "—"
                 end in
  let NOM_LOC' := nullish (NOM_LOC props) "—" in
  mkPatch (Some NOM_ENT') (Some NOM_MUN') (Some NOM_LOC') (Some PUEBLO').

Definition handleFilterChangeFromMap (extractedData : option ExtractedData)
    (prev : FilterState) (patch : Patch) : FilterState :=
  match extractedData with
  | None => prev
  | Some data =>
      if Js.otruthy (patch_entidad patch) then
        let entidadMatch :=
          List.find (fun e => Js.seq (patch_entidad patch) e)
            (elements (entidades data)) in
        match entidadMatch with
        | Some e =>
            if Js.truthy e then
              mkFilters e
                (Js.str_or_empty (patch_municipio patch))
                (Js.str_or_empty (patch_localidad patch))
                (Js.str_or_empty (patch_pueblo patch))
            else prev
        | None => prev
        end
      else prev
  end.

(** ** Base style of the map (map, getCurrentStyleUrl, toggle3D,
    toggleSatellite) *)

Definition apiKey : string := "QAha5pFBxf4hGa8Jk5zv".
Definition lightStyleUrl : string := "https://www.mapabase.atdt.gob.mx/style_3d.json".
Definition darkStyleUrl : string :=
  "https://www.mapabase.atdt.gob.mx/style_black_3d_places.json".
Definition outdoor3DStyleUrl : string :=
  "https://api.maptiler.com/maps/outdoor-v2/style.json?key=" ++ apiKey.
Definition satelliteStyleUrl : string :=
  "https://www.mapabase.atdt.gob.mx/style_satellite.json".

(** The three flags of the component and the style the map shows. *)
Record StyleState := mkStyle {
  isSatellite : bool;
  is3D : bool;
  isDarkTheme : bool;
  mapStyle : string
}.

Definition getCurrentStyleUrl (st : StyleState) : string :=
  if isSatellite st then satelliteStyleUrl
  else if is3D st then outdoor3DStyleUrl
  else if isDarkTheme st then darkStyleUrl else lightStyleUrl.

(** toggle3D on a map that exists: the flag flips, and [setStyle] is
    called when [needsStyleChange]. *)
Definition toggle3D (st : StyleState) : StyleState :=
  let currentIsSatellite := isSatellite st in
  let newIs3D := negb (is3D st) in
  let newStyleUrl :=
    if currentIsSatellite then satelliteStyleUrl
    else if newIs3D then outdoor3DStyleUrl
    else if isDarkTheme st then darkStyleUrl else lightStyleUrl in
  let needsStyleChange :=
    (newIs3D && negb currentIsSatellite) || (negb newIs3D && negb currentIsSatellite) in
  mkStyle (isSatellite st) newIs3D (isDarkTheme st)
          (if needsStyleChange then newStyleUrl else mapStyle st).

(** toggleSatellite on a map that exists: [setStyle] is always called. *)
Definition toggleSatellite (st : StyleState) : StyleState :=
  let was3D := is3D st in
  let newIsSatellite := negb (isSatellite st) in
  let newStyleUrl :=
    if was3D then (if newIsSatellite then satelliteStyleUrl else outdoor3DStyleUrl)
    else (if newIsSatellite then satelliteStyleUrl
          else if isDarkTheme st then darkStyleUrl else lightStyleUrl) in
  mkStyle newIsSatellite (is3D st) (isDarkTheme st) newStyleUrl.

Inductive StyleEvent := Toggle3D | ToggleSatellite.

Definition styleStep (st : StyleState) (ev : StyleEvent) : StyleState :=
  match ev with
  | Toggle3D => toggle3D st
  | ToggleSatellite => toggleSatellite st
  end.

(** ** Measuring modes (map, toggleMeasurement, toggleLineMeasurement,
    clearAllRoutes) *)

Section Measuring.

(** A drawn route or line, and a clicked point. *)
Variables Route Point : Type.

Record MeasureState := mkMeasure {
  isMeasuring : bool;
  isMeasuringLine : bool;
  routesData : list Route;
  linesData : list Route;
  currentPoints : list Point;
  currentLinePoints : list Point
}.

(** The state part of clearAllRoutes. *)
Definition clearAllRoutes (st : MeasureState) : MeasureState :=
  mkMeasure (isMeasuring st) (isMeasuringLine st) [] [] (currentPoints st)
            (currentLinePoints st).

Definition toggleMeasurement (st : MeasureState) : MeasureState :=
  let was := isMeasuring st in
  let st' := mkMeasure (negb was) false (routesData st) (linesData st)
               (currentPoints st) (currentLinePoints st) in
  let st' := if was then clearAllRoutes st' else st' in
  mkMeasure (isMeasuring st') (isMeasuringLine st') (routesData st') (linesData st')
            [] [].

Definition toggleLineMeasurement (st : MeasureState) : MeasureState :=
  let was := isMeasuringLine st in
  let st' := mkMeasure false (negb was) (routesData st) (linesData st)
               (currentPoints st) (currentLinePoints st) in
  let st' := if was then clearAllRoutes st' else st' in
  mkMeasure (isMeasuring st') (isMeasuringLine st') (routesData st') (linesData st')
            [] [].

Inductive MeasureEvent := ToggleMeasurement | ToggleLineMeasurement.

Definition measureStep (st : MeasureState) (ev : MeasureEvent) : MeasureState :=
  match ev with
  | ToggleMeasurement => toggleMeasurement st
  | ToggleLineMeasurement => toggleLineMeasurement st
  end.

End Measuring.

(** ** Notions for the further properties *)

(** Some feature supports the edit: it carries the new value together
    with the facets above it. For people the selection has to be set from
    the top down and the value must not be blank. *)
Definition editSupported (data : ExtractedData) (cur : FilterState)
    (field : Field) (value : string) : Prop :=
  match field with
  | F_entidad =>
      ∃ f, f ∈ features data ∧ NOM_ENT (properties f) = Some value
  | F_municipio =>
      entidad cur ≠ ""
      ∧ ∃ f, f ∈ features data
             ∧ NOM_ENT (properties f) = Some (entidad cur)
             ∧ NOM_MUN (properties f) = Some value
  | F_comunidad =>
      entidad cur ≠ "" ∧ municipio cur ≠ ""
      ∧ ∃ f, f ∈ features data
             ∧ NOM_ENT (properties f) = Some (entidad cur)
             ∧ NOM_MUN (properties f) = Some (municipio cur)
             ∧ featureComunidad (properties f) = Some value
  | F_pueblo =>
      Js.nonblank value = true ∧ nested cur
      ∧ ∃ f, f ∈ features data ∧ Pueblo (properties f) = Some value
  end.

(** Second invariant of the index loop: every name of the features of
    [done] has been filed, but for the name [__proto__] of a state or a
    people, which no assignment stores. *)
Definition objsComplete (done : list Feature) (objs : IndexObjs) : Prop :=
  ∀ f, f ∈ done →
    (indexedEnt f ≠ "" → indexedEnt f ≠ "__proto__" →
     indexedEnt f ∈ dom (entidadesObj objs))
    ∧ (indexedEnt f ≠ "" → indexedMun f ≠ "" →
       indexedMun f ∈ default [] (municipiosObj objs !! indexedEnt f))
    ∧ (indexedEnt f ≠ "" → indexedMun f ≠ "" → indexedCom f ≠ "" →
       indexedCom f ∈ default [] (comunidadesObj objs
                                    !! joinKey (indexedEnt f) (indexedMun f)))
    ∧ (indexedPue f ≠ "" → indexedPue f ≠ "__proto__" →
       indexedPue f ∈ dom (pueblosObj objs)).

(** Third invariant: no own property of the object has a name of
    [Object.prototype]. *)
Definition plainKeys (obj : gmap string (list string)) : Prop :=
  ∀ k, is_Some (obj !! k) → Obj.inherited k = false.

(** The features on which the loop throws: a municipality under a state
    whose name is a property of [Object.prototype]. *)
Definition throwsOn (f : Feature) : bool :=
  Js.truthy (indexedEnt f) && Js.truthy (indexedMun f)
  && Obj.inherited (indexedEnt f).

(** A state or people name that [Object.keys] lists once it is stored. *)
Definition listedName (s : string) : Prop := s ≠ "" ∧ s ≠ "__proto__".

(** A facet that is empty or has something left after [trim]. *)
Definition emptyOrNonblank (s : string) : Prop := s = "" ∨ Js.nonblank s = true.

(** * Properties *)

(** ** Reading the boolean tests of the code *)

Lemma truthy_true (s : string) : Js.truthy s = true ↔ s ≠ "".
Proof.
  unfold Js.truthy. rewrite negb_true_iff.
  split.
  - intros H E. subst s. discriminate H.
  - intros H. apply String.eqb_neq. exact H.
Qed.

Lemma truthy_false (s : string) : Js.truthy s = false ↔ s = "".
Proof.
  unfold Js.truthy. rewrite negb_false_iff. apply String.eqb_eq.
Qed.

Lemma seq_true (p : option string) (v : string) : Js.seq p v = true ↔ p = Some v.
Proof.
  destruct p as [s|]; simpl.
  - rewrite String.eqb_eq. split; congruence.
  - split; discriminate.
Qed.

Lemma trim_empty : Js.trim "" = "".
Proof. reflexivity. Qed.

(** [trim] removes the white space of ECMAScript on both sides, in ASCII
    and beyond (U+00A0, U+1680, U+2000 to U+200A, U+2028, U+2029, U+202F,
    U+205F, U+3000, U+FEFF), and keeps what is inside. It keeps what is
    no white space: U+200B, U+0085, U+180E, and a letter whose last byte
    is that of U+00A0. *)
Example trim_white_space :
  let ws := Scenario.utf8 [9; 10; 11; 12; 13; 32; 194; 160; 225; 154; 128;
                           226; 128; 128; 226; 128; 138; 226; 128; 168;
                           226; 128; 169; 226; 128; 175; 226; 129; 159;
                           227; 128; 128; 239; 187; 191] in
  Js.trim (ws ++ "a" ++ ws ++ "b" ++ ws) = "a" ++ ws ++ "b"
  ∧ Js.trim ws = ""
  ∧ Js.nonblank Scenario.nbsp = false
  ∧ Js.trim (Scenario.utf8 [226; 128; 139]) = Scenario.utf8 [226; 128; 139]
  ∧ Js.trim (Scenario.utf8 [194; 133]) = Scenario.utf8 [194; 133]
  ∧ Js.trim (Scenario.utf8 [225; 160; 142]) = Scenario.utf8 [225; 160; 142]
  ∧ Js.trim "à" = "à".
Proof. vm_compute. repeat split. Qed.

Lemma nonblank_trimTruthy (s : string) : Js.nonblank s = trimTruthy s.
Proof.
  unfold Js.nonblank, trimTruthy.
  destruct (Js.truthy s) eqn:E; [reflexivity|].
  apply truthy_false in E. subst s. reflexivity.
Qed.

Lemma nonblank_truthy (s : string) : Js.nonblank s = true → s ≠ "".
Proof.
  unfold Js.nonblank. intros H. apply andb_true_iff in H as [H _].
  by apply truthy_true.
Qed.

Lemma existsb_elem_of {A} (p : A → bool) (l : list A) :
  existsb p l = true ↔ ∃ x, x ∈ l ∧ p x = true.
Proof.
  rewrite existsb_exists. split; intros (x & Hx & Hp); exists x; split; auto;
    by apply list_elem_of_In.
Qed.

Lemma someEntPueblo_spec data ent pue :
  someEntPueblo data ent pue = true ↔ hasEntPueblo data ent pue.
Proof.
  unfold someEntPueblo, hasEntPueblo. rewrite existsb_elem_of.
  split; intros (f & Hf & H); exists f; split; auto.
  - apply andb_true_iff in H as [H1 H2]. by rewrite <- !seq_true.
  - destruct H as [H1 H2]. apply andb_true_iff. by rewrite !seq_true.
Qed.

Lemma someEntMunPueblo_spec data ent mun pue :
  someEntMunPueblo data ent mun pue = true ↔ hasEntMunPueblo data ent mun pue.
Proof.
  unfold someEntMunPueblo, hasEntMunPueblo. rewrite existsb_elem_of.
  split; intros (f & Hf & H); exists f; split; auto.
  - rewrite !andb_true_iff in H. destruct H as [[H1 H2] H3].
    by rewrite <- !seq_true.
  - destruct H as (H1 & H2 & H3). rewrite !andb_true_iff. by rewrite !seq_true.
Qed.

Lemma someEntMunComPueblo_spec data ent mun com pue :
  someEntMunComPueblo data ent mun com pue = true
  ↔ hasEntMunComPueblo data ent mun com pue.
Proof.
  unfold someEntMunComPueblo, hasEntMunComPueblo. rewrite existsb_elem_of.
  split; intros (f & Hf & H); exists f; split; auto.
  - rewrite !andb_true_iff in H. destruct H as [[[H1 H2] H3] H4].
    by rewrite <- !seq_true.
  - destruct H as (H1 & H2 & H3 & H4). rewrite !andb_true_iff.
    by rewrite !seq_true.
Qed.

(** ** The reconciler without data *)

(** C10: while no index is available (extractedData is null),
    synchronizeFilters returns the selection it was given for every edit:
    the edited value is not applied and no facet is cleared. *)
Theorem synchronizeFilters_without_data (field : Field) (value : string)
    (currentFilters : FilterState) :
  synchronizeFilters None field value currentFilters = currentFilters
  ∧ get_field (synchronizeFilters None field value currentFilters) field
    = get_field currentFilters field.
Proof. split; reflexivity. Qed.

(** ** Editing the state facet *)

Lemma syncClean_id (fs : FilterState) : syncClean fs = fs.
Proof.
  unfold syncClean. destruct fs as [e m c p]; simpl.
  destruct (Js.truthy e) eqn:He; [reflexivity|].
  destruct (Js.truthy m) eqn:Hm; [reflexivity|].
  destruct (Js.truthy c) eqn:Hc; [reflexivity|].
  destruct (Js.truthy p) eqn:Hp; [reflexivity|].
  apply truthy_false in He, Hm, Hc, Hp. by subst.
Qed.

(** C4: an edit of the state facet sets state to the new value and
    clears municipality and community whatever they were; people is
    cleared exactly when it was set and no feature carries both the new
    state and that people value, and is kept otherwise. In the scenario
    of three features, people = Tzotzil followed by state = Oaxaca gives
    state = Oaxaca with the other facets empty, and the count is 2. *)
Theorem edit_state_cascade :
  (∀ data value cur,
     let r := synchronizeFilters (Some data) F_entidad value cur in
     entidad r = value ∧ municipio r = "" ∧ comunidad r = ""
     ∧ (pueblo cur ≠ "" ∧ ¬ hasEntPueblo data value (pueblo cur) → pueblo r = "")
     ∧ (pueblo cur = "" ∨ hasEntPueblo data value (pueblo cur)
        → pueblo r = pueblo cur))
  ∧ (let sel1 := synchronizeFilters (Some Scenario.data) F_pueblo "Tzotzil"
                   emptyFilters in
     let sel2 := synchronizeFilters (Some Scenario.data) F_entidad "Oaxaca" sel1 in
     sel1 = mkFilters "" "" "" "Tzotzil"
     ∧ sel2 = mkFilters "Oaxaca" "" "" ""
     ∧ getFilteredCount (Some Scenario.data) sel2 = 2).
Proof.
  split.
  - intros data value cur r. subst r.
    unfold synchronizeFilters. rewrite syncClean_id.
    destruct cur as [e m c p]; simpl.
    destruct (Js.truthy p) eqn:Hp; simpl.
    + apply truthy_true in Hp.
      destruct (someEntPueblo data value p) eqn:Hs; simpl.
      * apply someEntPueblo_spec in Hs.
        repeat split; auto. intros [_ Hn]. contradiction.
      * repeat split; auto. intros [Hp'|Hh]; [contradiction|].
        apply someEntPueblo_spec in Hh. congruence.
    + apply truthy_false in Hp. subst p.
      repeat split; auto.
  - vm_compute. repeat split.
Qed.

(** ** Counting *)

Lemma filter_length_le {A} (p q : A → bool) (l : list A) :
  (∀ x, p x = true → q x = true) →
  (length (List.filter p l) ≤ length (List.filter q l))%nat.
Proof.
  intros Hpq. induction l as [|x l IH]; simpl; [lia|].
  destruct (p x) eqn:Hp.
  - rewrite (Hpq x Hp). simpl. lia.
  - destruct (q x); simpl; lia.
Qed.

Lemma filter_length_pos {A} (p : A → bool) (l : list A) (x : A) :
  x ∈ l → p x = true → (0 < length (List.filter p l))%nat.
Proof.
  intros Hx Hp.
  assert (Hin : In x (List.filter p l)).
  { apply filter_In. split; [by apply list_elem_of_In|exact Hp]. }
  destruct (List.filter p l); [destruct Hin|simpl; lia].
Qed.

(** A facet left empty puts no condition on a feature. *)
Lemma countPredicate_narrow (filters : FilterState) (field : Field)
    (value : string) (f : Feature) :
  get_field filters field = "" →
  countPredicate (set_field filters field value) f = true →
  countPredicate filters f = true.
Proof.
  destruct filters as [e m c p]. unfold countPredicate.
  destruct field; simpl; intros ->; simpl;
    repeat match goal with
    | |- context [if ?b then _ else _] => destruct b eqn:?; simpl
    end; congruence.
Qed.

(** C9: replacing an empty facet of a selection by any value, so also
    by a non-empty one, never raises the count. *)
Theorem count_monotone_narrowing (extractedData : option ExtractedData)
    (filters : FilterState) (field : Field) (value : string) :
  get_field filters field = "" →
  (getFilteredCount extractedData (set_field filters field value)
   ≤ getFilteredCount extractedData filters)%nat.
Proof.
  intros Hempty. destruct extractedData as [data|]; simpl; [|lia].
  apply filter_length_le. intros f. by apply countPredicate_narrow.
Qed.

Lemma count_monotone_narrowing_witness :
  get_field (mkFilters "Oaxaca" "Juchitán" "" "") F_comunidad = ""
  ∧ (getFilteredCount (Some Scenario.data)
       (set_field (mkFilters "Oaxaca" "Juchitán" "" "") F_comunidad "X")
     ≤ getFilteredCount (Some Scenario.data) (mkFilters "Oaxaca" "Juchitán" "" ""))%nat.
Proof.
  split; [reflexivity|].
  apply (count_monotone_narrowing (Some Scenario.data)
           (mkFilters "Oaxaca" "Juchitán" "" "") F_comunidad "X").
  reflexivity.
Defined.

(** ** Viewport *)

Lemma mostSpecific_unique (fs : FilterState) (t1 t2 : Tier) :
  mostSpecific fs t1 → mostSpecific fs t2 → t1 = t2.
Proof.
  intros [P1 M1] [P2 M2].
  specialize (M1 t2 P2). specialize (M2 t1 P1).
  destruct t1, t2; simpl in *; try reflexivity; lia.
Qed.

Lemma mostSpecific_exists (fs : FilterState) : ∃ t, mostSpecific fs t.
Proof.
  destruct (decide (comunidad fs = "")) as [Hc|Hc].
  - destruct (decide (municipio fs = "")) as [Hm|Hm].
    + destruct (decide (entidad fs = "")) as [He|He].
      * exists TierNone. split; [exact I|].
        intros [] Hp; simpl in *; try lia; contradiction.
      * exists TierState. split; [exact He|].
        intros [] Hp; simpl in *; try lia; contradiction.
    + exists TierMunicipality. split; [exact Hm|].
      intros [] Hp; simpl in *; try lia; contradiction.
  - exists TierCommunity. split; [exact Hc|].
    intros [] Hp; simpl; lia.
Qed.

Lemma fitOptions_mostSpecific (fs : FilterState) (t : Tier) :
  mostSpecific fs t → fitOptions fs = tierOptions t.
Proof.
  intros [Hp Hmax]. unfold fitOptions.
  destruct (Js.truthy (comunidad fs)) eqn:Hc.
  { apply truthy_true in Hc. specialize (Hmax TierCommunity Hc).
    destruct t; simpl in *; try lia; reflexivity. }
  apply truthy_false in Hc.
  destruct (Js.truthy (municipio fs)) eqn:Hm.
  { apply truthy_true in Hm. specialize (Hmax TierMunicipality Hm).
    destruct t; simpl in *; try lia; try reflexivity; contradiction. }
  apply truthy_false in Hm.
  destruct (Js.truthy (entidad fs)) eqn:He.
  { apply truthy_true in He. specialize (Hmax TierState He).
    destruct t; simpl in *; try lia; try reflexivity; contradiction. }
  apply truthy_false in He.
  destruct t; simpl in *; try reflexivity; contradiction.
Qed.

(** C7: the camera options of applyFilterZoom are those of one of four
    tiers, chosen by the most specific non-empty hierarchical facet alone
    (community, then municipality, then state, then none); the four tiers
    differ, each fixes a maxZoom and a padding that is equal on three
    sides and larger on the right; a selection with people only gets the
    tier "none" whenever the camera is moved, with one matching feature
    as with two. *)
Theorem viewport_four_tiers :
  (∀ fs, ∃ t, mostSpecific fs t
              ∧ fitOptions fs = tierOptions t
              ∧ ∀ data o, applyFilterZoom data fs = Some o → o = tierOptions t)
  ∧ (∀ t1 t2, tierOptions t1 = tierOptions t2 → t1 = t2)
  ∧ (∀ t, let p := padding (tierOptions t) in
          top p = bottom p ∧ bottom p = left p ∧ (left p < right p)%Z
          ∧ (0 < maxZoom (tierOptions t))%Z)
  ∧ (∀ data p o, applyFilterZoom data (mkFilters "" "" "" p) = Some o →
                 o = tierOptions TierNone)
  ∧ applyFilterZoom (Some Scenario.data) (mkFilters "" "" "" "Zapoteco")
    = Some (tierOptions TierNone)
  ∧ applyFilterZoom (Some Scenario.data) (mkFilters "" "" "" "Tzotzil")
    = Some (tierOptions TierNone).
Proof.
  split; [|split; [|split; [|split; [|split]]]].
  - intros fs. destruct (mostSpecific_exists fs) as [t Ht].
    exists t. split; [exact Ht|]. split; [by apply fitOptions_mostSpecific|].
    intros data o. unfold applyFilterZoom.
    destruct data as [d|]; [|discriminate].
    destruct (Nat.eqb _ 0); [discriminate|].
    intros [= <-]. by apply fitOptions_mostSpecific.
  - intros [] []; simpl; intros H; try reflexivity; discriminate H.
  - intros []; simpl; repeat split; lia.
  - intros data p o. unfold applyFilterZoom.
    destruct data as [d|]; [|discriminate].
    destruct (Nat.eqb _ 0); [discriminate|].
    intros [= <-]. reflexivity.
  - vm_compute. reflexivity.
  - vm_compute. reflexivity.
Qed.

(** ** The map filter against the counter *)

Lemma applyMapFilters_conditions (filters : FilterState) (f : Feature) :
  layerShows (applyMapFilters filters) f
  = forallb (fun e => evalFilter e (properties f)) (filterConditions filters).
Proof.
  unfold applyMapFilters, filterConditions.
  rewrite <- !nonblank_trimTruthy.
  destruct (Js.nonblank (entidad filters)), (Js.nonblank (municipio filters)),
    (Js.nonblank (comunidad filters)), (Js.nonblank (pueblo filters));
    simpl; rewrite ?andb_true_r; reflexivity.
Qed.

(** Every feature that the sidebar counts is drawn by the layer. *)
Lemma counted_is_shown (filters : FilterState) (f : Feature) :
  countPredicate filters f = true → layerShows (applyMapFilters filters) f = true.
Proof.
  rewrite applyMapFilters_conditions.
  unfold countPredicate, filterConditions, featureComunidad, Js.or.
  destruct (Js.nonblank (entidad filters)), (Js.nonblank (municipio filters)),
    (Js.nonblank (comunidad filters)), (Js.nonblank (pueblo filters));
    simpl;
    destruct (Js.seq (NOM_ENT (properties f)) (entidad filters));
    destruct (Js.seq (NOM_MUN (properties f)) (municipio filters));
    destruct (Js.seq (Pueblo (properties f)) (pueblo filters));
    simpl; try discriminate; try reflexivity;
    destruct (Js.otruthy (NOM_COM (properties f)));
    destruct (Js.seq (NOM_COM (properties f)) (comunidad filters));
    destruct (Js.seq (NOM_LOC (properties f)) (comunidad filters));
    simpl; try discriminate; reflexivity.
Qed.

(** With no community selected the two agree on every feature. *)
Lemma shown_iff_counted_without_comunidad (filters : FilterState) (f : Feature) :
  Js.nonblank (comunidad filters) = false →
  layerShows (applyMapFilters filters) f = countPredicate filters f.
Proof.
  intros Hc. rewrite applyMapFilters_conditions.
  unfold countPredicate, filterConditions. rewrite Hc.
  destruct (Js.nonblank (entidad filters)), (Js.nonblank (municipio filters)),
    (Js.nonblank (pueblo filters)); simpl;
    destruct (Js.seq (NOM_ENT (properties f)) (entidad filters));
    destruct (Js.seq (NOM_MUN (properties f)) (municipio filters));
    destruct (Js.seq (Pueblo (properties f)) (pueblo filters));
    reflexivity.
Qed.

(** C2: the map filter and the counter disagree on a feature whose
    NOM_COM is some other name and whose NOM_LOC is the selected
    community: the layer draws it (the 'any' accepts NOM_LOC) and the
    counter leaves it out (NOM_COM || NOM_LOC is NOM_COM). The filter of
    applyFilterZoom, in the same component as applyMapFilters, sides with
    the counter. *)
Theorem map_filter_differs_from_count :
  let f := mkFeature (mkProps (Some "Oaxaca") (Some "Juchitán") (Some "A")
                        (Some "B") (Some "Zapoteco")) None None in
  let filters := mkFilters "" "" "B" "" in
  applyMapFilters filters
  = Some (AnyOf [EqGet COM_KEY "B"; EqGet LOC_KEY "B"])
  ∧ layerShows (applyMapFilters filters) f = true
  ∧ countPredicate filters f = false
  ∧ zoomPredicate filters f = false
  ∧ ∃ data, extractLayerData [f] = Some data
     ∧ getFilteredCount (Some data) filters = 0
     ∧ length (List.filter (layerShows (applyMapFilters filters))
                 (features data)) = 1.
Proof.
  repeat (split; [vm_compute; reflexivity|]).
  exists (default (mkData ∅ ∅ ∅ ∅ []) (extractLayerData [
    mkFeature (mkProps (Some "Oaxaca") (Some "Juchitán") (Some "A")
                 (Some "B") (Some "Zapoteco")) None None])).
  vm_compute. repeat split.
Qed.

(** ** De-duplication in the index builder *)





(** Two records with the identifier 7, one as a number and one as a
    string, and two equal records without identifier. *)
Example dedupe_mixed :
  let a := mkFeature (mkProps (Some "Oaxaca") None None None None)
             (Some (IdNum "7")) None in
  let b := mkFeature (mkProps (Some "Chiapas") None None None None)
             None (Some (IdStr "7")) in
  let n := mkFeature (mkProps (Some "Puebla") None None None None) None None in
  uniqueFeatures [n; a; n; b; a] = [n; a; n].
Proof. vm_compute. reflexivity. Qed.

(** The number 10^21, which [String] writes as 1e+21, and the string of
    its 22 digits are two identifiers: both records are kept. *)
Example dedupe_large_number :
  let a := mkFeature (mkProps (Some "Oaxaca") None None None None)
             (Some (IdNum "1e+21")) None in
  let b := mkFeature (mkProps (Some "Chiapas") None None None None)
             (Some (IdStr "1000000000000000000000")) None in
  uniqueFeatures [a; b] = [a; b].
Proof. vm_compute. reflexivity. Qed.

(** ** Hierarchical containment *)

Lemma hierarchyInvariant_hier (data : ExtractedData) (b : FilterState)
    (e m c : string) :
  hier b = (e, m, c) →
  hierarchyInvariant data (mkFilters e m c "") → hierarchyInvariant data b.
Proof.
  unfold hier, hierarchyInvariant, validPair. simpl. intros [= He Hm Hc].
  by rewrite He, Hm, Hc.
Qed.

Lemma hierarchyInvariant_top (data : ExtractedData) (e p : string) :
  hierarchyInvariant data (mkFilters e "" "" p).
Proof. split; simpl; intros H; by destruct H. Qed.

Lemma hierarchyInvariant_drop_comunidad (data : ExtractedData) (e m c p p' : string) :
  hierarchyInvariant data (mkFilters e m c p) →
  hierarchyInvariant data (mkFilters e m "" p').
Proof.
  intros [Hm _]. split; simpl in *; [exact Hm|]. intros H; by destruct H.
Qed.

Lemma hierarchyInvariant_any_pueblo (data : ExtractedData)
    (e m c p p' : string) :
  hierarchyInvariant data (mkFilters e m c p) →
  hierarchyInvariant data (mkFilters e m c p').
Proof. intros H. exact H. Qed.

Ltac case_ifs :=
  repeat match goal with
    | |- context [if ?b then _ else _] => destruct b eqn:?; simpl
    end.

(** What an edit can do to the hierarchical facets: after an edit of
    people they are kept, or cut at some level. *)
Lemma syncPueblo_hier (data : ExtractedData) (value : string) (nf : FilterState) :
  let r := syncPueblo data F_pueblo value nf in
  pueblo r = pueblo nf
  ∧ (hier r = hier nf
     ∨ hier r = ("", "", "")
     ∨ hier r = (entidad nf, "", "")
     ∨ hier r = (entidad nf, municipio nf, "")).
Proof.
  destruct nf as [e m c p]. unfold syncPueblo, hier. simpl.
  case_ifs; split; auto.
Qed.

Lemma syncHierarchy_entidad (data : ExtractedData) (value : string) (nf : FilterState) :
  let r := syncHierarchy data F_entidad value nf in
  hier r = (entidad nf, "", "").
Proof. destruct nf as [e m c p]. unfold syncHierarchy, hier. simpl. by case_ifs. Qed.

Lemma syncHierarchy_municipio (data : ExtractedData) (value : string) (nf : FilterState) :
  let r := syncHierarchy data F_municipio value nf in
  hier r = (entidad nf, municipio nf, "").
Proof. destruct nf as [e m c p]. unfold syncHierarchy, hier. simpl. by case_ifs. Qed.

Lemma syncHierarchy_comunidad (data : ExtractedData) (value : string) (nf : FilterState) :
  let r := syncHierarchy data F_comunidad value nf in
  hier r = (entidad nf, municipio nf, comunidad nf).
Proof. destruct nf as [e m c p]. unfold syncHierarchy, hier. simpl. by case_ifs. Qed.

(** C1, as amended: the reconciler keeps the containment invariant for
    every edit of state or people, and for an edit of municipality or
    community whose new value is empty or is listed in the index under the
    current state (and municipality); it does not examine the new value
    itself. *)
Theorem reconcile_keeps_containment (data : ExtractedData) (cur : FilterState)
    (field : Field) (value : string) :
  hierarchyInvariant data cur →
  legalEdit data cur field value →
  hierarchyInvariant data (synchronizeFilters (Some data) field value cur).
Proof.
  intros Hinv Hlegal. unfold synchronizeFilters. rewrite syncClean_id.
  destruct field.
  - change (syncPueblo data F_entidad value ?x) with x.
    eapply hierarchyInvariant_hier; [apply syncHierarchy_entidad|].
    apply hierarchyInvariant_top.
  - change (syncPueblo data F_municipio value ?x) with x.
    eapply hierarchyInvariant_hier; [apply syncHierarchy_municipio|].
    split; simpl; [|intros H; by destruct H].
    intros Hv. destruct Hlegal as [->|[He Hin]]; [by destruct Hv|].
    destruct cur; split; assumption.
  - change (syncPueblo data F_comunidad value ?x) with x.
    eapply hierarchyInvariant_hier; [apply syncHierarchy_comunidad|].
    destruct Hinv as [Hm Hc]. destruct cur as [e m c p]. simpl in *.
    split; simpl; [exact Hm|].
    intros Hv. destruct Hlegal as [->|[Hm' Hin]]; [by destruct Hv|].
    split; [exact Hm'|]. split; [by apply Hm|exact Hin].
  - change (syncHierarchy data F_pueblo value ?x) with x.
    destruct (syncPueblo_hier data value (set_field cur F_pueblo value))
      as [_ Hshape].
    destruct cur as [e m c p]. simpl set_field in *.
    destruct Hshape as [H|[H|[H|H]]];
      (eapply hierarchyInvariant_hier; [exact H|]); simpl.
    + eapply hierarchyInvariant_any_pueblo. exact Hinv.
    + apply hierarchyInvariant_top.
    + apply hierarchyInvariant_top.
    + eapply hierarchyInvariant_drop_comunidad. exact Hinv.
Qed.

Lemma reconcile_keeps_containment_witness :
  hierarchyInvariant Scenario.data (mkFilters "Oaxaca" "" "" "Zapoteco")
  ∧ legalEdit Scenario.data (mkFilters "Oaxaca" "" "" "Zapoteco") F_municipio "Juchitán"
  ∧ hierarchyInvariant Scenario.data
      (synchronizeFilters (Some Scenario.data) F_municipio "Juchitán"
         (mkFilters "Oaxaca" "" "" "Zapoteco")).
Proof.
  assert (H1 : hierarchyInvariant Scenario.data (mkFilters "Oaxaca" "" "" "Zapoteco")).
  { vm_compute. split; intros H; by destruct H. }
  assert (H2 : legalEdit Scenario.data (mkFilters "Oaxaca" "" "" "Zapoteco")
                 F_municipio "Juchitán").
  { right. split; [discriminate|]. apply (bool_decide_unpack _). vm_compute. exact I. }
  split; [exact H1|]. split; [exact H2|].
  exact (reconcile_keeps_containment Scenario.data
           (mkFilters "Oaxaca" "" "" "Zapoteco") F_municipio "Juchitán" H1 H2).
Defined.

(** C1, as stated, fails: the empty selection satisfies the invariant,
    and the edit municipality = "Foo" is returned as given, a
    municipality without state. *)
Lemma reconcile_breaks_containment :
  hierarchyInvariant Scenario.data emptyFilters
  ∧ synchronizeFilters (Some Scenario.data) F_municipio "Foo" emptyFilters
    = mkFilters "" "Foo" "" ""
  ∧ ¬ hierarchyInvariant Scenario.data
        (synchronizeFilters (Some Scenario.data) F_municipio "Foo" emptyFilters).
Proof.
  split; [|split].
  - split; simpl; intros H; by destruct H.
  - vm_compute. reflexivity.
  - intros [Hm _].
    assert (Hne : municipio (synchronizeFilters (Some Scenario.data) F_municipio
                               "Foo" emptyFilters) ≠ "")
      by (vm_compute; discriminate).
    destruct (Hm Hne) as [He _]. apply He. vm_compute. reflexivity.
Qed.

(** ** Editing the people facet *)

Lemma existsb_ext' {A} (p q : A → bool) (l : list A) :
  (∀ x, p x = q x) → existsb p l = existsb q l.
Proof.
  intros H. induction l as [|x l IH]; simpl; [reflexivity|]. by rewrite H, IH.
Qed.

Lemma somePartial_ent data e v :
  e ≠ "" → somePartialPueblo data e "" "" v = someEntPueblo data e v.
Proof.
  intros He. apply truthy_true in He.
  unfold somePartialPueblo, someEntPueblo. apply existsb_ext'. intros f.
  rewrite He. simpl. by rewrite !andb_true_r.
Qed.

Lemma somePartial_ent_mun data e m v :
  e ≠ "" → m ≠ "" →
  somePartialPueblo data e m "" v = someEntMunPueblo data e m v.
Proof.
  intros He Hm. apply truthy_true in He, Hm.
  unfold somePartialPueblo, someEntMunPueblo. apply existsb_ext'. intros f.
  rewrite He, Hm. simpl. by rewrite !andb_true_r.
Qed.

Lemma somePartial_ent_mun_com data e m c v :
  e ≠ "" → m ≠ "" → c ≠ "" →
  somePartialPueblo data e m c v = someEntMunComPueblo data e m c v.
Proof.
  intros He Hm Hc. apply truthy_true in He, Hm, Hc.
  unfold somePartialPueblo, someEntMunComPueblo. apply existsb_ext'. intros f.
  rewrite He, Hm, Hc. reflexivity.
Qed.

Lemma hasEntMunPueblo_ent data e m v :
  hasEntMunPueblo data e m v → hasEntPueblo data e v.
Proof. intros (f & Hf & H1 & H2 & H3). exists f. auto. Qed.

Lemma hasEntMunComPueblo_mun data e m c v :
  hasEntMunComPueblo data e m c v → hasEntMunPueblo data e m v.
Proof. intros (f & Hf & H1 & H2 & H3 & H4). exists f. auto. Qed.

Ltac reflect_some H :=
  match type of H with
  | someEntPueblo _ _ _ = true => apply someEntPueblo_spec in H
  | someEntMunPueblo _ _ _ _ = true => apply someEntMunPueblo_spec in H
  | someEntMunComPueblo _ _ _ _ _ = true => apply someEntMunComPueblo_spec in H
  | someEntPueblo _ _ _ = false =>
      apply not_true_iff_false in H; rewrite someEntPueblo_spec in H
  | someEntMunPueblo _ _ _ _ = false =>
      apply not_true_iff_false in H; rewrite someEntMunPueblo_spec in H
  | someEntMunComPueblo _ _ _ _ _ = false =>
      apply not_true_iff_false in H; rewrite someEntMunComPueblo_spec in H
  end.

(** C3, as amended: for a new people value that is not blank, on a
    selection whose hierarchical facets are set from the top down, the
    edit sets people, fills no hierarchical facet, and clears them top
    down: all three when the state has no feature with the new people;
    else municipality and community when (state, municipality) has none;
    else community when the full combination has none; else nothing. *)
Theorem people_edit_clears_top_down (data : ExtractedData) (cur : FilterState)
    (value : string) :
  Js.nonblank value = true →
  nested cur →
  peopleRule data cur value.
Proof.
  intros Hv [Hn1 Hn2]. unfold peopleRule, synchronizeFilters.
  rewrite syncClean_id.
  change (syncHierarchy data F_pueblo value ?x) with x.
  unfold Js.nonblank in Hv. unfold syncPueblo. rewrite Hv.
  destruct cur as [e m c p]. simpl in *.
  destruct (decide (e = "")) as [->|He].
  { destruct (decide (m = "")) as [->|Hm]; [|by destruct (Hn1 Hm)].
    destruct (decide (c = "")) as [->|Hc]; [|by destruct (Hn2 Hc)].
    simpl. repeat split; intros; try reflexivity; tauto. }
  pose proof (proj2 (truthy_true e) He) as Te.
  destruct (decide (m = "")) as [->|Hm].
  { destruct (decide (c = "")) as [->|Hc]; [|by destruct (Hn2 Hc)].
    rewrite somePartial_ent by exact He.
    destruct (someEntPueblo data e value) eqn:H1;
      repeat (rewrite ?Te, ?H1; simpl);
      reflect_some H1;
      repeat split; intros; try reflexivity; tauto. }
  pose proof (proj2 (truthy_true m) Hm) as Tm.
  destruct (decide (c = "")) as [->|Hc].
  { rewrite somePartial_ent_mun by assumption.
    destruct (someEntPueblo data e value) eqn:H1;
      destruct (someEntMunPueblo data e m value) eqn:H2;
      repeat (rewrite ?Te, ?Tm, ?H1, ?H2; simpl);
      reflect_some H1; reflect_some H2;
      try pose proof (hasEntMunPueblo_ent _ _ _ _ H2);
      repeat split; intros; try reflexivity; tauto. }
  pose proof (proj2 (truthy_true c) Hc) as Tc.
  rewrite somePartial_ent_mun_com by assumption.
  destruct (someEntPueblo data e value) eqn:H1;
    destruct (someEntMunPueblo data e m value) eqn:H2;
    destruct (someEntMunComPueblo data e m c value) eqn:H3;
    repeat (rewrite ?Te, ?Tm, ?Tc, ?H1, ?H2, ?H3; simpl);
    reflect_some H1; reflect_some H2; reflect_some H3;
    try pose proof (hasEntMunComPueblo_mun _ _ _ _ _ H3);
    try pose proof (hasEntMunPueblo_ent _ _ _ _ H2);
    repeat split; intros; try reflexivity; tauto.
Qed.

Lemma people_edit_clears_top_down_witness :
  Js.nonblank "Tzotzil" = true
  ∧ nested (mkFilters "Oaxaca" "Juchitán" "X" "")
  ∧ peopleRule Scenario.data (mkFilters "Oaxaca" "Juchitán" "X" "") "Tzotzil".
Proof.
  assert (H1 : Js.nonblank "Tzotzil" = true) by reflexivity.
  assert (H2 : nested (mkFilters "Oaxaca" "Juchitán" "X" "")).
  { split; simpl; intros _; discriminate. }
  split; [exact H1|]. split; [exact H2|].
  exact (people_edit_clears_top_down Scenario.data
           (mkFilters "Oaxaca" "Juchitán" "X" "") "Tzotzil" H1 H2).
Defined.

(** C3, as stated, fails in two ways. A people value of one space is
    not empty, yet the edit leaves the state "Oaxaca" although no feature
    of Oaxaca has that people value. And on a selection with a
    municipality but no state, an incompatible municipality is kept. *)
Lemma people_edit_rule_fails :
  (" " ≠ ""
   ∧ synchronizeFilters (Some Scenario.data) F_pueblo " "
       (mkFilters "Oaxaca" "" "" "")
     = mkFilters "Oaxaca" "" "" " "
   ∧ ¬ peopleRule Scenario.data (mkFilters "Oaxaca" "" "" "") " ")
  ∧ ("Tzotzil" ≠ ""
     ∧ synchronizeFilters (Some Scenario.data) F_pueblo "Tzotzil"
         (mkFilters "" "Juchitán" "" "")
       = mkFilters "" "Juchitán" "" "Tzotzil"
     ∧ ¬ peopleRule Scenario.data (mkFilters "" "Juchitán" "" "") "Tzotzil").
Proof.
  split.
  - split; [discriminate|]. split; [vm_compute; reflexivity|].
    intros (_ & H & _).
    assert (Hbad : "Oaxaca" ≠ "" ∧ ¬ hasEntPueblo Scenario.data "Oaxaca" " ").
    { split; [discriminate|]. rewrite <- someEntPueblo_spec. vm_compute. discriminate. }
    specialize (H Hbad). vm_compute in H. discriminate H.
  - split; [discriminate|]. split; [vm_compute; reflexivity|].
    intros (_ & _ & H & _).
    assert (Hok : ¬ ("" ≠ "" ∧ ¬ hasEntPueblo Scenario.data "" "Tzotzil")).
    { intros [Hne _]. by apply Hne. }
    assert (Hbad : "Juchitán" ≠ ""
                   ∧ ¬ hasEntMunPueblo Scenario.data "" "Juchitán" "Tzotzil").
    { split; [discriminate|]. rewrite <- someEntMunPueblo_spec. vm_compute. discriminate. }
    specialize (H Hok Hbad). vm_compute in H. discriminate H.
Qed.

(** A people value of one no-break space is white space as well: the
    edit stores it and leaves the state, whatever the features are. *)
Example people_edit_no_break_space :
  synchronizeFilters (Some Scenario.data) F_pueblo Scenario.nbsp
    (mkFilters "Oaxaca" "" "" "")
  = mkFilters "Oaxaca" "" "" Scenario.nbsp.
Proof. vm_compute. reflexivity. Qed.

(** ** Validation after a rebuild of the index *)

Ltac closeOk :=
  first [ reflexivity
        | rewrite decide_True by tauto; reflexivity
        | rewrite decide_False by tauto; reflexivity ].

Lemma validateEntidad_spec (data : ExtractedData) (fs : FilterState) :
  validateEntidad data fs
  = if decide (entOk data fs) then fs else mkFilters "" "" "" (pueblo fs).
Proof.
  unfold validateEntidad, entOk. destruct fs as [e m c p]. simpl.
  destruct (decide (e = "")) as [->|He].
  { simpl. closeOk. }
  rewrite (proj2 (truthy_true e) He). simpl.
  destruct (decide (e ∈ entidades data)) as [Hin|Hin].
  - rewrite (bool_decide_eq_true_2 _ Hin). simpl.
    closeOk.
  - rewrite (bool_decide_eq_false_2 _ Hin). simpl.
    closeOk.
Qed.

Lemma validateMunicipio_spec (data : ExtractedData) (fs : FilterState) :
  validateMunicipio data fs
  = if decide (munOk data fs) then fs
    else mkFilters (entidad fs) "" "" (pueblo fs).
Proof.
  unfold validateMunicipio, munOk. destruct fs as [e m c p]. simpl.
  destruct (decide (e = "")) as [->|He].
  { simpl. closeOk. }
  rewrite (proj2 (truthy_true e) He). simpl.
  destruct (decide (m = "")) as [->|Hm].
  { simpl. closeOk. }
  rewrite (proj2 (truthy_true m) Hm).
  destruct (decide (m ∈ get_or_empty (municipiosPorEntidad data) e)) as [Hin|Hin].
  - rewrite (bool_decide_eq_true_2 _ Hin). simpl.
    closeOk.
  - rewrite (bool_decide_eq_false_2 _ Hin). simpl.
    closeOk.
Qed.

Lemma validateComunidad_spec (data : ExtractedData) (fs : FilterState) :
  validateComunidad data fs
  = if decide (comOk data fs) then fs
    else mkFilters (entidad fs) (municipio fs) "" (pueblo fs).
Proof.
  unfold validateComunidad, comOk. destruct fs as [e m c p]. simpl.
  destruct (decide (e = "")) as [->|He].
  { simpl. closeOk. }
  rewrite (proj2 (truthy_true e) He). simpl.
  destruct (decide (m = "")) as [->|Hm].
  { simpl. closeOk. }
  rewrite (proj2 (truthy_true m) Hm). simpl.
  destruct (decide (c = "")) as [->|Hc].
  { simpl. closeOk. }
  rewrite (proj2 (truthy_true c) Hc).
  destruct (decide (c ∈ get_or_empty (comunidadesPorMunicipio data) (joinKey e m)))
    as [Hin|Hin].
  - rewrite (bool_decide_eq_true_2 _ Hin). simpl.
    closeOk.
  - rewrite (bool_decide_eq_false_2 _ Hin). simpl.
    closeOk.
Qed.

Lemma validatePueblo_spec (data : ExtractedData) (fs : FilterState) :
  validatePueblo data fs
  = if decide (pueOk data fs) then fs
    else mkFilters (entidad fs) (municipio fs) (comunidad fs) "".
Proof.
  unfold validatePueblo, pueOk. destruct fs as [e m c p]. simpl.
  destruct (decide (p = "")) as [->|Hp].
  { simpl. closeOk. }
  rewrite (proj2 (truthy_true p) Hp). simpl.
  destruct (decide (p ∈ pueblos data)) as [Hin|Hin].
  - rewrite (bool_decide_eq_true_2 _ Hin). simpl.
    closeOk.
  - rewrite (bool_decide_eq_false_2 _ Hin). simpl.
    closeOk.
Qed.

Lemma validateFilters_cases (data : ExtractedData) (e m c p : string) :
  validateFilters (Some data) (mkFilters e m c p)
  = let cur := mkFilters e m c p in
    let p' := if decide (pueOk data cur) then p else "" in
    if decide (entOk data cur) then
      if decide (munOk data cur) then
        if decide (comOk data cur) then mkFilters e m c p'
        else mkFilters e m "" p'
      else mkFilters e "" "" p'
    else mkFilters "" "" "" p'.
Proof.
  unfold validateFilters. cbv zeta.
  rewrite validateEntidad_spec.
  destruct (decide (entOk data (mkFilters e m c p))) as [He|He].
  - rewrite validateMunicipio_spec.
    destruct (decide (munOk data (mkFilters e m c p))) as [Hm|Hm].
    + rewrite validateComunidad_spec.
      destruct (decide (comOk data (mkFilters e m c p))) as [Hc|Hc];
        rewrite validatePueblo_spec; unfold pueOk; simpl;
        by destruct (decide (p = "" ∨ p ∈ pueblos data)).
    + simpl. rewrite validateComunidad_spec.
      rewrite decide_True by (right; by left).
      rewrite validatePueblo_spec; unfold pueOk; simpl.
      by destruct (decide (p = "" ∨ p ∈ pueblos data)).
  - simpl. rewrite validateMunicipio_spec.
    rewrite decide_True by by left.
    rewrite validateComunidad_spec.
    rewrite decide_True by by left.
    rewrite validatePueblo_spec; unfold pueOk; simpl.
    by destruct (decide (p = "" ∨ p ∈ pueblos data)).
Qed.

(** C6, as amended: validateFilters tests membership in the new index
    and nothing else. A state that is not in it clears state,
    municipality and community; else a municipality not listed under the
    state clears municipality and community; else a community not listed
    under the pair clears community; a facet is examined only when the
    facets above it are set. People is cleared exactly when it is not
    among the peoples of the index, whatever the hierarchical facets are.
    On a selection set from the top down the result satisfies the
    containment invariant. *)
Theorem validate_membership_cascade (data : ExtractedData) (cur : FilterState) :
  let r := validateFilters (Some data) cur in
  entidad r = (if decide (entOk data cur) then entidad cur else "")
  ∧ municipio r
    = (if decide (entOk data cur ∧ munOk data cur) then municipio cur else "")
  ∧ comunidad r
    = (if decide (entOk data cur ∧ munOk data cur ∧ comOk data cur)
       then comunidad cur else "")
  ∧ pueblo r = (if decide (pueOk data cur) then pueblo cur else "")
  ∧ (nested cur → hierarchyInvariant data r).
Proof.
  destruct cur as [e m c p]. rewrite validateFilters_cases. cbv zeta.
  destruct (decide (entOk data (mkFilters e m c p))) as [He|He];
    destruct (decide (munOk data (mkFilters e m c p))) as [Hm|Hm];
    destruct (decide (comOk data (mkFilters e m c p))) as [Hc|Hc];
    destruct (decide (pueOk data (mkFilters e m c p))) as [Hp|Hp];
    rewrite ?decide_True by tauto; rewrite ?decide_False by tauto;
    simpl; (repeat split; try reflexivity);
    unfold nested, entOk, munOk, comOk, validPair in *; simpl in *;
    intros; tauto.
Qed.

(** C6, as stated, fails: in the scenario the selection state = Oaxaca,
    people = Tzotzil has both values in the index, so validateFilters
    returns it as it is; no feature of Oaxaca is Tzotzil, and the
    reconciler, given the same state, clears people. *)
Lemma validate_keeps_incompatible_people :
  let sel := mkFilters "Oaxaca" "" "" "Tzotzil" in
  validateFilters (Some Scenario.data) sel = sel
  ∧ ¬ hasEntPueblo Scenario.data "Oaxaca" "Tzotzil"
  ∧ getFilteredCount (Some Scenario.data) sel = 0
  ∧ synchronizeFilters (Some Scenario.data) F_entidad "Oaxaca" sel
    = mkFilters "Oaxaca" "" "" "".
Proof.
  split; [vm_compute; reflexivity|].
  split; [rewrite <- someEntPueblo_spec; vm_compute; discriminate|].
  split; vm_compute; reflexivity.
Qed.

(** ** The index is made of the features *)

(** The two steps of pushUnique, read off the own properties. *)
Lemma pushUnique_spec (obj : gmap string (list string)) (k v : string) :
  pushUnique obj k v
  = match obj !! k with
    | Some arr =>
        Some (if bool_decide (v ∈ arr) then obj else <[ k := (arr ++ [v])%list ]> obj)
    | None => if Obj.inherited k then None else Some (<[ k := [v] ]> obj)
    end.
Proof.
  unfold pushUnique, Obj.get.
  destruct (obj !! k) as [arr|] eqn:Hk.
  - by rewrite Hk.
  - destruct (Obj.inherited k) eqn:Hi.
    + by rewrite Hk.
    + rewrite lookup_insert_eq.
      rewrite bool_decide_eq_false_2 by apply not_elem_of_nil.
      by rewrite insert_insert_eq.
Qed.

Lemma pushUnique_elem (obj obj' : gmap string (list string)) (k v k' v' : string) :
  pushUnique obj k v = Some obj' →
  v' ∈ default [] (obj' !! k') →
  (k' = k ∧ v' = v) ∨ v' ∈ default [] (obj !! k').
Proof.
  rewrite pushUnique_spec.
  destruct (obj !! k) as [arr|] eqn:Hk.
  - intros [= <-]. case_bool_decide as Hin.
    + intros H. by right.
    + destruct (decide (k = k')) as [->|Hne].
      * rewrite lookup_insert_eq. simpl. rewrite Hk. simpl.
        rewrite elem_of_app, list_elem_of_singleton.
        intros [H| ->]; [by right|by left].
      * rewrite lookup_insert_ne by exact Hne. intros H. by right.
  - destruct (Obj.inherited k); [discriminate|]. intros [= <-].
    destruct (decide (k = k')) as [->|Hne].
    + rewrite lookup_insert_eq. simpl.
      rewrite list_elem_of_singleton. intros ->. by left.
    + rewrite lookup_insert_ne by exact Hne. intros H. by right.
Qed.

Lemma elem_of_dom_set (obj : gmap string bool) (k e : string) :
  e ∈ dom (Obj.set obj k true) ↔ (e = k ∧ k ≠ "__proto__") ∨ e ∈ dom obj.
Proof.
  unfold Obj.set. destruct (String.eqb k "__proto__") eqn:E.
  - apply String.eqb_eq in E. split; [by right|].
    intros [[_ H]|H]; [by destruct H|exact H].
  - apply String.eqb_neq in E.
    rewrite dom_insert_L, elem_of_union, elem_of_singleton.
    split; intros [H|H]; auto; tauto.
Qed.

(** What one round of the loop that does not throw leaves in the four
    objects. *)
Lemma indexFeature_fields (objs objs' : IndexObjs) (f : Feature) :
  indexFeature objs f = Some objs' →
  entidadesObj objs'
  = (if Js.truthy (indexedEnt f)
     then Obj.set (entidadesObj objs) (indexedEnt f) true
     else entidadesObj objs)
  ∧ (if Js.truthy (indexedEnt f) && Js.truthy (indexedMun f)
     then pushUnique (municipiosObj objs) (indexedEnt f) (indexedMun f)
          = Some (municipiosObj objs')
     else municipiosObj objs' = municipiosObj objs)
  ∧ (if Js.truthy (indexedEnt f) && Js.truthy (indexedMun f)
        && Js.truthy (indexedCom f)
     then pushUnique (comunidadesObj objs)
            (joinKey (indexedEnt f) (indexedMun f)) (indexedCom f)
          = Some (comunidadesObj objs')
     else comunidadesObj objs' = comunidadesObj objs)
  ∧ pueblosObj objs'
    = (if Js.truthy (indexedPue f)
       then Obj.set (pueblosObj objs) (indexedPue f) true
       else pueblosObj objs).
Proof.
  unfold indexFeature.
  fold (indexedEnt f). fold (indexedMun f). fold (indexedCom f). fold (indexedPue f).
  destruct (Js.truthy (indexedEnt f)); simpl.
  - destruct (Js.truthy (indexedMun f)); simpl.
    + destruct (pushUnique (municipiosObj objs) (indexedEnt f) (indexedMun f))
        as [munObj|]; [|discriminate].
      destruct (Js.truthy (indexedCom f)); simpl.
      * destruct (pushUnique (comunidadesObj objs)
                    (joinKey (indexedEnt f) (indexedMun f)) (indexedCom f))
          as [comObj|]; [|discriminate].
        intros [= <-]. by destruct (Js.truthy (indexedPue f)).
      * intros [= <-]. by destruct (Js.truthy (indexedPue f)).
    + intros [= <-]. by destruct (Js.truthy (indexedPue f)).
  - intros [= <-]. by destruct (Js.truthy (indexedPue f)).
Qed.

Lemma objsSound_empty (src : list Feature) : objsSound src emptyObjs.
Proof.
  unfold objsSound, emptyObjs. simpl.
  repeat split; intros *; rewrite ?dom_empty_L, ?lookup_empty; simpl;
    intros H; exfalso; revert H; first [apply not_elem_of_empty|apply not_elem_of_nil].
Qed.

Lemma objsSound_step (src : list Feature) (objs objs' : IndexObjs) (f : Feature) :
  f ∈ src → indexFeature objs f = Some objs' →
  objsSound src objs → objsSound src objs'.
Proof.
  intros Hf Hstep (HE & HM & HC & HP).
  destruct (indexFeature_fields objs objs' f Hstep) as (FE & FM & FC & FP).
  repeat split.
  - intros e. rewrite FE.
    destruct (Js.truthy (indexedEnt f)) eqn:Te; [|by apply HE].
    apply truthy_true in Te. rewrite elem_of_dom_set.
    intros [[-> _]|H]; [by exists f|by apply HE].
  - intros e m.
    destruct (Js.truthy (indexedEnt f)) eqn:Te;
      [destruct (Js.truthy (indexedMun f)) eqn:Tm|]; simpl in FM;
      try (rewrite FM; by apply HM).
    apply truthy_true in Te, Tm. intros Hm.
    destruct (pushUnique_elem _ _ _ _ _ _ FM Hm) as [[-> ->]|H];
      [by exists f|by apply HM].
  - intros k c.
    destruct (Js.truthy (indexedEnt f)) eqn:Te;
      [destruct (Js.truthy (indexedMun f)) eqn:Tm;
       [destruct (Js.truthy (indexedCom f)) eqn:Tc|]|]; simpl in FC;
      try (rewrite FC; by apply HC).
    apply truthy_true in Te, Tm, Tc. intros Hc.
    destruct (pushUnique_elem _ _ _ _ _ _ FC Hc) as [[-> ->]|H];
      [by exists f|by apply HC].
  - intros p. rewrite FP.
    destruct (Js.truthy (indexedPue f)) eqn:Tp; [|by apply HP].
    apply truthy_true in Tp. rewrite elem_of_dom_set.
    intros [[-> _]|H]; [by exists f|by apply HP].
Qed.

Lemma objsSound_indexAll (src l : list Feature) (objs objs' : IndexObjs) :
  (∀ f, f ∈ l → f ∈ src) →
  indexAll objs l = Some objs' →
  objsSound src objs → objsSound src objs'.
Proof.
  revert objs. induction l as [|f l IH]; intros objs Hsub Hall Hs; simpl in Hall.
  { by injection Hall as <-. }
  destruct (indexFeature objs f) as [objs1|] eqn:Hstep; [|discriminate].
  apply (IH objs1).
  - intros g Hg. apply Hsub. by right.
  - exact Hall.
  - apply (objsSound_step src objs objs1 f); [|exact Hstep|exact Hs].
    apply Hsub. by left.
Qed.

(** The index that extractLayerData returns, in terms of the loop. *)
Lemma extractLayerData_Some (raw : list Feature) (data : ExtractedData) :
  extractLayerData raw = Some data →
  ∃ objs, indexAll emptyObjs (uniqueFeatures raw) = Some objs
          ∧ data = mkData (dom (entidadesObj objs))
                     (list_to_set <$> municipiosObj objs)
                     (list_to_set <$> comunidadesObj objs)
                     (dom (pueblosObj objs))
                     (uniqueFeatures raw).
Proof.
  unfold extractLayerData. cbv zeta.
  destruct (indexAll emptyObjs (uniqueFeatures raw)) as [objs|]; [|discriminate].
  intros [= <-]. by exists objs.
Qed.

Lemma get_or_empty_fmap (m : gmap string (list string)) (k v : string) :
  v ∈ get_or_empty (list_to_set <$> m) k ↔ v ∈ default [] (m !! k).
Proof.
  unfold get_or_empty. rewrite lookup_fmap.
  destruct (m !! k) as [arr|]; simpl.
  - apply elem_of_list_to_set.
  - split; intros H; exfalso; revert H;
      [apply not_elem_of_empty|apply not_elem_of_nil].
Qed.

(** Every entry of the index comes from a de-duplicated feature. *)
Lemma extractLayerData_sound (raw : list Feature) (data : ExtractedData) :
  extractLayerData raw = Some data →
  (∀ e, e ∈ entidades data →
        ∃ f, f ∈ features data ∧ indexedEnt f = e ∧ e ≠ "")
  ∧ (∀ e m, m ∈ get_or_empty (municipiosPorEntidad data) e →
            ∃ f, f ∈ features data ∧ indexedEnt f = e ∧ indexedMun f = m
                 ∧ e ≠ "" ∧ m ≠ "")
  ∧ (∀ k c, c ∈ get_or_empty (comunidadesPorMunicipio data) k →
            ∃ f, f ∈ features data ∧ joinKey (indexedEnt f) (indexedMun f) = k
                 ∧ indexedCom f = c
                 ∧ indexedEnt f ≠ "" ∧ indexedMun f ≠ "" ∧ c ≠ "")
  ∧ (∀ p, p ∈ pueblos data →
          ∃ f, f ∈ features data ∧ indexedPue f = p ∧ p ≠ "").
Proof.
  intros Hx. apply extractLayerData_Some in Hx as (objs & Hall & ->). simpl.
  destruct (objsSound_indexAll (uniqueFeatures raw) (uniqueFeatures raw)
              emptyObjs objs) as (HE & HM & HC & HP);
    [auto|exact Hall|apply objsSound_empty|].
  repeat split.
  - exact HE.
  - intros e m Hm. apply get_or_empty_fmap in Hm. by apply HM.
  - intros k c Hc. apply get_or_empty_fmap in Hc. by apply HC.
  - exact HP.
Qed.

(** The three features of the scenario are extracted without an
    exception. *)
Lemma scenario_extracted : extractLayerData Scenario.raw = Some Scenario.data.
Proof. vm_compute. reflexivity. Qed.

(** ** Option lists *)

Lemma collect_elem (pick : Feature → option string) (fs : list Feature) (v : string) :
  v ∈ collect pick fs ↔ ∃ f, f ∈ fs ∧ pick f = Some v.
Proof.
  unfold collect.
  assert (Hgen : ∀ acc : gset string,
            v ∈ foldl (fun acc feature =>
                         match pick feature with
                         | Some v => {[ v ]} ∪ acc
                         | None => acc
                         end) acc fs
            ↔ v ∈ acc ∨ ∃ f, f ∈ fs ∧ pick f = Some v).
  { induction fs as [|g fs IH]; intros acc; simpl.
    - split; [by left|]. intros [H|(f & Hf & _)]; [exact H|].
      by apply elem_of_nil in Hf.
    - rewrite IH. split.
      + intros [H|(f & Hf & Hp)].
        * destruct (pick g) as [w|] eqn:Hg.
          -- apply elem_of_union in H as [H|H]; [|by left].
             apply elem_of_singleton in H. subst w.
             right. exists g. split; [by left|exact Hg].
          -- by left.
        * right. exists f. split; [by right|exact Hp].
      + intros [H|(f & Hf & Hp)].
        * left. destruct (pick g); [|exact H]. by apply elem_of_union_r.
        * apply elem_of_cons in Hf as [->|Hf].
          -- left. rewrite Hp. apply elem_of_union_l. by apply elem_of_singleton.
          -- right. by exists f. }
  rewrite Hgen. split.
  - intros [H|H]; [|exact H]. by apply not_elem_of_empty in H.
  - intros H. by right.
Qed.

Lemma countPredicate_match (fs : FilterState) (f : Feature) :
  (entidad fs = "" ∨ NOM_ENT (properties f) = Some (entidad fs)) →
  (municipio fs = "" ∨ NOM_MUN (properties f) = Some (municipio fs)) →
  (comunidad fs = "" ∨ featureComunidad (properties f) = Some (comunidad fs)) →
  (pueblo fs = "" ∨ Pueblo (properties f) = Some (pueblo fs)) →
  countPredicate fs f = true.
Proof.
  assert (Hfacet : ∀ s o, s = "" ∨ o = Some s →
                          Js.nonblank s && negb (Js.seq o s) = false).
  { intros s o [->|Ho]; [reflexivity|].
    apply seq_true in Ho. rewrite Ho. by rewrite andb_false_r. }
  intros He Hm Hc Hp. unfold countPredicate.
  by rewrite (Hfacet _ _ He), (Hfacet _ _ Hm), (Hfacet _ _ Hc), (Hfacet _ _ Hp).
Qed.

Lemma count_pos (data : ExtractedData) (fs : FilterState) (f : Feature) :
  f ∈ features data → countPredicate fs f = true →
  (0 < getFilteredCount (Some data) fs)%nat.
Proof. intros Hf Hp. simpl. by eapply filter_length_pos. Qed.

Lemma trimmed_indexed (o : option string) :
  trimmedProp o = true →
  Js.trim (Js.str_or_empty o) ≠ "" →
  o = Some (Js.trim (Js.str_or_empty o)).
Proof.
  destruct o as [s|]; simpl.
  - intros H _. apply String.eqb_eq in H. by rewrite H.
  - intros _ H. by destruct H.
Qed.

Lemma trimmed_or (a b : option string) :
  trimmedProp a = true → trimmedProp b = true → trimmedProp (Js.or a b) = true.
Proof. unfold Js.or. by destruct (Js.otruthy a). Qed.

Lemma joinKey_inj (a a' b b' : string) :
  noBar a = true → noBar a' = true →
  joinKey a b = joinKey a' b' → a = a' ∧ b = b'.
Proof.
  unfold joinKey. revert a'.
  induction a as [|c r IH]; intros [|c' r']; simpl; intros Ha Ha' H;
    cbv [String.append] in H; fold String.append in H.
  - by injection H as ->.
  - injection H as <- _. discriminate Ha'.
  - injection H as -> _. discriminate Ha.
  - injection H as -> H.
    apply andb_true_iff in Ha as [_ Ha], Ha' as [_ Ha'].
    destruct (IH r' Ha Ha' H) as [-> ->]. done.
Qed.

Lemma cleanFeature_fields (f : Feature) :
  cleanFeature f = true →
  trimmedProp (NOM_ENT (properties f)) = true
  ∧ trimmedProp (NOM_MUN (properties f)) = true
  ∧ trimmedProp (featureComunidad (properties f)) = true
  ∧ trimmedProp (Pueblo (properties f)) = true
  ∧ noBar (Js.str_or_empty (NOM_ENT (properties f))) = true.
Proof.
  unfold cleanFeature. rewrite !andb_true_iff.
  intros [[[[[He Hm] Hc] Hl] Hp] Hb].
  repeat split; auto. by apply trimmed_or.
Qed.

(** In a clean feature the name filed in the index is the property. *)
Lemma clean_indexedEnt (f : Feature) :
  cleanFeature f = true → indexedEnt f ≠ "" →
  NOM_ENT (properties f) = Some (indexedEnt f) ∧ noBar (indexedEnt f) = true.
Proof.
  intros Hc Hne. destruct (cleanFeature_fields f Hc) as (He & _ & _ & _ & Hb).
  pose proof (trimmed_indexed _ He Hne) as H. split; [exact H|].
  fold (indexedEnt f) in H. rewrite H in Hb. exact Hb.
Qed.

Lemma clean_indexedMun (f : Feature) :
  cleanFeature f = true → indexedMun f ≠ "" →
  NOM_MUN (properties f) = Some (indexedMun f).
Proof.
  intros Hc Hne. destruct (cleanFeature_fields f Hc) as (_ & Hm & _).
  by apply trimmed_indexed.
Qed.

Lemma clean_indexedCom (f : Feature) :
  cleanFeature f = true → indexedCom f ≠ "" →
  featureComunidad (properties f) = Some (indexedCom f).
Proof.
  intros Hc Hne. destruct (cleanFeature_fields f Hc) as (_ & _ & Hco & _).
  by apply trimmed_indexed.
Qed.

Lemma clean_indexedPue (f : Feature) :
  cleanFeature f = true → indexedPue f ≠ "" →
  Pueblo (properties f) = Some (indexedPue f).
Proof.
  intros Hc Hne. destruct (cleanFeature_fields f Hc) as (_ & _ & _ & Hp & _).
  by apply trimmed_indexed.
Qed.

Section OptionListsSound.

Variable localeSort : list string → list string.
Hypothesis localeSort_perm : ∀ l, localeSort l ≡ₚ l.

Lemma sortedFromSet_elem (s : gset string) (v : string) :
  v ∈ sortedFromSet localeSort s ↔ v ∈ s.
Proof.
  unfold sortedFromSet. rewrite (localeSort_perm (elements s)).
  apply elem_of_elements.
Qed.

(** C5, as amended: on an index built from features whose names are
    stored trimmed and whose state names hold no '|', and for a
    selection that satisfies the containment invariant, every value of
    an option list has at least one matching feature under the facets
    the list is computed from: a state with the selected people; a
    municipality with the selected state and people; a community with
    the selected state, municipality and people; a people value with the
    selected state, municipality and community. *)
Theorem options_have_matches (rawFeatures : list Feature) (data : ExtractedData)
    (filters : FilterState) (field : Field) (v : string) :
  extractLayerData rawFeatures = Some data →
  (∀ f, f ∈ features data → cleanFeature f = true) →
  hierarchyInvariant data filters →
  v ∈ optionsFor localeSort (Some data) filters field →
  (0 < getFilteredCount (Some data) (offered filters field v))%nat.
Proof.
  intros Hdata Hclean Hinv Hv.
  destruct (extractLayerData_sound rawFeatures data Hdata) as (HE & HM & HC & HP).
  destruct filters as [e m c p].
  destruct field; simpl in Hv; simpl offered.
  - (* states *)
    destruct (Js.truthy p) eqn:Tp.
    + apply sortedFromSet_elem, collect_elem in Hv as (f & Hf & Hpick).
      simpl in Hpick.
      destruct (Js.seq (Pueblo (properties f)) p) eqn:Sp; [|discriminate].
      destruct (Js.otruthy (NOM_ENT (properties f))); [|discriminate].
      simpl in Hpick. apply seq_true in Sp.
      apply (count_pos data _ f Hf).
      apply countPredicate_match; simpl; auto.
    + apply truthy_false in Tp. subst p.
      apply sortedFromSet_elem in Hv.
      destruct (HE v Hv) as (f & Hf & Hi & Hne). subst v.
      destruct (clean_indexedEnt f (Hclean f Hf) Hne) as [Hent _].
      apply (count_pos data _ f Hf).
      apply countPredicate_match; simpl; auto.
  - (* municipalities *)
    destruct (Js.truthy e) eqn:Te; simpl in Hv; [|by apply elem_of_nil in Hv].
    destruct (Js.truthy p) eqn:Tp.
    + apply sortedFromSet_elem, collect_elem in Hv as (f & Hf & Hpick).
      simpl in Hpick.
      destruct (Js.seq (Pueblo (properties f)) p) eqn:Sp; [|discriminate].
      destruct (Js.seq (NOM_ENT (properties f)) e) eqn:Se; [|discriminate].
      destruct (Js.otruthy (NOM_MUN (properties f))); [|discriminate].
      simpl in Hpick. apply seq_true in Sp, Se.
      apply (count_pos data _ f Hf).
      apply countPredicate_match; simpl; auto.
    + apply truthy_false in Tp. subst p.
      apply sortedFromSet_elem in Hv.
      destruct (HM e v Hv) as (f & Hf & Hie & Him & Hne & Hnm). subst e v.
      destruct (clean_indexedEnt f (Hclean f Hf) Hne) as [Hent _].
      pose proof (clean_indexedMun f (Hclean f Hf) Hnm) as Hmun.
      apply (count_pos data _ f Hf).
      apply countPredicate_match; simpl; auto.
  - (* communities *)
    destruct (Js.truthy e) eqn:Te; simpl in Hv; [|by apply elem_of_nil in Hv].
    destruct (Js.truthy m) eqn:Tm; simpl in Hv; [|by apply elem_of_nil in Hv].
    destruct (Js.truthy p) eqn:Tp.
    + apply sortedFromSet_elem, collect_elem in Hv as (f & Hf & Hpick).
      simpl in Hpick.
      destruct (Js.seq (Pueblo (properties f)) p) eqn:Sp; [|discriminate].
      destruct (Js.seq (NOM_ENT (properties f)) e) eqn:Se; [|discriminate].
      destruct (Js.seq (NOM_MUN (properties f)) m) eqn:Sm; [|discriminate].
      destruct (Js.otruthy (featureComunidad (properties f))); [|discriminate].
      simpl in Hpick. apply seq_true in Sp, Se, Sm.
      apply (count_pos data _ f Hf).
      apply countPredicate_match; simpl; auto.
    + apply truthy_false in Tp. subst p.
      apply truthy_true in Te, Tm.
      apply sortedFromSet_elem in Hv.
      destruct (HC _ v Hv) as (f & Hf & Hkey & Hic & Hne & Hnm & Hnc).
      destruct (clean_indexedEnt f (Hclean f Hf) Hne) as [Hent Hbar].
      pose proof (clean_indexedMun f (Hclean f Hf) Hnm) as Hmun.
      rewrite <- Hic in Hnc.
      pose proof (clean_indexedCom f (Hclean f Hf) Hnc) as Hcom.
      (* the selected state is the state of some feature, so holds no bar *)
      destruct Hinv as [Hpair _]. destruct (Hpair Tm) as [_ Hin]. simpl in Hin.
      destruct (HM e m Hin) as (g & Hg & Hge & _ & Hgne & _).
      rewrite <- Hge in Hgne.
      destruct (clean_indexedEnt g (Hclean g Hg) Hgne) as [_ Hgbar].
      rewrite Hge in Hgbar.
      destruct (joinKey_inj _ _ _ _ Hbar Hgbar Hkey) as [Hfe Hfm].
      rewrite Hfe in Hent. rewrite Hfm in Hmun. rewrite Hic in Hcom.
      apply (count_pos data _ f Hf).
      apply countPredicate_match; simpl; auto.
  - (* peoples *)
    destruct (negb (Js.truthy e) && negb (Js.truthy m) && negb (Js.truthy c))
      eqn:Hnone.
    + rewrite !andb_true_iff, !negb_true_iff in Hnone.
      destruct Hnone as [[Te Tm] Tc]. apply truthy_false in Te, Tm, Tc. subst e m c.
      apply sortedFromSet_elem in Hv.
      destruct (HP v Hv) as (f & Hf & Hi & Hne). subst v.
      pose proof (clean_indexedPue f (Hclean f Hf) Hne) as Hpue.
      apply (count_pos data _ f Hf).
      apply countPredicate_match; simpl; auto.
    + apply sortedFromSet_elem, collect_elem in Hv as (f & Hf & Hpick).
      simpl in Hpick.
      destruct (negb (Js.truthy e) || Js.seq (NOM_ENT (properties f)) e) eqn:Se;
        [|discriminate].
      destruct (negb (Js.truthy m) || Js.seq (NOM_MUN (properties f)) m) eqn:Sm;
        [|discriminate].
      destruct (negb (Js.truthy c) || Js.seq (featureComunidad (properties f)) c)
        eqn:Sc; [|discriminate].
      destruct (Js.otruthy (Pueblo (properties f))); [|discriminate].
      simpl in Hpick.
      rewrite orb_true_iff, negb_true_iff, truthy_false, seq_true in Se, Sm, Sc.
      apply (count_pos data _ f Hf).
      apply countPredicate_match; simpl; auto.
Qed.

End OptionListsSound.

Lemma byteSort_perm (l : list string) : Scenario.byteSort l ≡ₚ l.
Proof. unfold Scenario.byteSort. apply merge_sort_Permutation. Qed.

Lemma options_have_matches_witness :
  extractLayerData Scenario.raw = Some Scenario.data
  ∧ (∀ f, f ∈ features Scenario.data → cleanFeature f = true)
  ∧ hierarchyInvariant Scenario.data (mkFilters "Oaxaca" "Juchitán" "" "")
  ∧ "X" ∈ optionsFor Scenario.byteSort (Some Scenario.data)
            (mkFilters "Oaxaca" "Juchitán" "" "") F_comunidad
  ∧ (0 < getFilteredCount (Some Scenario.data)
           (offered (mkFilters "Oaxaca" "Juchitán" "" "") F_comunidad "X"))%nat.
Proof.
  assert (H0 : extractLayerData Scenario.raw = Some Scenario.data).
  { vm_compute. reflexivity. }
  assert (H1 : ∀ f, f ∈ features Scenario.data → cleanFeature f = true).
  { intros f Hf. vm_compute in Hf.
    repeat (apply elem_of_cons in Hf as [->|Hf]; [reflexivity|]).
    by apply elem_of_nil in Hf. }
  assert (H2 : hierarchyInvariant Scenario.data
                 (mkFilters "Oaxaca" "Juchitán" "" "")).
  { apply (bool_decide_unpack _). vm_compute. exact I. }
  assert (H3 : "X" ∈ optionsFor Scenario.byteSort (Some Scenario.data)
                       (mkFilters "Oaxaca" "Juchitán" "" "") F_comunidad).
  { apply (bool_decide_unpack _). vm_compute. exact I. }
  split; [exact H0|]. split; [exact H1|]. split; [exact H2|]. split; [exact H3|].
  exact (options_have_matches Scenario.byteSort byteSort_perm Scenario.raw
           Scenario.data (mkFilters "Oaxaca" "Juchitán" "" "") F_comunidad "X"
           H0 H1 H2 H3).
Defined.

(** C5, as stated, fails: with state = Oaxaca and municipality =
    Juchitán selected, the list of states offers Chiapas (it looks at
    people only), and the selection with Chiapas put in place of Oaxaca
    matches no feature. *)
Lemma state_option_without_match :
  let sel := mkFilters "Oaxaca" "Juchitán" "" "" in
  hierarchyInvariant Scenario.data sel
  ∧ "Chiapas" ∈ optionsFor Scenario.byteSort (Some Scenario.data) sel F_entidad
  ∧ getFilteredCount (Some Scenario.data) (set_field sel F_entidad "Chiapas") = 0.
Proof.
  split; [apply (bool_decide_unpack _); vm_compute; exact I|].
  split; [apply (bool_decide_unpack _); vm_compute; exact I|].
  vm_compute. reflexivity.
Qed.

(** Outside the amended claim: names stored with surrounding white
    space. The index files the trimmed name, the counter compares the raw
    one, and the state offered on the empty selection matches nothing. *)
Example untrimmed_state_option_without_match :
  let f := mkFeature (mkProps (Some "Oaxaca ") (Some "Juchitán") (Some "X") None
                        (Some "Zapoteco")) (Some (IdNum "1")) None in
  ∃ data, extractLayerData [f] = Some data
    ∧ hierarchyInvariant data emptyFilters
    ∧ optionsFor Scenario.byteSort (Some data) emptyFilters F_entidad = ["Oaxaca"]
    ∧ getFilteredCount (Some data) (offered emptyFilters F_entidad "Oaxaca") = 0.
Proof.
  eexists. split; [vm_compute; reflexivity|].
  split; [apply (bool_decide_unpack _); vm_compute; exact I|].
  split; vm_compute; reflexivity.
Qed.

(** The same with a no-break space (U+00A0, the bytes C2 A0) after the
    name: [trim] removes it as well. *)
Example nbsp_state_option_without_match :
  let nbsp := String (ascii_of_nat 194) (String (ascii_of_nat 160) "") in
  let f := mkFeature (mkProps (Some ("Oaxaca" ++ nbsp)) (Some "Juchitán")
                        (Some "X") None (Some "Zapoteco")) (Some (IdNum "1")) None in
  Js.trim ("Oaxaca" ++ nbsp) = "Oaxaca"
  ∧ cleanFeature f = false
  ∧ ∃ data, extractLayerData [f] = Some data
      ∧ optionsFor Scenario.byteSort (Some data) emptyFilters F_entidad = ["Oaxaca"]
      ∧ getFilteredCount (Some data) (offered emptyFilters F_entidad "Oaxaca") = 0.
Proof.
  split; [vm_compute; reflexivity|]. split; [vm_compute; reflexivity|].
  eexists. split; [vm_compute; reflexivity|].
  split; vm_compute; reflexivity.
Qed.

(** Outside the amended claim: a '|' inside a state name. The pairs
    ("a|b", "c") and ("a", "b|c") share the key "a|b|c", so the community
    of the first is offered under the second and matches nothing there. *)
Example joined_key_option_without_match :
  let f1 := mkFeature (mkProps (Some "a|b") (Some "c") (Some "X") None None)
              (Some (IdNum "1")) None in
  let f2 := mkFeature (mkProps (Some "a") (Some "b|c") (Some "Y") None None)
              (Some (IdNum "2")) None in
  let sel := mkFilters "a" "b|c" "" "" in
  ∃ data, extractLayerData [f1; f2] = Some data
    ∧ hierarchyInvariant data sel
    ∧ "X" ∈ optionsFor Scenario.byteSort (Some data) sel F_comunidad
    ∧ getFilteredCount (Some data) (offered sel F_comunidad "X") = 0.
Proof.
  eexists. split; [vm_compute; reflexivity|].
  split; [apply (bool_decide_unpack _); vm_compute; exact I|].
  split; [apply (bool_decide_unpack _); vm_compute; exact I|].
  vm_compute. reflexivity.
Qed.

(** The scenario index is the one the sidebar receives. *)
Example scenario_loaded : dataLoaded Scenario.raw = Some Scenario.data.
Proof. vm_compute. reflexivity. Qed.

(** * Further properties *)

(** ** The reconciler on the other edits *)

Lemma sync_unfold (data : ExtractedData) (field : Field) (value : string)
    (cur : FilterState) :
  synchronizeFilters (Some data) field value cur
  = syncPueblo data field value
      (syncHierarchy data field value (set_field cur field value)).
Proof. unfold synchronizeFilters. apply syncClean_id. Qed.

(** X1: an edit of the municipality keeps the state, stores the new
    municipality and clears the community. People is cleared exactly when
    people and state are both set and no feature carries the state, the
    new municipality and that people value together; with no state set,
    people is kept without any check. *)
Theorem edit_municipio_rule (data : ExtractedData) (value : string)
    (cur : FilterState) :
  let r := synchronizeFilters (Some data) F_municipio value cur in
  entidad r = entidad cur ∧ municipio r = value ∧ comunidad r = ""
  ∧ (pueblo cur ≠ "" ∧ entidad cur ≠ ""
     ∧ ¬ hasEntMunPueblo data (entidad cur) value (pueblo cur) → pueblo r = "")
  ∧ (pueblo cur = "" ∨ entidad cur = ""
     ∨ hasEntMunPueblo data (entidad cur) value (pueblo cur)
     → pueblo r = pueblo cur).
Proof.
  cbv zeta. rewrite sync_unfold.
  change (syncPueblo data F_municipio value ?x) with x.
  destruct cur as [e m c p]. unfold syncHierarchy. simpl.
  destruct (decide (p = "")) as [->|Hp].
  { simpl. repeat split; auto; intros; intuition congruence. }
  rewrite (proj2 (truthy_true p) Hp).
  destruct (decide (e = "")) as [->|He].
  { simpl. repeat split; auto; intros; intuition congruence. }
  rewrite (proj2 (truthy_true e) He). simpl.
  destruct (someEntMunPueblo data e value p) eqn:Hs; simpl; reflect_some Hs;
    repeat split; auto; intros; tauto.
Qed.

(** X2: an edit of the community keeps state and municipality and
    stores the new community. People is cleared exactly when people,
    state and municipality are all set and no feature carries the state,
    the municipality, the new community (NOM_COM, or NOM_LOC when that is
    missing) and that people value together. *)
Theorem edit_comunidad_rule (data : ExtractedData) (value : string)
    (cur : FilterState) :
  let r := synchronizeFilters (Some data) F_comunidad value cur in
  entidad r = entidad cur ∧ municipio r = municipio cur ∧ comunidad r = value
  ∧ (pueblo cur ≠ "" ∧ entidad cur ≠ "" ∧ municipio cur ≠ ""
     ∧ ¬ hasEntMunComPueblo data (entidad cur) (municipio cur) value (pueblo cur)
     → pueblo r = "")
  ∧ (pueblo cur = "" ∨ entidad cur = "" ∨ municipio cur = ""
     ∨ hasEntMunComPueblo data (entidad cur) (municipio cur) value (pueblo cur)
     → pueblo r = pueblo cur).
Proof.
  cbv zeta. rewrite sync_unfold.
  change (syncPueblo data F_comunidad value ?x) with x.
  destruct cur as [e m c p]. unfold syncHierarchy. simpl.
  destruct (decide (p = "")) as [->|Hp].
  { simpl. repeat split; auto; intros; intuition congruence. }
  rewrite (proj2 (truthy_true p) Hp).
  destruct (decide (e = "")) as [->|He].
  { simpl. repeat split; auto; intros; intuition congruence. }
  rewrite (proj2 (truthy_true e) He).
  destruct (decide (m = "")) as [->|Hm].
  { simpl. repeat split; auto; intros; intuition congruence. }
  rewrite (proj2 (truthy_true m) Hm). simpl.
  destruct (someEntMunComPueblo data e m value p) eqn:Hs; simpl; reflect_some Hs;
    repeat split; auto; intros; tauto.
Qed.

(** X3: an edit never fills a facet. The edited facet holds the new
    value afterwards, and each of the other three is what it was or is
    empty. *)
Theorem reconcile_only_clears (data : ExtractedData) (field : Field)
    (value : string) (cur : FilterState) :
  let r := synchronizeFilters (Some data) field value cur in
  get_field r field = value
  ∧ ∀ other, other ≠ field →
             get_field r other = get_field cur other ∨ get_field r other = "".
Proof.
  cbv zeta. rewrite sync_unfold. destruct cur as [e m c p].
  destruct field.
  - change (syncPueblo data F_entidad value ?x) with x.
    unfold syncHierarchy. simpl. case_ifs; (split; [reflexivity|]);
      intros []; simpl; intros H; auto; by destruct H.
  - change (syncPueblo data F_municipio value ?x) with x.
    unfold syncHierarchy. simpl. case_ifs; (split; [reflexivity|]);
      intros []; simpl; intros H; auto; by destruct H.
  - change (syncPueblo data F_comunidad value ?x) with x.
    unfold syncHierarchy. simpl. case_ifs; (split; [reflexivity|]);
      intros []; simpl; intros H; auto; by destruct H.
  - change (syncHierarchy data F_pueblo value ?x) with x.
    destruct (syncPueblo_hier data value (mkFilters e m c value)) as [Hp Hh].
    simpl in Hp, Hh. split; [exact Hp|].
    unfold hier in Hh. simpl in Hh.
    intros other Hne.
    destruct Hh as [H|[H|[H|H]]]; injection H as H1 H2 H3;
      destruct other; simpl; auto; by destruct Hne.
Qed.

(** X4: an edit of people to the empty string, or to a blank one,
    stores the value and leaves state, municipality and community as they
    were. *)
Theorem clear_pueblo_keeps_hierarchy (data : ExtractedData) (value : string)
    (cur : FilterState) :
  Js.nonblank value = false →
  synchronizeFilters (Some data) F_pueblo value cur
  = mkFilters (entidad cur) (municipio cur) (comunidad cur) value.
Proof.
  intros Hb. rewrite sync_unfold.
  change (syncHierarchy data F_pueblo value ?x) with x.
  unfold syncPueblo. unfold Js.nonblank in Hb. rewrite Hb. by destruct cur.
Qed.

Lemma clear_pueblo_keeps_hierarchy_witness :
  Js.nonblank Scenario.nbsp = false
  ∧ synchronizeFilters (Some Scenario.data) F_pueblo Scenario.nbsp
      (mkFilters "Oaxaca" "Juchitán" "X" "Zapoteco")
    = mkFilters "Oaxaca" "Juchitán" "X" Scenario.nbsp.
Proof.
  split; [reflexivity|].
  apply (clear_pueblo_keeps_hierarchy Scenario.data Scenario.nbsp
           (mkFilters "Oaxaca" "Juchitán" "X" "Zapoteco")).
  reflexivity.
Defined.

(** ** Re-applying an edit, and the count after an edit *)

Lemma somePartialPueblo_spec data e m c v :
  somePartialPueblo data e m c v = true
  ↔ ∃ f, f ∈ features data
         ∧ (e = "" ∨ NOM_ENT (properties f) = Some e)
         ∧ (m = "" ∨ NOM_MUN (properties f) = Some m)
         ∧ (c = "" ∨ featureComunidad (properties f) = Some c)
         ∧ Pueblo (properties f) = Some v.
Proof.
  unfold somePartialPueblo. rewrite existsb_elem_of.
  split; intros (f & Hf & H); exists f; (split; [exact Hf|]).
  - rewrite !andb_true_iff, !orb_true_iff, !negb_true_iff, !truthy_false,
      !seq_true in H. tauto.
  - rewrite !andb_true_iff, !orb_true_iff, !negb_true_iff, !truthy_false,
      !seq_true. tauto.
Qed.

(** The outcomes of the people block: the selection as it came in (for
    a blank value, with no hierarchical facet, when a feature agrees with
    all of them, or on a selection that is not set from the top down), or
    the selection cut at the first level without a feature. *)
Lemma syncPueblo_cases (data : ExtractedData) (v : string) (nf : FilterState) :
  let r := syncPueblo data F_pueblo v nf in
  let e := entidad nf in
  let m := municipio nf in
  let c := comunidad nf in
  let p := pueblo nf in
  (r = nf
   ∧ (Js.nonblank v = false
      ∨ (e = "" ∧ m = "" ∧ c = "")
      ∨ somePartialPueblo data e m c v = true
      ∨ ¬ nested nf))
  ∨ (Js.nonblank v = true ∧ r = mkFilters "" "" "" p)
  ∨ (Js.nonblank v = true ∧ r = mkFilters e "" "" p
     ∧ e ≠ "" ∧ someEntPueblo data e v = true)
  ∨ (Js.nonblank v = true ∧ r = mkFilters e m "" p
     ∧ e ≠ "" ∧ m ≠ "" ∧ someEntMunPueblo data e m v = true).
Proof.
  destruct nf as [e m c p]. cbv zeta. simpl entidad. simpl municipio.
  simpl comunidad. simpl pueblo.
  unfold syncPueblo. fold (Js.nonblank v).
  destruct (Js.nonblank v) eqn:Hv; [|left; auto].
  simpl entidad. simpl municipio. simpl comunidad.
  destruct (decide (e = "")) as [->|He].
  { destruct (decide (m = "")) as [->|Hm].
    - destruct (decide (c = "")) as [->|Hc].
      { simpl. left. split; [reflexivity|]. right; left. auto. }
      rewrite (proj2 (truthy_true c) Hc). simpl.
      assert (Hnn : ¬ nested (mkFilters "" "" c p)).
      { intros [_ H]. by apply (H Hc). }
      destruct (somePartialPueblo data "" "" c v); left; (split; [reflexivity|]);
        auto.
    - rewrite (proj2 (truthy_true m) Hm). simpl.
      assert (Hnn : ¬ nested (mkFilters "" m c p)).
      { intros [H _]. by apply (H Hm). }
      destruct (somePartialPueblo data "" m c v); simpl; left;
        (split; [reflexivity|]); auto. }
  pose proof (proj2 (truthy_true e) He) as Te. rewrite Te. simpl.
  destruct (somePartialPueblo data e m c v) eqn:Hpart.
  { left. split; [reflexivity|]. auto. }
  destruct (someEntPueblo data e v) eqn:H1; simpl.
  2:{ right; left. by repeat split. }
  rewrite Te. simpl.
  destruct (decide (m = "")) as [->|Hm].
  { simpl. destruct (decide (c = "")) as [->|Hc].
    - rewrite somePartial_ent in Hpart by exact He. congruence.
    - rewrite Te. simpl. left. split; [reflexivity|]. right; right; right.
      intros [_ H]. by apply (H Hc). }
  pose proof (proj2 (truthy_true m) Hm) as Tm. rewrite Tm.
  destruct (someEntMunPueblo data e m v) eqn:H2; simpl.
  2:{ rewrite Te. simpl. right; right; left. by repeat split. }
  rewrite Te, Tm. simpl.
  destruct (decide (c = "")) as [->|Hc].
  { rewrite somePartial_ent_mun in Hpart by assumption. congruence. }
  rewrite (proj2 (truthy_true c) Hc).
  rewrite somePartial_ent_mun_com in Hpart by assumption. rewrite Hpart.
  simpl. right; right; right. by repeat split.
Qed.

(** X5: applying the same edit again to the result of an edit changes
    nothing. *)
Theorem reconcile_idempotent (extractedData : option ExtractedData) (field : Field)
    (value : string) (cur : FilterState) :
  synchronizeFilters extractedData field value
    (synchronizeFilters extractedData field value cur)
  = synchronizeFilters extractedData field value cur.
Proof.
  destruct extractedData as [data|]; [|reflexivity].
  rewrite !sync_unfold. destruct field.
  - change (syncPueblo data F_entidad value ?x) with x.
    destruct cur as [e m c p]. unfold syncHierarchy. simpl.
    destruct (Js.truthy p) eqn:Tp; simpl; [|by rewrite Tp].
    destruct (someEntPueblo data value p) eqn:Hs; simpl; [by rewrite Tp, Hs|].
    reflexivity.
  - change (syncPueblo data F_municipio value ?x) with x.
    destruct cur as [e m c p]. unfold syncHierarchy. simpl.
    destruct (Js.truthy p && Js.truthy e) eqn:Tp; simpl; [|by rewrite Tp].
    destruct (someEntMunPueblo data e value p) eqn:Hs; simpl; [by rewrite Tp, Hs|].
    reflexivity.
  - change (syncPueblo data F_comunidad value ?x) with x.
    destruct cur as [e m c p]. unfold syncHierarchy. simpl.
    destruct (Js.truthy p && Js.truthy e && Js.truthy m) eqn:Tp; simpl;
      [|by rewrite Tp].
    destruct (someEntMunComPueblo data e m value p) eqn:Hs; simpl;
      [by rewrite Tp, Hs|].
    reflexivity.
  - cbn [syncHierarchy]. destruct cur as [e m c p]. simpl set_field at 2 3.
    assert (Hpr : pueblo (syncPueblo data F_pueblo value (mkFilters e m c value))
                  = value).
    { by destruct (syncPueblo_hier data value (mkFilters e m c value)) as [-> _]. }
    assert (Hset : ∀ r, pueblo r = value → set_field r F_pueblo value = r).
    { intros [e' m' c' p']. simpl. by intros ->. }
    rewrite (Hset _ Hpr).
    destruct (syncPueblo_cases data value (mkFilters e m c value))
      as [[Heq _]|[(Hv & ->)|[(Hv & -> & He & H1)|(Hv & -> & He & Hm & H2)]]];
      simpl in *.
    + rewrite Heq. exact Heq.
    + unfold syncPueblo. unfold Js.nonblank in Hv. rewrite Hv. reflexivity.
    + unfold syncPueblo. unfold Js.nonblank in Hv. rewrite Hv. simpl.
      rewrite (proj2 (truthy_true _) He). simpl.
      rewrite somePartial_ent by exact He. by rewrite H1.
    + unfold syncPueblo. unfold Js.nonblank in Hv. rewrite Hv. simpl.
      rewrite (proj2 (truthy_true _) He). simpl.
      rewrite somePartial_ent_mun by assumption. by rewrite H2.
Qed.

Lemma supported_edit_counts (data : ExtractedData) (field : Field)
    (value : string) (cur : FilterState) :
  editSupported data cur field value →
  (0 < getFilteredCount (Some data)
         (synchronizeFilters (Some data) field value cur))%nat.
Proof.
  intros Hsup. rewrite sync_unfold. destruct cur as [e m c p].
  destruct field; simpl in Hsup.
  - change (syncPueblo data F_entidad value ?x) with x.
    destruct Hsup as (f & Hf & Hent).
    unfold syncHierarchy. simpl.
    destruct (Js.truthy p) eqn:Tp; simpl.
    + destruct (someEntPueblo data value p) eqn:Hs.
      * reflect_some Hs. destruct Hs as (g & Hg & G1 & G2).
        apply (count_pos data _ g Hg). apply countPredicate_match; simpl; auto.
      * apply (count_pos data _ f Hf). apply countPredicate_match; simpl; auto.
    + apply truthy_false in Tp. subst p.
      apply (count_pos data _ f Hf). apply countPredicate_match; simpl; auto.
  - change (syncPueblo data F_municipio value ?x) with x.
    destruct Hsup as (He & f & Hf & Hent & Hmun).
    unfold syncHierarchy. simpl.
    destruct (Js.truthy p && Js.truthy e) eqn:Tp; simpl.
    + destruct (someEntMunPueblo data e value p) eqn:Hs.
      * reflect_some Hs. destruct Hs as (g & Hg & G1 & G2 & G3).
        apply (count_pos data _ g Hg). apply countPredicate_match; simpl; auto.
      * apply (count_pos data _ f Hf). apply countPredicate_match; simpl; auto.
    + rewrite (proj2 (truthy_true e) He), andb_true_r in Tp.
      apply truthy_false in Tp. subst p.
      apply (count_pos data _ f Hf). apply countPredicate_match; simpl; auto.
  - change (syncPueblo data F_comunidad value ?x) with x.
    destruct Hsup as (He & Hm & f & Hf & Hent & Hmun & Hcom).
    unfold syncHierarchy. simpl.
    destruct (Js.truthy p && Js.truthy e && Js.truthy m) eqn:Tp; simpl.
    + destruct (someEntMunComPueblo data e m value p) eqn:Hs.
      * reflect_some Hs. destruct Hs as (g & Hg & G1 & G2 & G3 & G4).
        apply (count_pos data _ g Hg). apply countPredicate_match; simpl; auto.
      * apply (count_pos data _ f Hf). apply countPredicate_match; simpl; auto.
    + rewrite (proj2 (truthy_true e) He), (proj2 (truthy_true m) Hm),
        !andb_true_r in Tp.
      apply truthy_false in Tp. subst p.
      apply (count_pos data _ f Hf). apply countPredicate_match; simpl; auto.
  - change (syncHierarchy data F_pueblo value ?x) with x. simpl set_field.
    destruct Hsup as (Hv & Hnest & f & Hf & Hpue).
    destruct (syncPueblo_cases data value (mkFilters e m c value))
      as [[-> Hwhy]|[(_ & ->)|[(_ & -> & He & H1)|(_ & -> & He & Hm & H2)]]];
      simpl in *.
    + destruct Hwhy as [Hb|[(-> & -> & ->)|[Hpart|Hnn]]].
      * congruence.
      * apply (count_pos data _ f Hf). apply countPredicate_match; simpl; auto.
      * apply somePartialPueblo_spec in Hpart as (g & Hg & G1 & G2 & G3 & G4).
        apply (count_pos data _ g Hg). apply countPredicate_match; simpl; auto.
      * destruct Hnn. exact Hnest.
    + apply (count_pos data _ f Hf). apply countPredicate_match; simpl; auto.
    + reflect_some H1. destruct H1 as (g & Hg & G1 & G2).
      apply (count_pos data _ g Hg). apply countPredicate_match; simpl; auto.
    + reflect_some H2. destruct H2 as (g & Hg & G1 & G2 & G3).
      apply (count_pos data _ g Hg). apply countPredicate_match; simpl; auto.
Qed.

(** X6: an edit supported by a feature never leads to an empty result:
    when some feature carries the new value together with the selected
    facets above it (for people: when some feature has the new, non-blank
    people value and the selection is set from the top down), the count
    of the reconciled selection is positive. *)
Theorem reconcile_no_dead_end (data : ExtractedData) (field : Field)
    (value : string) (cur : FilterState) :
  editSupported data cur field value →
  (0 < getFilteredCount (Some data)
         (synchronizeFilters (Some data) field value cur))%nat.
Proof. apply supported_edit_counts. Qed.

Lemma reconcile_no_dead_end_witness :
  editSupported Scenario.data (mkFilters "Oaxaca" "Juchitán" "X" "") F_pueblo "Tzotzil"
  ∧ (0 < getFilteredCount (Some Scenario.data)
           (synchronizeFilters (Some Scenario.data) F_pueblo "Tzotzil"
              (mkFilters "Oaxaca" "Juchitán" "X" "")))%nat.
Proof.
  assert (H : editSupported Scenario.data (mkFilters "Oaxaca" "Juchitán" "X" "")
                F_pueblo "Tzotzil").
  { split; [reflexivity|]. split; [split; simpl; intros _; discriminate|].
    exists Scenario.F3. split; [|reflexivity].
    apply list_elem_of_In. vm_compute. auto. }
  split; [exact H|].
  exact (reconcile_no_dead_end Scenario.data F_pueblo "Tzotzil"
           (mkFilters "Oaxaca" "Juchitán" "X" "") H).
Defined.

(** ** Validation settles *)

Lemma validateFilters_fixed (data : ExtractedData) (cur : FilterState) :
  validateFilters (Some data) cur = cur
  ↔ entOk data cur ∧ munOk data cur ∧ comOk data cur ∧ pueOk data cur.
Proof.
  destruct cur as [e m c p]. rewrite validateFilters_cases. cbv zeta.
  destruct (decide (entOk data (mkFilters e m c p))) as [He|He];
    destruct (decide (munOk data (mkFilters e m c p))) as [Hm|Hm];
    destruct (decide (comOk data (mkFilters e m c p))) as [Hc|Hc];
    destruct (decide (pueOk data (mkFilters e m c p))) as [Hp|Hp];
    (split; [intros [= E1 E2 E3 E4] || intros [= E1 E2 E3] || intros [= E1 E2]
             || intros [= E1] || intros _
            |intros (? & ? & ? & ?); try tauto; try reflexivity]);
    unfold entOk, munOk, comOk, pueOk in *; simpl in *; subst;
    repeat split; tauto.
Qed.

(** X7: validateFilters returns a selection unchanged exactly when each
    facet passes its membership test: the state is empty or in the index,
    the municipality is listed under the state, the community under the
    pair (each examined only when the facets above it are set), and
    people is empty or among the peoples of the index. *)
Theorem validate_unchanged_iff (data : ExtractedData) (cur : FilterState) :
  validateFilters (Some data) cur = cur
  ↔ (entidad cur = "" ∨ entidad cur ∈ entidades data)
    ∧ (entidad cur = "" ∨ municipio cur = ""
       ∨ municipio cur ∈ get_or_empty (municipiosPorEntidad data) (entidad cur))
    ∧ (entidad cur = "" ∨ municipio cur = "" ∨ comunidad cur = ""
       ∨ comunidad cur ∈ get_or_empty (comunidadesPorMunicipio data)
                           (joinKey (entidad cur) (municipio cur)))
    ∧ (pueblo cur = "" ∨ pueblo cur ∈ pueblos data).
Proof. apply validateFilters_fixed. Qed.

Lemma validateFilters_idem (data : ExtractedData) (cur : FilterState) :
  validateFilters (Some data) (validateFilters (Some data) cur)
  = validateFilters (Some data) cur.
Proof.
  apply validateFilters_fixed.
  destruct cur as [e m c p]. rewrite validateFilters_cases. cbv zeta.
  destruct (decide (entOk data (mkFilters e m c p))) as [He|He];
    destruct (decide (munOk data (mkFilters e m c p))) as [Hm|Hm];
    destruct (decide (comOk data (mkFilters e m c p))) as [Hc|Hc];
    destruct (decide (pueOk data (mkFilters e m c p))) as [Hp|Hp];
    unfold entOk, munOk, comOk, pueOk in *; simpl in *; tauto.
Qed.

Lemma needsUpdate_false (a b : FilterState) : needsUpdate a b = false ↔ a = b.
Proof.
  destruct a as [e m c p], b as [e' m' c' p']. unfold needsUpdate. simpl.
  rewrite !orb_false_iff, !negb_false_iff, !String.eqb_eq.
  split.
  - intros (-> & -> & -> & -> & _). reflexivity.
  - intros [= -> -> -> ->]. auto.
Qed.

(** X8: the effect that validates the selection after a change of the
    data leaves exactly the validated selection, and a second run finds
    nothing to update: validation is idempotent. *)
Theorem validation_effect_settles (extractedData : option ExtractedData)
    (filters : FilterState) :
  let settled := validationEffect extractedData filters in
  settled = validateFilters extractedData filters
  ∧ validateFilters extractedData settled = settled
  ∧ needsUpdate settled (validateFilters extractedData settled) = false
  ∧ validationEffect extractedData settled = settled.
Proof.
  cbv zeta.
  assert (H1 : validationEffect extractedData filters
               = validateFilters extractedData filters).
  { unfold validationEffect. destruct extractedData as [data|]; [|reflexivity].
    destruct (needsUpdate filters (validateFilters (Some data) filters)) eqn:Hn;
      [reflexivity|]. by apply needsUpdate_false in Hn. }
  assert (H2 : validateFilters extractedData (validateFilters extractedData filters)
               = validateFilters extractedData filters).
  { destruct extractedData as [data|]; [apply validateFilters_idem|reflexivity]. }
  rewrite H1. split; [reflexivity|]. split; [exact H2|].
  split; [by apply needsUpdate_false|].
  unfold validationEffect. destruct extractedData as [data|]; [|reflexivity].
  rewrite H2. by destruct (needsUpdate _ _).
Qed.

(** ** Counter, layer filter and camera together *)

Lemma filter_all {A} (p : A → bool) (l : list A) :
  (∀ x, p x = true) → List.filter p l = l.
Proof.
  intros H. induction l as [|x l IH]; simpl; [reflexivity|]. by rewrite H, IH.
Qed.

Lemma filter_ext_eq {A} (p q : A → bool) (l : list A) :
  (∀ x, p x = q x) → List.filter p l = List.filter q l.
Proof.
  intros H. induction l as [|x l IH]; simpl; [reflexivity|]. by rewrite H, IH.
Qed.

(** X9: facets that are empty or hold white space only constrain
    nothing. With all four blank the counter counts every feature of the
    index and the layer gets the null filter, so every point is drawn. *)
Theorem blank_filters_select_all (data : ExtractedData) (filters : FilterState) :
  Js.nonblank (entidad filters) = false →
  Js.nonblank (municipio filters) = false →
  Js.nonblank (comunidad filters) = false →
  Js.nonblank (pueblo filters) = false →
  getFilteredCount (Some data) filters = length (features data)
  ∧ applyMapFilters filters = None
  ∧ ∀ f, layerShows (applyMapFilters filters) f = true.
Proof.
  intros He Hm Hc Hp.
  assert (Hnone : applyMapFilters filters = None).
  { unfold applyMapFilters. rewrite <- !nonblank_trimTruthy.
    by rewrite He, Hm, Hc, Hp. }
  split; [|split; [exact Hnone|by rewrite Hnone]].
  simpl. rewrite filter_all; [reflexivity|].
  intros f. unfold countPredicate. by rewrite He, Hm, Hc, Hp.
Qed.

Lemma blank_filters_select_all_witness :
  let filters := mkFilters " " "" Scenario.nbsp "" in
  Js.nonblank (entidad filters) = false
  ∧ Js.nonblank (municipio filters) = false
  ∧ Js.nonblank (comunidad filters) = false
  ∧ Js.nonblank (pueblo filters) = false
  ∧ (getFilteredCount (Some Scenario.data) filters = length (features Scenario.data)
     ∧ applyMapFilters filters = None
     ∧ ∀ f, layerShows (applyMapFilters filters) f = true).
Proof.
  cbv zeta.
  split; [reflexivity|]. split; [reflexivity|]. split; [reflexivity|].
  split; [reflexivity|].
  apply (blank_filters_select_all Scenario.data
           (mkFilters " " "" Scenario.nbsp "")); reflexivity.
Defined.

(** X10: the counter never shows more than the layer draws: among the
    features of the index, those counted are at most those that pass the
    layer filter, and as many when no community is selected. *)
Theorem count_at_most_drawn (data : ExtractedData) (filters : FilterState) :
  let drawn := List.filter (layerShows (applyMapFilters filters)) (features data) in
  (getFilteredCount (Some data) filters ≤ length drawn)%nat
  ∧ (Js.nonblank (comunidad filters) = false →
     getFilteredCount (Some data) filters = length drawn).
Proof.
  cbv zeta. split.
  - simpl. apply filter_length_le. intros f. apply counted_is_shown.
  - intros Hc. simpl. f_equal. apply filter_ext_eq. intros f.
    symmetry. by apply shown_iff_counted_without_comunidad.
Qed.

Lemma zoomed_is_counted (filters : FilterState) (f : Feature) :
  zoomPredicate filters f = true → countPredicate filters f = true.
Proof.
  assert (Hfacet : ∀ s o, Js.truthy s && negb (Js.seq o s) = false →
                          Js.nonblank s && negb (Js.seq o s) = false).
  { intros s o. unfold Js.nonblank.
    destruct (Js.truthy s), (Js.seq o s); simpl; intros H;
      first [discriminate H | reflexivity | apply andb_false_r]. }
  unfold zoomPredicate, countPredicate.
  destruct (Js.truthy (entidad filters) && _) eqn:H1; [discriminate|].
  destruct (Js.truthy (municipio filters) && _) eqn:H2; [discriminate|].
  destruct (Js.truthy (comunidad filters) && _) eqn:H3; [discriminate|].
  destruct (Js.truthy (pueblo filters) && _) eqn:H4; [discriminate|].
  intros _.
  by rewrite (Hfacet _ _ H1), (Hfacet _ _ H2), (Hfacet _ _ H3), (Hfacet _ _ H4).
Qed.

Lemma counted_is_zoomed (filters : FilterState) (f : Feature) :
  emptyOrNonblank (entidad filters) → emptyOrNonblank (municipio filters) →
  emptyOrNonblank (comunidad filters) → emptyOrNonblank (pueblo filters) →
  countPredicate filters f = zoomPredicate filters f.
Proof.
  assert (Hfacet : ∀ s, emptyOrNonblank s → Js.nonblank s = Js.truthy s).
  { intros s [->|H]; [reflexivity|]. rewrite H. unfold Js.nonblank in H.
    apply andb_true_iff in H as [H _]. by rewrite H. }
  intros He Hm Hc Hp. unfold countPredicate, zoomPredicate.
  by rewrite (Hfacet _ He), (Hfacet _ Hm), (Hfacet _ Hc), (Hfacet _ Hp).
Qed.

Lemma dataLoaded_extracted (raw : list Feature) (data : ExtractedData) :
  dataLoaded raw = Some data → extractLayerData raw = Some data.
Proof.
  unfold dataLoaded. destruct (extractLayerData raw) as [d|]; [|discriminate].
  destruct (bool_decide _); [|discriminate]. by intros [= <-].
Qed.

(** X11: applyFilterZoom reads the index that extractLayerData left in
    extractedDataRef, the counter the index that onDataLoaded handed to
    the sidebar. Once an extraction has handed its index over, the two
    are the same index, and then the camera is moved only when the
    counter is positive: if applyFilterZoom reaches fitBounds, at least
    one feature is counted. When in addition every facet is empty or not
    blank the two agree: the camera stays exactly when the count is
    zero. *)
Theorem camera_moves_only_with_results (raw : list Feature) (data : ExtractedData)
    (filters : FilterState) :
  let extractedDataRef := extractLayerData raw in
  let extractedData := dataLoaded raw in
  extractedData = Some data →
  extractedDataRef = Some data
  ∧ (∀ o, applyFilterZoom extractedDataRef filters = Some o →
          (0 < getFilteredCount extractedData filters)%nat)
  ∧ (emptyOrNonblank (entidad filters) → emptyOrNonblank (municipio filters) →
     emptyOrNonblank (comunidad filters) → emptyOrNonblank (pueblo filters) →
     (applyFilterZoom extractedDataRef filters = None
      ↔ getFilteredCount extractedData filters = 0%nat)).
Proof.
  cbv zeta. intros Hdl.
  rewrite (dataLoaded_extracted raw data Hdl), Hdl.
  split; [reflexivity|]. simpl. split.
  - intros o.
    destruct (Nat.eqb (length (List.filter (zoomPredicate filters) (features data))) 0)
      eqn:Hz; [discriminate|].
    intros _. apply Nat.eqb_neq in Hz.
    pose proof (filter_length_le (zoomPredicate filters) (countPredicate filters)
                  (features data) (zoomed_is_counted filters)) as Hle.
    lia.
  - intros He Hm Hc Hp.
    rewrite (filter_ext_eq (countPredicate filters) (zoomPredicate filters));
      [|intros f; by apply counted_is_zoomed].
    destruct (Nat.eqb (length (List.filter (zoomPredicate filters) (features data))) 0)
      eqn:Hz.
    + apply Nat.eqb_eq in Hz. split; auto.
    + apply Nat.eqb_neq in Hz. split; [discriminate|]. intros H. by destruct Hz.
Qed.

Lemma camera_moves_only_with_results_witness :
  dataLoaded Scenario.raw = Some Scenario.data
  ∧ extractLayerData Scenario.raw = Some Scenario.data
  ∧ (∀ o, applyFilterZoom (extractLayerData Scenario.raw)
            (mkFilters "Oaxaca" "" "" "") = Some o →
          (0 < getFilteredCount (dataLoaded Scenario.raw)
                 (mkFilters "Oaxaca" "" "" ""))%nat).
Proof.
  assert (H0 : dataLoaded Scenario.raw = Some Scenario.data).
  { vm_compute. reflexivity. }
  split; [exact H0|].
  destruct (camera_moves_only_with_results Scenario.raw Scenario.data
              (mkFilters "Oaxaca" "" "" "") H0) as (H1 & H2 & _).
  split; [exact H1|exact H2].
Defined.

(** Before any index is handed over the two differ: a feature without a
    state is extracted and kept in extractedDataRef, the sidebar gets
    nothing, and on the empty selection the camera is moved while the
    counter shows 0. *)
Example camera_moves_before_data_loaded :
  let raw := [mkFeature (mkProps None None (Some "X") None (Some "Zapoteco"))
                None None] in
  dataLoaded raw = None
  ∧ applyFilterZoom (extractLayerData raw) emptyFilters
    = Some (mkFit (mkPadding 50 50 50 350) 16)
  ∧ getFilteredCount (dataLoaded raw) emptyFilters = 0.
Proof. vm_compute. repeat split. Qed.

(** ** Highlight of a hovered community *)

Lemma comunidad_passes_any (name : string) (p : Props) :
  name ≠ "" → featureComunidad p = Some name →
  evalFilter (highlightCondition name) p = true.
Proof.
  intros Hne. unfold featureComunidad, Js.or. simpl.
  destruct (Js.otruthy (NOM_COM p)); intros H; apply seq_true in H; rewrite H;
    by rewrite ?orb_true_r.
Qed.

(** X12: hovering a community with a name that is not blank highlights
    exactly the points that the layer filter keeps when that community
    alone is selected; among them is every feature whose community
    (NOM_COM, or NOM_LOC when that is missing) is the name. Without a
    name, or with the empty one, no point is highlighted. *)
Theorem highlight_is_the_community_filter (name : string) (f : Feature) :
  Js.nonblank name = true →
  isHighlighted (Some name) f
  = layerShows (applyMapFilters (mkFilters "" "" name "")) f
  ∧ (featureComunidad (properties f) = Some name →
     isHighlighted (Some name) f = true)
  ∧ isHighlighted None f = false
  ∧ isHighlighted (Some "") f = false.
Proof.
  intros Hn. pose proof (nonblank_truthy name Hn) as Hne.
  unfold isHighlighted. rewrite (proj2 (truthy_true name) Hne). simpl negb.
  cbv iota.
  split; [|split; [|split; reflexivity]].
  - rewrite applyMapFilters_conditions. unfold filterConditions. simpl.
    rewrite Hn. simpl. by rewrite andb_true_r.
  - by apply comunidad_passes_any.
Qed.

Lemma highlight_is_the_community_filter_witness :
  Js.nonblank "X" = true
  ∧ (isHighlighted (Some "X") Scenario.F1
     = layerShows (applyMapFilters (mkFilters "" "" "X" "")) Scenario.F1
     ∧ (featureComunidad (properties Scenario.F1) = Some "X" →
        isHighlighted (Some "X") Scenario.F1 = true)
     ∧ isHighlighted None Scenario.F1 = false
     ∧ isHighlighted (Some "") Scenario.F1 = false).
Proof.
  split; [reflexivity|].
  apply (highlight_is_the_community_filter "X" Scenario.F1). reflexivity.
Defined.

(** ** Locations of a people *)

Lemma elem_of_map {A B} (f : A → B) (l : list A) (y : B) :
  y ∈ map f l ↔ ∃ x, y = f x ∧ x ∈ l.
Proof.
  rewrite list_elem_of_In, in_map_iff. split.
  - intros (x & E & Hx). exists x. split; [done|]. by apply list_elem_of_In.
  - intros (x & E & Hx). exists x. split; [done|]. by apply list_elem_of_In.
Qed.

Lemma elem_of_map_snoc {A B} (f : A → B) (l : list A) (x : A) (y : B) :
  y ∈ map f (l ++ [x]) ↔ y ∈ map f l ∨ y = f x.
Proof.
  rewrite map_app, elem_of_app. simpl. by rewrite list_elem_of_singleton.
Qed.

Lemma elem_of_map_cons {A B} (f : A → B) (l : list A) (x : A) (y : B) :
  y ∈ map f (x :: l) ↔ y = f x ∨ y ∈ map f l.
Proof. simpl. apply elem_of_cons. Qed.

Section UniqueByKey.

Context {A : Type} (key : A → string).

Lemma findIndexFrom_bounds (p : A → bool) (i : Z) (l : list A) :
  findIndexFrom p i l = (-1)%Z
  ∨ (i ≤ findIndexFrom p i l < i + Z.of_nat (length l))%Z.
Proof.
  revert i. induction l as [|x l IH]; intros i; simpl; [by left|].
  destruct (p x); [right; lia|].
  destruct (IH (i + 1)%Z) as [H|H]; [by left|right; lia].
Qed.

Lemma findIndexFrom_app (p : A → bool) (i : Z) (pre suf : list A) :
  findIndexFrom p i (pre ++ suf)
  = if existsb p pre then findIndexFrom p i pre
    else findIndexFrom p (i + Z.of_nat (length pre)) suf.
Proof.
  revert i. induction pre as [|x pre IH]; intros i; simpl.
  - f_equal. lia.
  - destruct (p x); simpl; [reflexivity|].
    rewrite IH. destruct (existsb p pre); [reflexivity|]. f_equal. lia.
Qed.

Lemma existsb_key (x : A) (pre : list A) :
  existsb (fun l => String.eqb (key l) (key x)) pre = true
  ↔ key x ∈ map key pre.
Proof.
  rewrite existsb_elem_of, elem_of_map. split.
  - intros (y & Hy & E). apply String.eqb_eq in E. eauto.
  - intros (y & E & Hy). exists y. split; [exact Hy|]. by apply String.eqb_eq.
Qed.

Lemma firstWithKey_here (x : A) (pre suf : list A) (i : Z) :
  i = Z.of_nat (length pre) →
  firstWithKey key (pre ++ x :: suf) x i = negb (bool_decide (key x ∈ map key pre)).
Proof.
  intros ->. unfold firstWithKey, findIndex. rewrite findIndexFrom_app.
  destruct (existsb _ pre) eqn:Hex.
  - rewrite bool_decide_eq_true_2 by by apply existsb_key.
    simpl. apply Z.eqb_neq.
    destruct (findIndexFrom_bounds (fun l => String.eqb (key l) (key x)) 0 pre)
      as [H|H]; lia.
  - rewrite bool_decide_eq_false_2.
    2:{ rewrite <- existsb_key. by rewrite Hex. }
    simpl. rewrite String.eqb_refl. apply Z.eqb_eq. lia.
Qed.

(** The filter of getPuebloLocations on the part [suf] of the array that
    follows [pre]. *)
Lemma uniqueFrom_cons (x : A) (pre suf : list A) :
  filterFrom (firstWithKey key (pre ++ x :: suf)) (Z.of_nat (length pre)) (x :: suf)
  = if bool_decide (key x ∈ map key pre)
    then filterFrom (firstWithKey key ((pre ++ [x]) ++ suf))
           (Z.of_nat (length (pre ++ [x]))) suf
    else x :: filterFrom (firstWithKey key ((pre ++ [x]) ++ suf))
                (Z.of_nat (length (pre ++ [x]))) suf.
Proof.
  simpl. rewrite firstWithKey_here by reflexivity.
  rewrite <- (assoc_L (++) pre [x] suf). simpl.
  replace (Z.of_nat (length (pre ++ [x]))) with (Z.of_nat (length pre) + 1)%Z
    by (rewrite length_app; simpl; lia).
  by destruct (bool_decide _).
Qed.

Lemma uniqueFrom_keys (pre suf : list A) (k : string) :
  k ∈ map key (filterFrom (firstWithKey key (pre ++ suf)) (Z.of_nat (length pre)) suf)
  ↔ k ∈ map key suf ∧ k ∉ map key pre.
Proof.
  revert pre. induction suf as [|x suf IH]; intros pre.
  - simpl. split; [intros H; by apply elem_of_nil in H|].
    intros [H _]. by apply elem_of_nil in H.
  - rewrite uniqueFrom_cons.
    case_bool_decide as Hin.
    + rewrite IH, elem_of_map_snoc, elem_of_map_cons.
      split.
      * intros [H1 H2]. split; [by right|tauto].
      * intros [[->|H1] H2]; [contradiction|]. split; [exact H1|].
        intros [H| ->]; contradiction.
    + rewrite !elem_of_map_cons, IH, elem_of_map_snoc.
      split.
      * intros [->|[H1 H2]]; [split; [by left|exact Hin]|].
        split; [by right|tauto].
      * intros [[->|H1] H2]; [by left|].
        destruct (decide (k = key x)) as [->|Hne]; [by left|].
        right. split; [exact H1|]. tauto.
Qed.

Lemma uniqueFrom_NoDup (pre suf : list A) :
  NoDup (map key (filterFrom (firstWithKey key (pre ++ suf)) (Z.of_nat (length pre)) suf)).
Proof.
  revert pre. induction suf as [|x suf IH]; intros pre.
  - simpl. constructor.
  - rewrite uniqueFrom_cons. case_bool_decide as Hin; [apply IH|].
    simpl. constructor; [|apply IH].
    rewrite uniqueFrom_keys. intros [_ H]. apply H.
    apply elem_of_map_snoc. by right.
Qed.

Lemma uniqueFrom_sublist (pre suf : list A) :
  sublist (filterFrom (firstWithKey key (pre ++ suf)) (Z.of_nat (length pre)) suf) suf.
Proof.
  revert pre. induction suf as [|x suf IH]; intros pre.
  - simpl. constructor.
  - rewrite uniqueFrom_cons. case_bool_decide.
    + apply sublist_cons. apply IH.
    + apply sublist_skip. apply IH.
Qed.

End UniqueByKey.

(** X13: the locations listed for a people have pairwise different
    keys (state|municipality|community); each is the location of a
    feature with that people value, in the order of the features; and the
    key of every feature with that people value is listed. Without data
    or with the empty name the list is empty. *)
Theorem pueblo_locations_unique (data : ExtractedData) (puebloName : string) :
  let locs := getPuebloLocations (Some data) puebloName in
  NoDup (map locationKey locs)
  ∧ sublist locs
      (map locationOf
         (List.filter (fun f => Js.seq (Pueblo (properties f)) puebloName)
            (features data)))
  ∧ (∀ loc, loc ∈ locs →
            ∃ f, f ∈ features data ∧ Pueblo (properties f) = Some puebloName
                 ∧ loc = locationOf f)
  ∧ (puebloName ≠ "" →
     ∀ f, f ∈ features data → Pueblo (properties f) = Some puebloName →
          locationKey (locationOf f) ∈ map locationKey locs)
  ∧ getPuebloLocations None puebloName = []
  ∧ getPuebloLocations (Some data) "" = [].
Proof.
  cbv zeta. unfold getPuebloLocations.
  destruct (Js.truthy puebloName) eqn:Tn; simpl negb; cbv iota.
  2:{ apply truthy_false in Tn.
      repeat split; try constructor; try reflexivity.
      - apply sublist_nil_l.
      - intros loc H. by apply elem_of_nil in H.
      - intros H. by destruct H. }
  set (src := List.filter (fun f => Js.seq (Pueblo (properties f)) puebloName)
                (features data)).
  set (locations := map locationOf src).
  assert (Hsub : sublist
            (filterFrom (fun location index =>
               Z.eqb (findIndex (fun l => String.eqb (locationKey l)
                                            (locationKey location)) locations) index)
               0%Z locations) locations).
  { apply (uniqueFrom_sublist locationKey [] locations). }
  repeat split.
  - apply (uniqueFrom_NoDup locationKey [] locations).
  - exact Hsub.
  - intros loc Hloc.
    assert (Hin : loc ∈ locations) by (eapply elem_of_sublist; eauto).
    apply elem_of_map in Hin as (f & -> & Hf).
    apply list_elem_of_In, filter_In in Hf as [Hf Hp].
    exists f. split; [by apply list_elem_of_In|]. split; [by apply seq_true|done].
  - intros _ f Hf Hp.
    apply (uniqueFrom_keys locationKey [] locations). split.
    + apply elem_of_map. exists (locationOf f). split; [done|].
      apply elem_of_map. exists f. split; [done|].
      apply list_elem_of_In, filter_In. split; [by apply list_elem_of_In|].
      by apply seq_true.
    + simpl. apply not_elem_of_nil.
Qed.

(** ** The index, exactly *)

Lemma pushUnique_keeps (obj obj' : gmap string (list string)) (k v k' v' : string) :
  pushUnique obj k v = Some obj' →
  v' ∈ default [] (obj !! k') → v' ∈ default [] (obj' !! k').
Proof.
  rewrite pushUnique_spec.
  destruct (obj !! k) as [arr|] eqn:Hk.
  - intros [= <-]. case_bool_decide as Hin; [done|].
    destruct (decide (k = k')) as [<-|Hne].
    + rewrite lookup_insert_eq, Hk. simpl. intros H. apply elem_of_app. by left.
    + by rewrite lookup_insert_ne.
  - destruct (Obj.inherited k); [discriminate|]. intros [= <-].
    destruct (decide (k = k')) as [<-|Hne].
    + rewrite Hk. simpl. intros H. by apply elem_of_nil in H.
    + by rewrite lookup_insert_ne.
Qed.

Lemma pushUnique_adds (obj obj' : gmap string (list string)) (k v : string) :
  pushUnique obj k v = Some obj' → v ∈ default [] (obj' !! k).
Proof.
  rewrite pushUnique_spec.
  destruct (obj !! k) as [arr|] eqn:Hk.
  - intros [= <-]. case_bool_decide as Hin.
    + by rewrite Hk.
    + rewrite lookup_insert_eq. simpl. apply elem_of_app. right.
      by apply list_elem_of_singleton.
  - destruct (Obj.inherited k); [discriminate|]. intros [= <-].
    rewrite lookup_insert_eq. simpl. by apply list_elem_of_singleton.
Qed.

(** pushUnique throws exactly under an inherited name, and leaves no own
    property of such a name. *)
Lemma pushUnique_None (obj : gmap string (list string)) (k v : string) :
  plainKeys obj → pushUnique obj k v = None ↔ Obj.inherited k = true.
Proof.
  intros Hplain. rewrite pushUnique_spec.
  destruct (obj !! k) as [arr|] eqn:Hk.
  - rewrite (Hplain k) by by rewrite Hk. split; discriminate.
  - by destruct (Obj.inherited k).
Qed.

Lemma pushUnique_plain (obj obj' : gmap string (list string)) (k v : string) :
  plainKeys obj → pushUnique obj k v = Some obj' → plainKeys obj'.
Proof.
  intros Hplain. rewrite pushUnique_spec.
  destruct (obj !! k) as [arr|] eqn:Hk.
  - intros [= <-]. case_bool_decide; [exact Hplain|].
    intros k'. destruct (decide (k = k')) as [<-|Hne].
    + intros _. apply Hplain. by rewrite Hk.
    + rewrite lookup_insert_ne by exact Hne. apply Hplain.
  - destruct (Obj.inherited k) eqn:Hi; [discriminate|]. intros [= <-].
    intros k'. destruct (decide (k = k')) as [<-|Hne].
    + intros _. exact Hi.
    + rewrite lookup_insert_ne by exact Hne. apply Hplain.
Qed.

Lemma joinKey_neq (e m k : string) : noBar k = true → joinKey e m ≠ k.
Proof.
  unfold joinKey. revert k.
  induction e as [|c r IH]; intros [|c' k']; simpl; intros Hk H;
    cbv [String.append] in H; fold String.append in H; try discriminate H.
  - injection H as <- _. discriminate Hk.
  - injection H as -> H. apply andb_true_iff in Hk as [_ Hk].
    by apply (IH k').
Qed.

(** No key of comunidadesObj is inherited: it holds a '|'. *)
Lemma joinKey_not_inherited (e m : string) : Obj.inherited (joinKey e m) = false.
Proof.
  unfold Obj.inherited. apply bool_decide_eq_false_2. intros Hin.
  assert (Hbars : Forall (fun k => noBar k = true) Obj.protoKeys).
  { unfold Obj.protoKeys. repeat constructor. }
  rewrite Forall_forall in Hbars.
  exact (joinKey_neq e m _ (Hbars _ Hin) eq_refl).
Qed.

Lemma pushUnique_joinKey (obj : gmap string (list string)) (e m v : string) :
  pushUnique obj (joinKey e m) v ≠ None.
Proof.
  rewrite pushUnique_spec. rewrite joinKey_not_inherited.
  by destruct (obj !! joinKey e m).
Qed.

Lemma indexFeature_None (objs : IndexObjs) (f : Feature) :
  plainKeys (municipiosObj objs) →
  indexFeature objs f = None ↔ throwsOn f = true.
Proof.
  intros Hplain. unfold indexFeature, throwsOn.
  fold (indexedEnt f). fold (indexedMun f). fold (indexedCom f). fold (indexedPue f).
  destruct (Js.truthy (indexedEnt f)); simpl; [|split; discriminate].
  destruct (Js.truthy (indexedMun f)); simpl; [|split; discriminate].
  rewrite <- (pushUnique_None (municipiosObj objs) (indexedEnt f) (indexedMun f) Hplain).
  destruct (pushUnique (municipiosObj objs) (indexedEnt f) (indexedMun f))
    as [munObj|]; [|done].
  destruct (Js.truthy (indexedCom f)); [|split; discriminate].
  pose proof (pushUnique_joinKey (comunidadesObj objs) (indexedEnt f) (indexedMun f)
                (indexedCom f)) as Hcom.
  destruct (pushUnique (comunidadesObj objs) _ _); [split; discriminate|done].
Qed.

Lemma indexFeature_plain (objs objs' : IndexObjs) (f : Feature) :
  plainKeys (municipiosObj objs) → indexFeature objs f = Some objs' →
  plainKeys (municipiosObj objs').
Proof.
  intros Hplain Hstep.
  destruct (indexFeature_fields objs objs' f Hstep) as (_ & FM & _).
  destruct (Js.truthy (indexedEnt f) && Js.truthy (indexedMun f)).
  - by apply (pushUnique_plain _ _ _ _ Hplain FM).
  - by rewrite FM.
Qed.

Lemma indexAll_None (objs : IndexObjs) (l : list Feature) :
  plainKeys (municipiosObj objs) →
  indexAll objs l = None ↔ ∃ f, f ∈ l ∧ throwsOn f = true.
Proof.
  revert objs. induction l as [|f l IH]; intros objs Hplain; simpl.
  { split; [discriminate|]. intros (f & Hf & _). by apply elem_of_nil in Hf. }
  destruct (indexFeature objs f) as [objs'|] eqn:Hstep.
  - rewrite (IH objs' (indexFeature_plain objs objs' f Hplain Hstep)).
    assert (Hf : throwsOn f ≠ true).
    { intros H. apply (indexFeature_None objs f Hplain) in H. congruence. }
    split.
    + intros (g & Hg & Ht). exists g. split; [by right|exact Ht].
    + intros (g & Hg & Ht). apply elem_of_cons in Hg as [->|Hg]; [done|eauto].
  - split; [|done]. intros _. exists f. split; [by left|].
    by apply (indexFeature_None objs f Hplain).
Qed.

Lemma plainKeys_empty : plainKeys (municipiosObj emptyObjs).
Proof. intros k. simpl. rewrite lookup_empty. by intros [? ?]. Qed.

(** extractLayerData ends in its [catch] exactly when some de-duplicated
    feature makes the loop throw. *)
Lemma extractLayerData_None (raw : list Feature) :
  extractLayerData raw = None
  ↔ ∃ f, f ∈ uniqueFeatures raw ∧ throwsOn f = true.
Proof.
  rewrite <- (indexAll_None emptyObjs (uniqueFeatures raw) plainKeys_empty).
  unfold extractLayerData. cbv zeta.
  by destruct (indexAll emptyObjs (uniqueFeatures raw)).
Qed.

Ltac reflect_truthy :=
  repeat match goal with
    | H : Js.truthy _ = true |- _ => apply truthy_true in H
    | H : Js.truthy _ = false |- _ => apply truthy_false in H
    end.

Lemma objsComplete_step (done : list Feature) (objs objs' : IndexObjs) (f : Feature) :
  indexFeature objs f = Some objs' →
  objsComplete done objs → objsComplete (done ++ [f])%list objs'.
Proof.
  intros Hstep Hc.
  destruct (indexFeature_fields objs objs' f Hstep) as (FE & FM & FC & FP).
  assert (KE : ∀ e, e ∈ dom (entidadesObj objs) → e ∈ dom (entidadesObj objs')).
  { intros e He. rewrite FE. destruct (Js.truthy (indexedEnt f)); [|exact He].
    apply elem_of_dom_set. by right. }
  assert (KP : ∀ p, p ∈ dom (pueblosObj objs) → p ∈ dom (pueblosObj objs')).
  { intros p Hp. rewrite FP. destruct (Js.truthy (indexedPue f)); [|exact Hp].
    apply elem_of_dom_set. by right. }
  assert (KM : ∀ k v, v ∈ default [] (municipiosObj objs !! k) →
                      v ∈ default [] (municipiosObj objs' !! k)).
  { intros k v. destruct (Js.truthy (indexedEnt f) && Js.truthy (indexedMun f)).
    - exact (pushUnique_keeps _ _ _ _ k v FM).
    - by rewrite FM. }
  assert (KC : ∀ k v, v ∈ default [] (comunidadesObj objs !! k) →
                      v ∈ default [] (comunidadesObj objs' !! k)).
  { intros k v.
    destruct (Js.truthy (indexedEnt f) && Js.truthy (indexedMun f)
              && Js.truthy (indexedCom f)).
    - exact (pushUnique_keeps _ _ _ _ k v FC).
    - by rewrite FC. }
  intros g Hg. apply elem_of_app in Hg as [Hg|Hg].
  - destruct (Hc g Hg) as (GE & GM & GC & GP).
    repeat split; intros; auto.
  - apply list_elem_of_singleton in Hg. subst g. repeat split.
    + intros He Hproto. rewrite FE, (proj2 (truthy_true _) He).
      apply elem_of_dom_set. by left.
    + intros He Hm.
      rewrite (proj2 (truthy_true _) He), (proj2 (truthy_true _) Hm) in FM.
      simpl in FM. by apply (pushUnique_adds _ _ _ _ FM).
    + intros He Hm Hco.
      rewrite (proj2 (truthy_true _) He), (proj2 (truthy_true _) Hm),
        (proj2 (truthy_true _) Hco) in FC.
      simpl in FC. by apply (pushUnique_adds _ _ _ _ FC).
    + intros Hp Hproto. rewrite FP, (proj2 (truthy_true _) Hp).
      apply elem_of_dom_set. by left.
Qed.

Lemma objsComplete_indexAll (done l : list Feature) (objs objs' : IndexObjs) :
  indexAll objs l = Some objs' →
  objsComplete done objs → objsComplete (done ++ l)%list objs'.
Proof.
  revert done objs. induction l as [|f l IH]; intros done objs Hall Hc; simpl in Hall.
  - injection Hall as <-. by rewrite app_nil_r.
  - destruct (indexFeature objs f) as [objs1|] eqn:Hstep; [|discriminate].
    replace (done ++ f :: l)%list with ((done ++ [f]) ++ l)%list
      by by rewrite <- app_assoc.
    apply (IH _ objs1 Hall). by apply (objsComplete_step done objs).
Qed.

(** Every name of a de-duplicated feature is in the index. *)
Lemma extractLayerData_complete (raw : list Feature) (data : ExtractedData) :
  extractLayerData raw = Some data →
  ∀ f, f ∈ features data →
    (listedName (indexedEnt f) → indexedEnt f ∈ entidades data)
    ∧ (indexedEnt f ≠ "" → indexedMun f ≠ "" →
       indexedMun f ∈ get_or_empty (municipiosPorEntidad data) (indexedEnt f))
    ∧ (indexedEnt f ≠ "" → indexedMun f ≠ "" → indexedCom f ≠ "" →
       indexedCom f ∈ get_or_empty (comunidadesPorMunicipio data)
                        (joinKey (indexedEnt f) (indexedMun f)))
    ∧ (listedName (indexedPue f) → indexedPue f ∈ pueblos data).
Proof.
  intros Hx. apply extractLayerData_Some in Hx as (objs & Hall & ->). simpl.
  pose proof (objsComplete_indexAll [] (uniqueFeatures raw) emptyObjs objs Hall)
    as Hc.
  intros f Hf. destruct (Hc (fun g Hg => match proj1 (elem_of_nil g) Hg with end) f Hf)
    as (CE & CM & CC & CP).
  repeat split.
  - intros [H1 H2]. by apply CE.
  - intros H1 H2. apply get_or_empty_fmap. by apply CM.
  - intros H1 H2 H3. apply get_or_empty_fmap. by apply CC.
  - intros [H1 H2]. by apply CP.
Qed.


Lemma indexFeature_noProto (objs objs' : IndexObjs) (f : Feature) :
  indexFeature objs f = Some objs' →
  ("__proto__" ∉ dom (entidadesObj objs) → "__proto__" ∉ dom (entidadesObj objs'))
  ∧ ("__proto__" ∉ dom (pueblosObj objs) → "__proto__" ∉ dom (pueblosObj objs')).
Proof.
  intros Hstep.
  destruct (indexFeature_fields objs objs' f Hstep) as (FE & _ & _ & FP).
  rewrite FE, FP. split; intros Hn.
  - destruct (Js.truthy (indexedEnt f)); [|exact Hn].
    rewrite elem_of_dom_set. intros [[H1 H2]|H]; [by destruct H2|by destruct Hn].
  - destruct (Js.truthy (indexedPue f)); [|exact Hn].
    rewrite elem_of_dom_set. intros [[H1 H2]|H]; [by destruct H2|by destruct Hn].
Qed.

Lemma indexAll_noProto (objs objs' : IndexObjs) (l : list Feature) :
  indexAll objs l = Some objs' →
  ("__proto__" ∉ dom (entidadesObj objs)) → ("__proto__" ∉ dom (pueblosObj objs)) →
  ("__proto__" ∉ dom (entidadesObj objs')) ∧ ("__proto__" ∉ dom (pueblosObj objs')).
Proof.
  revert objs. induction l as [|f l IH]; intros objs Hall HE HP; simpl in Hall.
  - by injection Hall as <-.
  - destruct (indexFeature objs f) as [objs1|] eqn:Hstep; [|discriminate].
    destruct (indexFeature_noProto objs objs1 f Hstep) as [H1 H2].
    apply (IH objs1 Hall); auto.
Qed.

(** [Object.keys] of the two flag objects never lists [__proto__]. *)
Lemma extractLayerData_listed (raw : list Feature) (data : ExtractedData) :
  extractLayerData raw = Some data →
  ("__proto__" ∉ entidades data) ∧ ("__proto__" ∉ pueblos data).
Proof.
  intros Hx. apply extractLayerData_Some in Hx as (objs & Hall & ->). simpl.
  apply (indexAll_noProto emptyObjs objs _ Hall); simpl;
    rewrite dom_empty_L; apply not_elem_of_empty.
Qed.

Lemma index_of_features (raw : list Feature) (data : ExtractedData) :
  extractLayerData raw = Some data →
  features data = uniqueFeatures raw
  ∧ (∀ e, e ∈ entidades data
          ↔ ∃ f, f ∈ features data ∧ indexedEnt f = e ∧ listedName e).
Proof.
  intros Hx.
  destruct (extractLayerData_sound raw data Hx) as (SE & _).
  pose proof (extractLayerData_complete raw data Hx) as Hc.
  pose proof (extractLayerData_listed raw data Hx) as [LE _].
  split.
  { apply extractLayerData_Some in Hx as (objs & _ & ->). reflexivity. }
  intros e. split.
  - intros He. destruct (SE e He) as (f & Hf & Hi & Hne).
    exists f. repeat split; auto. intros ->. by destruct LE.
  - intros (f & Hf & <- & Hl). by apply (Hc f Hf).
Qed.

(** X14: when extraction goes through, the index holds exactly the
    names of the de-duplicated features, trimmed: a state is listed when
    it is the non-empty trimmed NOM_ENT of some feature and is not
    [__proto__], a name that an assignment to a plain object does not
    store; a municipality under a state when some feature has both; a
    community under the key state|municipality when some feature has the
    three (community being NOM_COM, or NOM_LOC when that is missing); a
    people when it is the non-empty trimmed Pueblo of some feature,
    whatever its other names, and is not [__proto__]. *)
Theorem index_holds_exactly_the_features (raw : list Feature)
    (data : ExtractedData) :
  extractLayerData raw = Some data →
  features data = uniqueFeatures raw
  ∧ (∀ e, e ∈ entidades data
          ↔ ∃ f, f ∈ features data ∧ indexedEnt f = e ∧ listedName e)
  ∧ (∀ e m, m ∈ get_or_empty (municipiosPorEntidad data) e
            ↔ ∃ f, f ∈ features data ∧ indexedEnt f = e ∧ indexedMun f = m
                   ∧ e ≠ "" ∧ m ≠ "")
  ∧ (∀ k c, c ∈ get_or_empty (comunidadesPorMunicipio data) k
            ↔ ∃ f, f ∈ features data
                   ∧ joinKey (indexedEnt f) (indexedMun f) = k
                   ∧ indexedCom f = c
                   ∧ indexedEnt f ≠ "" ∧ indexedMun f ≠ "" ∧ c ≠ "")
  ∧ (∀ p, p ∈ pueblos data
          ↔ ∃ f, f ∈ features data ∧ indexedPue f = p ∧ listedName p).
Proof.
  intros Hx.
  destruct (extractLayerData_sound raw data Hx) as (SE & SM & SC & SP).
  pose proof (extractLayerData_complete raw data Hx) as Hc.
  pose proof (extractLayerData_listed raw data Hx) as [LE LP].
  split.
  { apply extractLayerData_Some in Hx as (objs & _ & ->). reflexivity. }
  repeat split.
  - intros He. destruct (SE e He) as (f & Hf & Hi & Hne).
    exists f. repeat split; auto. intros ->. by destruct LE.
  - intros (f & Hf & <- & Hl). by apply (Hc f Hf).
  - apply SM.
  - intros (f & Hf & <- & <- & Hne & Hnm). by apply (Hc f Hf).
  - apply SC.
  - intros (f & Hf & <- & <- & Hne & Hnm & Hnc). by apply (Hc f Hf).
  - intros Hp. destruct (SP p Hp) as (f & Hf & Hi & Hne).
    exists f. repeat split; auto. intros ->. by destruct LP.
  - intros (f & Hf & <- & Hl). by apply (Hc f Hf).
Qed.

Lemma index_holds_exactly_the_features_witness :
  extractLayerData Scenario.raw = Some Scenario.data
  ∧ features Scenario.data = uniqueFeatures Scenario.raw
  ∧ (∀ e, e ∈ entidades Scenario.data
          ↔ ∃ f, f ∈ features Scenario.data ∧ indexedEnt f = e ∧ listedName e).
Proof.
  split; [vm_compute; reflexivity|].
  destruct (index_holds_exactly_the_features Scenario.raw Scenario.data)
    as (H1 & H2 & _); [vm_compute; reflexivity|].
  split; [exact H1|exact H2].
Defined.

(** The name [__proto__] is not stored, and a state of the name
    [constructor] is; with a municipality under it the loop throws. *)
Example prototype_names_in_the_index :
  let f1 := mkFeature (mkProps (Some "__proto__") None None None (Some "__proto__"))
              None None in
  let f2 := mkFeature (mkProps (Some "constructor") None None None None) None None in
  let f3 := mkFeature (mkProps (Some "constructor") (Some "Z") None None None)
              None None in
  (entidades <$> extractLayerData [f1; f2]) = Some {[ "constructor" ]}
  ∧ (pueblos <$> extractLayerData [f1; f2]) = Some ∅
  ∧ extractLayerData [f1; f2; f3] = None
  ∧ dataLoaded [f1; f2; f3] = None.
Proof. vm_compute. repeat split. Qed.

(** ** Extracting again *)

Lemma dedupeFrom_idem (seen : gset string) (l : list Feature) :
  dedupeFrom seen (dedupeFrom seen l) = dedupeFrom seen l.
Proof.
  revert seen. induction l as [|f rest IH]; intros seen; simpl; [reflexivity|].
  destruct (Js.truthy (recordId f)) eqn:Tid; simpl.
  - destruct (bool_decide (recordId f ∈ seen)) eqn:Hin; [apply IH|].
    simpl. rewrite Tid, Hin. simpl. f_equal. apply IH.
  - rewrite Tid. simpl. f_equal. apply IH.
Qed.

(** X15: extraction is idempotent on its own result: the
    de-duplicated features have nothing left to remove, and the index
    built from the features of an index is that index; where extraction
    throws there is no index to extract from. *)
Theorem extract_again_is_identity (raw : list Feature) :
  uniqueFeatures (uniqueFeatures raw) = uniqueFeatures raw
  ∧ (extractLayerData raw ≫= (fun data => extractLayerData (features data)))
    = extractLayerData raw.
Proof.
  assert (H : uniqueFeatures (uniqueFeatures raw) = uniqueFeatures raw)
    by apply dedupeFrom_idem.
  split; [exact H|]. unfold extractLayerData. cbv zeta.
  destruct (indexAll emptyObjs (uniqueFeatures raw)) as [objs|] eqn:Hall;
    [|reflexivity].
  simpl. by rewrite H, Hall.
Qed.

(** X16: the sidebar is handed the extracted data exactly when the
    extraction goes through and some de-duplicated feature has a state
    name that is listed: not blank, and not [__proto__]. Extraction ends
    in its [catch] exactly when some de-duplicated feature has a
    municipality under a state named like a property of
    [Object.prototype]; then, and as long as no feature has a listed
    state, the sidebar stays without index. *)
Theorem data_loaded_iff_some_state (raw : list Feature) :
  (∀ data, dataLoaded raw = Some data
           ↔ extractLayerData raw = Some data
             ∧ ∃ f, f ∈ uniqueFeatures raw ∧ listedName (indexedEnt f))
  ∧ (dataLoaded raw = None
     ↔ (∃ f, f ∈ uniqueFeatures raw ∧ throwsOn f = true)
       ∨ (∀ f, f ∈ uniqueFeatures raw → ¬ listedName (indexedEnt f)))
  ∧ (extractLayerData raw = None
     ↔ ∃ f, f ∈ uniqueFeatures raw ∧ throwsOn f = true).
Proof.
  assert (Hpos : ∀ data, extractLayerData raw = Some data →
            (0 < size (entidades data))%nat
            ↔ ∃ f, f ∈ uniqueFeatures raw ∧ listedName (indexedEnt f)).
  { intros data Hx.
    destruct (index_of_features raw data Hx) as (HF & HE).
    rewrite <- HF. split.
    - intros Hs. apply size_pos_elem_of in Hs as [e He].
      apply HE in He as (f & Hf & <- & Hl). eauto.
    - intros (f & Hf & Hl).
      assert (Hin : indexedEnt f ∈ entidades data) by (apply HE; eauto).
      destruct (decide (size (entidades data) = 0%nat)) as [Hz|Hz]; [|lia].
      apply size_empty_iff in Hz. rewrite Hz in Hin.
      by apply elem_of_empty in Hin. }
  split; [|split; [|apply extractLayerData_None]].
  - intros data. unfold dataLoaded.
    destruct (extractLayerData raw) as [d|] eqn:Hx.
    + specialize (Hpos d eq_refl).
      destruct (decide (0 < size (entidades d))%nat) as [Hs|Hs].
      * rewrite (bool_decide_eq_true_2 _ Hs). split.
        -- intros [= <-]. split; [reflexivity|by apply Hpos].
        -- by intros [[= <-] _].
      * rewrite (bool_decide_eq_false_2 _ Hs). split; [discriminate|].
        intros [_ Hex]. by destruct (Hs (proj2 Hpos Hex)).
    + split; [discriminate|]. by intros [? _].
  - unfold dataLoaded. rewrite <- extractLayerData_None.
    destruct (extractLayerData raw) as [d|] eqn:Hx.
    + specialize (Hpos d eq_refl).
      destruct (decide (0 < size (entidades d))%nat) as [Hs|Hs].
      * rewrite (bool_decide_eq_true_2 _ Hs). split; [discriminate|].
        intros [H|Hall]; [discriminate H|].
        apply Hpos in Hs as (f & Hf & Hl). by destruct (Hall f Hf).
      * rewrite (bool_decide_eq_false_2 _ Hs). split; [|reflexivity].
        intros _. right. intros f Hf Hl. apply Hs, Hpos. eauto.
    + split; [by left|reflexivity].
Qed.

(** ** The option lists and the clearing of dependent facets *)

Section OptionListsShape.

Variable localeSort : list string → list string.
Hypothesis localeSort_perm : ∀ l, localeSort l ≡ₚ l.

Lemma sortedFromSet_NoDup (s : gset string) : NoDup (sortedFromSet localeSort s).
Proof.
  unfold sortedFromSet. rewrite (localeSort_perm (elements s)).
  apply NoDup_elements.
Qed.

Lemma includes_sortedFromSet (x : string) (s : gset string) :
  includes x (sortedFromSet localeSort s) = bool_decide (x ∈ s).
Proof.
  unfold includes. apply bool_decide_ext.
  by apply sortedFromSet_elem.
Qed.

(** X17: with no people selected, the two effects that clear dependent
    facets do what validateFilters does: the first is its municipality
    block, and, when a state is selected, the second is its community
    block. *)
Theorem dependent_cleanup_is_validation (data : ExtractedData)
    (filters : FilterState) :
  pueblo filters = "" →
  clearDependentMunicipio (sortedMunicipios localeSort (Some data) filters) filters
  = validateMunicipio data filters
  ∧ (entidad filters ≠ "" →
     clearDependentComunidad (sortedComunidades localeSort (Some data) filters)
       filters
     = validateComunidad data filters).
Proof.
  destruct filters as [e m c p]. simpl. intros ->.
  unfold clearDependentMunicipio, clearDependentComunidad, validateMunicipio,
    validateComunidad, sortedMunicipios, sortedComunidades. simpl.
  split.
  - destruct (Js.truthy e) eqn:Te; simpl; [|reflexivity].
    rewrite includes_sortedFromSet.
    by destruct (Js.truthy m), (bool_decide _).
  - intros He. rewrite (proj2 (truthy_true e) He). simpl.
    destruct (Js.truthy m) eqn:Tm; simpl; [|reflexivity].
    rewrite includes_sortedFromSet.
    by destruct (Js.truthy c), (bool_decide _).
Qed.

(** X18: no option list offers a value twice, and on an index built by
    extractLayerData none offers the empty string. Without data every
    list is empty; the municipality list is empty while no state is
    selected, and the community list while state or municipality is
    missing. *)
Theorem option_lists_shape (rawFeatures : list Feature) (data : ExtractedData)
    (filters : FilterState) (field : Field) :
  NoDup (optionsFor localeSort (Some data) filters field)
  ∧ (extractLayerData rawFeatures = Some data →
     "" ∉ optionsFor localeSort (Some data) filters field)
  ∧ optionsFor localeSort None filters field = []
  ∧ (entidad filters = "" →
     optionsFor localeSort (Some data) filters F_municipio = [])
  ∧ (entidad filters = "" ∨ municipio filters = "" →
     optionsFor localeSort (Some data) filters F_comunidad = []).
Proof.
  assert (Hpick : ∀ (pick : Feature → option string) fs,
            (∀ f, pick f ≠ Some "") →
            "" ∉ sortedFromSet localeSort (collect pick fs)).
  { intros pick fs Hne Hin.
    apply sortedFromSet_elem in Hin; [|exact localeSort_perm].
    apply collect_elem in Hin as (f & _ & Hf). by apply (Hne f). }
  assert (Htruthy : ∀ (b : bool) (o : option string),
            (if b && Js.otruthy o then o else None) ≠ Some "").
  { intros b [s|]; simpl; [|by destruct b].
    destruct b; simpl; [|discriminate].
    destruct (Js.truthy s) eqn:Ts; [|discriminate].
    apply truthy_true in Ts. congruence. }
  split; [|split; [|split; [by destruct field|split]]].
  - destruct field; simpl;
      repeat match goal with
        | |- NoDup (if ?b then _ else _) => destruct b
        | |- NoDup [] => constructor
        | |- NoDup (sortedFromSet _ _) => apply sortedFromSet_NoDup
        end.
  - intros Hx.
    destruct (extractLayerData_sound rawFeatures data Hx) as (HE & HM & HC & HP).
    destruct field; simpl.
    + destruct (Js.truthy (pueblo filters)).
      * apply Hpick. intros f. apply Htruthy.
      * intros Hin. apply sortedFromSet_elem in Hin; [|exact localeSort_perm].
        by destruct (HE _ Hin) as (_ & _ & _ & Hne).
    + destruct (Js.truthy (entidad filters)); simpl; [|apply not_elem_of_nil].
      destruct (Js.truthy (pueblo filters)).
      * apply Hpick. intros f. apply Htruthy.
      * intros Hin. apply sortedFromSet_elem in Hin; [|exact localeSort_perm].
        by destruct (HM _ _ Hin) as (_ & _ & _ & _ & _ & Hne).
    + destruct (Js.truthy (entidad filters)); simpl; [|apply not_elem_of_nil].
      destruct (Js.truthy (municipio filters)); simpl; [|apply not_elem_of_nil].
      destruct (Js.truthy (pueblo filters)).
      * apply Hpick. intros f. apply Htruthy.
      * intros Hin. apply sortedFromSet_elem in Hin; [|exact localeSort_perm].
        by destruct (HC _ _ Hin) as (_ & _ & _ & _ & _ & _ & Hne).
    + destruct (negb _ && negb _ && negb _).
      * intros Hin. apply sortedFromSet_elem in Hin; [|exact localeSort_perm].
        by destruct (HP _ Hin) as (_ & _ & _ & Hne).
      * apply Hpick. intros f. apply Htruthy.
  - intros He. simpl. by rewrite He.
  - intros [He|Hm]; simpl.
    + by rewrite He.
    + rewrite Hm. simpl. by rewrite orb_true_r.
Qed.

End OptionListsShape.

Lemma dependent_cleanup_is_validation_witness :
  pueblo (mkFilters "Oaxaca" "Z" "W" "") = ""
  ∧ (clearDependentMunicipio
       (sortedMunicipios Scenario.byteSort (Some Scenario.data)
          (mkFilters "Oaxaca" "Z" "W" ""))
       (mkFilters "Oaxaca" "Z" "W" "")
     = validateMunicipio Scenario.data (mkFilters "Oaxaca" "Z" "W" "")
     ∧ (entidad (mkFilters "Oaxaca" "Z" "W" "") ≠ "" →
        clearDependentComunidad
          (sortedComunidades Scenario.byteSort (Some Scenario.data)
             (mkFilters "Oaxaca" "Z" "W" ""))
          (mkFilters "Oaxaca" "Z" "W" "")
        = validateComunidad Scenario.data (mkFilters "Oaxaca" "Z" "W" ""))).
Proof.
  split; [reflexivity|].
  apply (dependent_cleanup_is_validation Scenario.byteSort byteSort_perm
           Scenario.data (mkFilters "Oaxaca" "Z" "W" "")).
  reflexivity.
Defined.

Lemma option_lists_shape_witness :
  (∀ l, Scenario.byteSort l ≡ₚ l)
  ∧ extractLayerData Scenario.raw = Some Scenario.data
  ∧ NoDup (optionsFor Scenario.byteSort (Some Scenario.data)
             (mkFilters "Oaxaca" "" "" "") F_municipio)
  ∧ ("" ∉ optionsFor Scenario.byteSort (Some Scenario.data)
            (mkFilters "Oaxaca" "" "" "") F_municipio).
Proof.
  assert (H0 : extractLayerData Scenario.raw = Some Scenario.data).
  { vm_compute. reflexivity. }
  split; [exact byteSort_perm|]. split; [exact H0|].
  destruct (option_lists_shape Scenario.byteSort byteSort_perm Scenario.raw
              Scenario.data (mkFilters "Oaxaca" "" "" "") F_municipio)
    as (H1 & H2 & _).
  split; [exact H1|exact (H2 H0)].
Defined.

(** ** A click on a point *)


Lemma find_not_member (e : string) (l : list string) :
  e ∉ l → List.find (fun x => String.eqb e x) l = None.
Proof.
  induction l as [|x l IH]; intros Hin; [reflexivity|].
  simpl. destruct (String.eqb e x) eqn:E.
  - apply String.eqb_eq in E. subst. destruct Hin. by left.
  - apply IH. intros H. apply Hin. by right.
Qed.

Lemma trimmed_value (s : string) :
  trimmedProp (Some s) = true → Js.trim s = s.
Proof. simpl. apply String.eqb_eq. Qed.


Lemma handleFilterChangeFromMap_unknown (data : ExtractedData) (prev : FilterState)
    (e : string) (pm pl pp : option string) :
  e ∉ entidades data →
  handleFilterChangeFromMap (Some data) prev (mkPatch (Some e) pm pl pp) = prev.
Proof.
  intros Hin. unfold handleFilterChangeFromMap. simpl.
  destruct (Js.truthy e); [|reflexivity].
  rewrite find_not_member; [reflexivity|].
  intros H. apply Hin. by apply elem_of_elements.
Qed.




(** X20: a click changes nothing while there are no data, and nothing
    when the state of the point (the placeholder "—" when NOM_ENT is
    missing) is empty or not a state of the index. *)
Theorem click_on_unknown_state_is_ignored (extractedData : option ExtractedData)
    (props : Props) (PUEBLO : option string) (prev : FilterState) :
  (extractedData = None
   ∨ NOM_ENT props = Some ""
   ∨ ∃ data, extractedData = Some data
             ∧ nullish (NOM_ENT props) "—" ∉ entidades data) →
  handleFilterChangeFromMap extractedData prev (clickPatch props PUEBLO) = prev.
Proof.
  intros [->|[Hempty|(data & -> & Hnot)]]; [reflexivity| |].
  - unfold handleFilterChangeFromMap, clickPatch.
    destruct extractedData as [data|]; [|reflexivity]. simpl.
    by rewrite Hempty.
  - unfold clickPatch. by apply handleFilterChangeFromMap_unknown.
Qed.

Lemma click_on_unknown_state_is_ignored_witness :
  handleFilterChangeFromMap (Some Scenario.data)
    (mkFilters "Oaxaca" "" "" "")
    (clickPatch (mkProps None (Some "Z") None (Some "W") (Some "Tzotzil")) None)
  = mkFilters "Oaxaca" "" "" "".
Proof.
  apply (click_on_unknown_state_is_ignored (Some Scenario.data)).
  right; right. exists Scenario.data. split; [reflexivity|].
  apply (bool_decide_unpack _). vm_compute. exact I.
Defined.



(** ** Base style and measuring modes *)

Lemma toggle3D_consistent (st : StyleState) :
  mapStyle st = getCurrentStyleUrl st →
  mapStyle (toggle3D st) = getCurrentStyleUrl (toggle3D st).
Proof.
  destruct st as [sat d3 dark style]. unfold toggle3D, getCurrentStyleUrl. simpl.
  intros ->. by destruct sat, d3, dark.
Qed.

Lemma toggleSatellite_consistent (st : StyleState) :
  mapStyle (toggleSatellite st) = getCurrentStyleUrl (toggleSatellite st).
Proof.
  destruct st as [sat d3 dark style]. unfold toggleSatellite, getCurrentStyleUrl.
  simpl. by destruct sat, d3, dark.
Qed.

(** X22: the style that toggle3D and toggleSatellite hand to the map is
    the one getCurrentStyleUrl gives for the flags after the toggle: from
    a map created with getCurrentStyleUrl, after any sequence of the two
    toggles the map shows the style of its flags. toggleSatellite sets it
    whatever the map showed before; toggle3D leaves the style alone while
    the satellite view is on. *)
Theorem style_follows_the_flags (st : StyleState) (events : list StyleEvent) :
  mapStyle st = getCurrentStyleUrl st →
  let st' := foldl styleStep st events in
  mapStyle st' = getCurrentStyleUrl st'
  ∧ isDarkTheme st' = isDarkTheme st
  ∧ (isSatellite st = true → mapStyle (toggle3D st) = mapStyle st)
  ∧ (∀ any, mapStyle (toggleSatellite (mkStyle (isSatellite st) (is3D st)
                                         (isDarkTheme st) any))
            = getCurrentStyleUrl (toggleSatellite st)).
Proof.
  intros Hc. cbv zeta.
  assert (Hseq : ∀ evs s, mapStyle s = getCurrentStyleUrl s →
            mapStyle (foldl styleStep s evs) = getCurrentStyleUrl (foldl styleStep s evs)
            ∧ isDarkTheme (foldl styleStep s evs) = isDarkTheme s).
  { induction evs as [|ev evs IH]; intros s Hs; simpl; [by split|].
    assert (Hstep : mapStyle (styleStep s ev) = getCurrentStyleUrl (styleStep s ev)).
    { destruct ev; [by apply toggle3D_consistent|apply toggleSatellite_consistent]. }
    destruct (IH _ Hstep) as [H1 H2]. split; [exact H1|].
    rewrite H2. by destruct ev, s. }
  destruct (Hseq events st Hc) as [H1 H2].
  split; [exact H1|]. split; [exact H2|]. split.
  - intros Hsat. destruct st as [sat d3 dark style]. simpl in *. subst sat.
    unfold toggle3D. simpl. by destruct d3.
  - intros any. destruct st as [sat d3 dark style].
    unfold toggleSatellite, getCurrentStyleUrl. simpl. by destruct sat, d3, dark.
Qed.

Lemma style_follows_the_flags_witness :
  let st := mkStyle false false false lightStyleUrl in
  let st' := foldl styleStep st [Toggle3D; ToggleSatellite; Toggle3D; ToggleSatellite] in
  mapStyle st = getCurrentStyleUrl st
  ∧ mapStyle st' = getCurrentStyleUrl st'.
Proof.
  cbv zeta. split; [reflexivity|].
  apply (style_follows_the_flags (mkStyle false false false lightStyleUrl)
           [Toggle3D; ToggleSatellite; Toggle3D; ToggleSatellite]).
  reflexivity.
Defined.

(** X23: the two measuring modes exclude each other. After any toggle,
    and so after any non-empty sequence of toggles, at most one mode is
    on and no clicked point is pending. Turning a mode off removes all
    routes and lines; turning one on, or switching from the other, keeps
    them. *)
Theorem measuring_modes_exclusive {Route Point : Type}
    (st : MeasureState Route Point) :
  (∀ events, events ≠ [] →
     let st' := foldl (measureStep Route Point) st events in
     isMeasuring _ _ st' && isMeasuringLine _ _ st' = false
     ∧ currentPoints _ _ st' = [] ∧ currentLinePoints _ _ st' = [])
  ∧ (isMeasuring _ _ st = true →
     routesData _ _ (toggleMeasurement _ _ st) = []
     ∧ linesData _ _ (toggleMeasurement _ _ st) = [])
  ∧ (isMeasuringLine _ _ st = true →
     routesData _ _ (toggleLineMeasurement _ _ st) = []
     ∧ linesData _ _ (toggleLineMeasurement _ _ st) = [])
  ∧ (isMeasuring _ _ st = false →
     routesData _ _ (toggleMeasurement _ _ st) = routesData _ _ st
     ∧ linesData _ _ (toggleMeasurement _ _ st) = linesData _ _ st)
  ∧ (isMeasuringLine _ _ st = false →
     routesData _ _ (toggleLineMeasurement _ _ st) = routesData _ _ st
     ∧ linesData _ _ (toggleLineMeasurement _ _ st) = linesData _ _ st).
Proof.
  split.
  - intros events Hne. cbv zeta.
    destruct (exists_last Hne) as (evs & ev & ->).
    rewrite foldl_snoc.
    destruct ev; set (s := foldl _ st evs); destruct s as [a b r l cp cl];
      unfold measureStep, toggleMeasurement, toggleLineMeasurement; simpl;
      destruct a, b; simpl; auto.
  - destruct st as [a b r l cp cl].
    unfold toggleMeasurement, toggleLineMeasurement. simpl.
    split; [|split; [|split]]; intros ->; simpl; auto.
Qed.

(** ** Choosing an offered option *)

Section ChooseOption.

Variable localeSort : list string → list string.
Hypothesis localeSort_perm : ∀ l, localeSort l ≡ₚ l.

Lemma hierarchyInvariant_nested (data : ExtractedData) (fs : FilterState) :
  hierarchyInvariant data fs → nested fs.
Proof.
  intros [Hm Hc]. split.
  - intros H. by destruct (Hm H).
  - intros H. by destruct (Hc H).
Qed.

Lemma trimmed_nonblank (s : string) :
  trimmedProp (Some s) = true → s ≠ "" → Js.nonblank s = true.
Proof.
  intros Ht Hne. apply trimmed_value in Ht. unfold Js.nonblank.
  rewrite Ht. by rewrite (proj2 (truthy_true s) Hne).
Qed.

(** On a clean index every offered value is carried by a feature
    together with the facets above it. *)
Lemma option_supported (rawFeatures : list Feature) (data : ExtractedData)
    (filters : FilterState) (field : Field) (v : string) :
  extractLayerData rawFeatures = Some data →
  (∀ f, f ∈ features data → cleanFeature f = true) →
  hierarchyInvariant data filters →
  v ∈ optionsFor localeSort (Some data) filters field →
  editSupported data filters field v.
Proof.
  intros Hdata Hclean Hinv Hv.
  destruct (extractLayerData_sound rawFeatures data Hdata) as (HE & HM & HC & HP).
  pose proof (hierarchyInvariant_nested data filters Hinv) as Hnest.
  destruct filters as [e m c p].
  destruct field; simpl in Hv; simpl.
  - destruct (Js.truthy p) eqn:Tp.
    + apply (sortedFromSet_elem localeSort localeSort_perm), collect_elem in Hv
        as (f & Hf & Hpick).
      simpl in Hpick.
      destruct (Js.seq (Pueblo (properties f)) p); [|discriminate].
      destruct (Js.otruthy (NOM_ENT (properties f))); [|discriminate].
      simpl in Hpick. eauto.
    + apply (sortedFromSet_elem localeSort localeSort_perm) in Hv.
      destruct (HE v Hv) as (f & Hf & Hi & Hne). subst v.
      destruct (clean_indexedEnt f (Hclean f Hf) Hne) as [Hent _]. eauto.
  - destruct (Js.truthy e) eqn:Te; simpl in Hv; [|by apply elem_of_nil in Hv].
    apply truthy_true in Te. split; [exact Te|].
    destruct (Js.truthy p) eqn:Tp.
    + apply (sortedFromSet_elem localeSort localeSort_perm), collect_elem in Hv
        as (f & Hf & Hpick).
      simpl in Hpick.
      destruct (Js.seq (Pueblo (properties f)) p); [|discriminate].
      destruct (Js.seq (NOM_ENT (properties f)) e) eqn:Se; [|discriminate].
      destruct (Js.otruthy (NOM_MUN (properties f))); [|discriminate].
      simpl in Hpick. apply seq_true in Se. eauto.
    + apply (sortedFromSet_elem localeSort localeSort_perm) in Hv.
      destruct (HM e v Hv) as (f & Hf & Hie & Him & Hne & Hnm). subst e v.
      destruct (clean_indexedEnt f (Hclean f Hf) Hne) as [Hent _].
      pose proof (clean_indexedMun f (Hclean f Hf) Hnm) as Hmun. eauto.
  - destruct (Js.truthy e) eqn:Te; simpl in Hv; [|by apply elem_of_nil in Hv].
    destruct (Js.truthy m) eqn:Tm; simpl in Hv; [|by apply elem_of_nil in Hv].
    apply truthy_true in Te, Tm. split; [exact Te|]. split; [exact Tm|].
    destruct (Js.truthy p) eqn:Tp.
    + apply (sortedFromSet_elem localeSort localeSort_perm), collect_elem in Hv
        as (f & Hf & Hpick).
      simpl in Hpick.
      destruct (Js.seq (Pueblo (properties f)) p); [|discriminate].
      destruct (Js.seq (NOM_ENT (properties f)) e) eqn:Se; [|discriminate].
      destruct (Js.seq (NOM_MUN (properties f)) m) eqn:Sm; [|discriminate].
      destruct (Js.otruthy (featureComunidad (properties f))); [|discriminate].
      simpl in Hpick. apply seq_true in Se, Sm. eauto.
    + apply (sortedFromSet_elem localeSort localeSort_perm) in Hv.
      destruct (HC _ v Hv) as (f & Hf & Hkey & Hic & Hne & Hnm & Hnc).
      destruct (clean_indexedEnt f (Hclean f Hf) Hne) as [Hent Hbar].
      pose proof (clean_indexedMun f (Hclean f Hf) Hnm) as Hmun.
      rewrite <- Hic in Hnc.
      pose proof (clean_indexedCom f (Hclean f Hf) Hnc) as Hcom.
      destruct Hinv as [Hpair _]. destruct (Hpair Tm) as [_ Hin]. simpl in Hin.
      destruct (HM e m Hin) as (g & Hg & Hge & _ & Hgne & _).
      rewrite <- Hge in Hgne.
      destruct (clean_indexedEnt g (Hclean g Hg) Hgne) as [_ Hgbar].
      rewrite Hge in Hgbar.
      destruct (joinKey_inj _ _ _ _ Hbar Hgbar Hkey) as [Hfe Hfm].
      rewrite Hfe in Hent. rewrite Hfm in Hmun. rewrite Hic in Hcom. eauto 6.
  - assert (Hfrom : ∃ f, f ∈ features data ∧ Pueblo (properties f) = Some v
                         ∧ v ≠ "").
    { destruct (negb (Js.truthy e) && negb (Js.truthy m) && negb (Js.truthy c)).
      - apply (sortedFromSet_elem localeSort localeSort_perm) in Hv.
        destruct (HP v Hv) as (f & Hf & Hi & Hne). subst v.
        pose proof (clean_indexedPue f (Hclean f Hf) Hne). eauto.
      - apply (sortedFromSet_elem localeSort localeSort_perm), collect_elem in Hv
          as (f & Hf & Hpick).
        simpl in Hpick.
        destruct (_ && _ && _ && Js.otruthy (Pueblo (properties f))) eqn:Hb;
          [|discriminate].
        apply andb_true_iff in Hb as [_ Hb].
        rewrite Hpick in Hb. simpl in Hb. apply truthy_true in Hb. eauto. }
    destruct Hfrom as (f & Hf & Hpue & Hne).
    split; [|split; [exact Hnest|eauto]].
    apply trimmed_nonblank; [|exact Hne].
    destruct (cleanFeature_fields f (Hclean f Hf)) as (_ & _ & _ & Cp & _).
    by rewrite Hpue in Cp.
Qed.

(** X24: choosing an offered option never empties the result. On an
    index built from features whose names are stored trimmed and whose
    state names hold no '|', and for a selection that satisfies the
    containment invariant, every value of every option list, passed
    through the reconciler as the edit of its facet, gives a selection
    with a positive count. *)
Theorem chosen_option_has_results (rawFeatures : list Feature)
    (data : ExtractedData) (filters : FilterState) (field : Field) (v : string) :
  extractLayerData rawFeatures = Some data →
  (∀ f, f ∈ features data → cleanFeature f = true) →
  hierarchyInvariant data filters →
  v ∈ optionsFor localeSort (Some data) filters field →
  (0 < getFilteredCount (Some data)
         (synchronizeFilters (Some data) field v filters))%nat.
Proof.
  intros Hdata Hclean Hinv Hv.
  apply supported_edit_counts. by apply (option_supported rawFeatures).
Qed.

End ChooseOption.

Lemma chosen_option_has_results_witness :
  extractLayerData Scenario.raw = Some Scenario.data
  ∧ (∀ f, f ∈ features Scenario.data → cleanFeature f = true)
  ∧ hierarchyInvariant Scenario.data (mkFilters "Oaxaca" "Juchitán" "" "")
  ∧ "Chiapas" ∈ optionsFor Scenario.byteSort (Some Scenario.data)
                  (mkFilters "Oaxaca" "Juchitán" "" "") F_entidad
  ∧ (0 < getFilteredCount (Some Scenario.data)
           (synchronizeFilters (Some Scenario.data) F_entidad
              "Chiapas" (mkFilters "Oaxaca" "Juchitán" "" "")))%nat.
Proof.
  assert (H0 : extractLayerData Scenario.raw = Some Scenario.data).
  { vm_compute. reflexivity. }
  assert (H1 : ∀ f, f ∈ features Scenario.data → cleanFeature f = true).
  { intros f Hf. vm_compute in Hf.
    repeat (apply elem_of_cons in Hf as [->|Hf]; [reflexivity|]).
    by apply elem_of_nil in Hf. }
  assert (H2 : hierarchyInvariant Scenario.data
                 (mkFilters "Oaxaca" "Juchitán" "" "")).
  { apply (bool_decide_unpack _). vm_compute. exact I. }
  assert (H3 : "Chiapas" ∈ optionsFor Scenario.byteSort (Some Scenario.data)
                             (mkFilters "Oaxaca" "Juchitán" "" "") F_entidad).
  { apply (bool_decide_unpack _). vm_compute. exact I. }
  split; [exact H0|]. split; [exact H1|]. split; [exact H2|]. split; [exact H3|].
  exact (chosen_option_has_results Scenario.byteSort byteSort_perm Scenario.raw
           Scenario.data (mkFilters "Oaxaca" "Juchitán" "" "") F_entidad "Chiapas"
           H0 H1 H2 H3).
Defined.
